(** * The Babel REPL: the worker-side compile function and its orchestrator

    A shallow embedding of the two source files of the playground:

    - the worker's [compile] function (the file with the [Babel.transform]
      call), in [Module Compile];
    - the React component [Repl] of [js/repl/Repl.js], in [Module Repl], as
      an event-driven state machine.

    JavaScript strings are Rocq strings whose characters stand for code
    units below 256; [null] is [None]. *)

From Stdlib Require Import ZArith Ascii.
From stdpp Require Import base option list strings gmap.

Local Open Scope Z_scope.

(** ** The string built-ins the source calls *)

Module Js.

(** [String.prototype.trim] strips WhiteSpace and LineTerminator code
    points; below 256 these are TAB, LF, VT, FF, CR, SP and NBSP. *)
Definition isWhiteSpace (c : ascii) : bool :=
  match N_of_ascii c with
  | 9 | 10 | 11 | 12 | 13 | 32 | 160 => true
  | _ => false
  end%N.

Definition isEmpty (s : string) : bool :=
  match s with EmptyString => true | String _ _ => false end.

(** Truthiness of a string value: every string but the empty one. *)
Definition truthy (s : string) : bool := negb (isEmpty s).

Fixpoint trimStart (s : string) : string :=
  match s with
  | EmptyString => EmptyString
  | String c s' => if isWhiteSpace c then trimStart s' else s
  end.

Fixpoint trimEnd (s : string) : string :=
  match s with
  | EmptyString => EmptyString
  | String c s' =>
      let r := trimEnd s' in
      if isWhiteSpace c && isEmpty r then EmptyString else String c r
  end.

Definition trim (s : string) : string := trimEnd (trimStart s).

(** [s.split(sep)] for a one-character separator: never the empty
    list, [""] splits to [[""]]. *)
Fixpoint split (sep : ascii) (s : string) : list string :=
  match s with
  | EmptyString => [EmptyString]
  | String c s' =>
      if Ascii.eqb c sep then EmptyString :: split sep s'
      else match split sep s' with
           | p :: ps => String c p :: ps
           | [] => [String c EmptyString]
           end
  end.

(** [l.join(sep)]. *)
Fixpoint join (sep : string) (l : list string) : string :=
  match l with
  | [] => EmptyString
  | [x] => x
  | x :: rest => x +:+ sep +:+ join sep rest
  end.

(** Whether a string starts with, ends with, or holds a given kind of
    character. *)
Definition startsBlank (s : string) : bool :=
  match s with
  | EmptyString => false
  | String c _ => isWhiteSpace c
  end.

Fixpoint endsBlank (s : string) : bool :=
  match s with
  | EmptyString => false
  | String c EmptyString => isWhiteSpace c
  | String _ s' => endsBlank s'
  end.

Fixpoint contains (sep : ascii) (s : string) : bool :=
  match s with
  | EmptyString => false
  | String c s' => Ascii.eqb c sep || contains sep s'
  end.

(** A string of blanks and nothing else. *)
Fixpoint isBlank (s : string) : bool :=
  match s with
  | EmptyString => true
  | String c s' => isWhiteSpace c && isBlank s'
  end.

(** An [Error] object, the kind of value Babel and [JSON.stringify]
    throw. *)
Record Error := mkError { name : string; message : string }.

(** [Error.prototype.toString], what a template literal prints. *)
Definition toString (e : Error) : string :=
  if isEmpty (name e) then message e
  else if isEmpty (message e) then name e
  else name e +:+ ": " +:+ message e.

End Js.

(** ** The compile function of the worker *)

Module Compile.

(** A nullable version field of the env config. *)
Definition Version := option string.

Record EnvConfig := mkEnvConfig {
  browsers : string;
  electron : Version;
  isEnvPresetEnabled : bool;
  isElectronEnabled : bool;
  isNodeEnabled : bool;
  node : Version;
}.

(** The [targets] object: a key that was never assigned is [None]. *)
Record Targets := mkTargets {
  t_browsers : option (list string);
  t_electron : option Version;
  t_node : option Version;
}.

(** The [options] object of the env preset. [onPresetBuild] is either
    [null] ([false]) or the closure of the invocation that built the
    options ([true]). *)
Record EnvOptions := mkEnvOptions {
  onPresetBuild : bool;
  targets : Targets;
  useBuiltIns : bool;
}.

(** An element of the presets array: a name, or a pair of a name and
    its options. *)
Inductive PresetEntry :=
| PresetName (label : string)
| PresetWithOptions (label : string) (options : EnvOptions).

(** Arrays live in a store; [config.presets] is a reference into it. *)
Definition loc := positive.
Abbreviation Heap := (gmap loc (list PresetEntry)).

(** [CompileConfig P]: the config object, with presets held as [P]. At
    [P := loc] it is the object [compile] receives, at
    [P := list PresetEntry] a snapshot of its content. *)
Record CompileConfig (P : Type) := mkCompileConfig {
  debugEnvPreset : bool;
  envConfig : option EnvConfig;
  evaluate : bool;
  presets : P;
  sourceMap : bool;
  cfg_useBuiltIns : bool;
}.
Arguments mkCompileConfig {P}.
Arguments debugEnvPreset {P}.
Arguments envConfig {P}.
Arguments evaluate {P}.
Arguments presets {P}.
Arguments sourceMap {P}.
Arguments cfg_useBuiltIns {P}.

(** The object [compile] returns. *)
Record Return := mkReturn {
  compiled : option string;
  transformTime : option Z;
  ast : option string;
  compileErrorMessage : option string;
  envPresetDebugInfo : option string;
  r_sourceMap : option string;
}.

(** The options object handed to [Babel.transform]; [t_presets] is the
    content of the presets array at the time of the call. *)
Record TransformOptions := mkTransformOptions {
  babelrc : bool;
  filename : string;
  t_presets : list PresetEntry;
  t_sourceMap : bool;
}.

Definition deref (h : Heap) (l : loc) : list PresetEntry :=
  default [] (h !! l).

(** [array.push(x)] on the array at [l]. *)
Definition push (l : loc) (x : PresetEntry) (h : Heap) : Heap :=
  <[l := deref h l ++ [x]]> h.

(** The content of a config object in a given store. *)
Definition snapshot (h : Heap) (config : CompileConfig loc)
  : CompileConfig (list PresetEntry) :=
  mkCompileConfig (debugEnvPreset config) (envConfig config)
    (evaluate config) (deref h (presets config)) (sourceMap config)
    (cfg_useBuiltIns config).

(** Lines 29 to 41: the [targets] object. *)
Definition buildTargets (ec : EnvConfig) : Targets :=
  {| t_browsers :=
       if Js.truthy (browsers ec)
       then Some (filter (fun value => Is_true (Js.truthy value))
                    (map Js.trim (Js.split "," (browsers ec))))
       else None;
     t_electron := if isElectronEnabled ec then Some (electron ec) else None;
     t_node := if isNodeEnabled ec then Some (node ec) else None |}.

(** Lines 45 to 56: the [options] object. *)
Definition buildOptions {P} (config : CompileConfig P) (ec : EnvConfig)
  : EnvOptions :=
  {| onPresetBuild := debugEnvPreset config;
     targets := buildTargets ec;
     useBuiltIns := negb (evaluate config) && cfg_useBuiltIns config |}.

(** The guard of line 28. *)
Definition envEnabled {P} (config : CompileConfig P) : option EnvConfig :=
  match envConfig config with
  | Some ec => if isEnvPresetEnabled ec then Some ec else None
  | None => None
  end.

(** *** The wording of the specification for the browsers list

    Stated without the functions above, to compare [buildTargets]
    with. *)

(** [entry] is [piece] less the blanks at its two ends: blanks only
    were taken off, and none is left at either end. *)
Definition trimmedFrom (piece entry : string) : Prop :=
  exists before after,
    piece = before +:+ entry +:+ after /\
    Js.isBlank before = true /\ Js.isBlank after = true /\
    Js.startsBlank entry = false /\ Js.endsBlank entry = false.

(** [entries] is the browsers string [s] split on commas, each piece
    trimmed, the empty ones dropped: the pieces are what the commas of
    [s] separate, in order. *)
Definition browsersOf (s : string) (entries : list string) : Prop :=
  exists pieces trimmed,
    Js.join "," pieces = s /\ pieces <> [] /\
    Forall (fun piece => Js.contains "," piece = false) pieces /\
    Forall2 trimmedFrom pieces trimmed /\
    entries = List.filter (fun entry => negb (Js.isEmpty entry)) trimmed.

Section WithBabel.

(** What the worker pre-loads and the function imports: the state of
    the [Babel] global, the values a transform returns, the result
    object the env preset reports. *)
Context {BabelState Ast SourceMap EnvResult : Type}.

Record Transformed := mkTransformed {
  tr_code : string;
  tr_ast : Ast;
  tr_map : SourceMap;
}.

(** One call of [Babel.transform]: the [onPresetBuild] callbacks it
    invoked, in order, each with the index of the preset entry whose
    callback it was, and then how the call ended. *)
Record TransformRun := mkRun {
  callbacks : list (nat * EnvResult);
  outcome : Js.Error + Transformed;
}.

Variable Babel_transform :
  string -> TransformOptions -> BabelState -> TransformRun * BabelState.
(** [JSON.stringify] on an AST (with indentation 2) and on a source
    map; [inl] is a throw. *)
Variable JSON_stringify_ast : Ast -> Js.Error + string.
Variable JSON_stringify_map : SourceMap -> Js.Error + string.
Variable getDebugInfoFromEnvResult : EnvResult -> string.

Record World := mkWorld {
  heap : Heap;
  babel : BabelState;
  clock : nat -> Z;      (* the successive readings of [Date.now()] *)
  reads : nat;           (* how many readings were taken *)
  console : list string; (* lines written by [console.error] *)
  calls : list (string * TransformOptions);
                         (* the calls of [Babel.transform] made so far *)
}.

Definition Date_now (w : World) : Z * World :=
  (clock w (reads w),
   mkWorld (heap w) (babel w) (clock w) (S (reads w)) (console w) (calls w)).

Definition console_error (line : string) (w : World) : World :=
  mkWorld (heap w) (babel w) (clock w) (reads w) (console w ++ [line])
    (calls w).

Definition set_heap (h : Heap) (w : World) : World :=
  mkWorld h (babel w) (clock w) (reads w) (console w) (calls w).

(** [Babel.transform(source, options)]. *)
Definition Babel_call (source : string) (options : TransformOptions)
    (w : World) : TransformRun * World :=
  let '(run, b) := Babel_transform source options (babel w) in
  (run, mkWorld (heap w) b (clock w) (reads w) (console w)
          (calls w ++ [(source, options)])).

(** Lines 28 to 59. Returns the slot of the entry whose
    [onPresetBuild] is this invocation's closure, if there is one. *)
Definition addEnvPreset (config : CompileConfig loc) (w : World)
  : option nat * World :=
  match envEnabled config with
  | Some ec =>
      let options := buildOptions config ec in
      let slot := length (deref (heap w) (presets config)) in
      (if debugEnvPreset config then Some slot else None,
       set_heap (push (presets config) (PresetWithOptions "env" options)
                   (heap w)) w)
  | None => (None, w)
  end.

(** Lines 63 to 68: the second argument of [Babel.transform]. *)
Definition transformOptions (config : CompileConfig loc) (w : World)
  : TransformOptions :=
  {| babelrc := false;
     filename := "repl";
     t_presets := deref (heap w) (presets config);
     t_sourceMap := sourceMap config |}.

(** The assignments the closure of line 47 makes while the transform
    runs: the last report to this invocation's own entry wins. *)
Definition runCallbacks (slot : option nat) (calls : list (nat * EnvResult))
  : option string :=
  match slot with
  | None => None
  | Some i =>
      foldl (fun info call =>
               if Nat.eqb (fst call) i
               then Some (getDebugInfoFromEnvResult (snd call))
               else info)
            None calls
  end.

(** The catch block of lines 82 to 89. *)
Definition failure (error : Js.Error) : Return :=
  {| compiled := None;
     transformTime := None;
     ast := None;
     compileErrorMessage := Some (Js.message error);
     envPresetDebugInfo := None;
     r_sourceMap := None |}.

Definition compile (source : string) (config : CompileConfig loc)
    (w : World) : Return * World :=
  let '(slot, w) := addEnvPreset config w in
  let '(start, w) := Date_now w in
  let '(run, w) := Babel_call source (transformOptions config w) w in
  let info := runCallbacks slot (callbacks run) in
  match outcome run with
  | inl error => (failure error, w)
  | inr transformed =>
      let '(stop, w) := Date_now w in
      match JSON_stringify_ast (tr_ast transformed) with
      | inl error => (failure error, w)
      | inr tree =>
          let '(sm, w) :=
            if sourceMap config then
              match JSON_stringify_map (tr_map transformed) with
              | inr s => (Some s, w)
              | inl error =>
                  (None,
                   console_error
                     ("Source Map generation failed: " +:+ Js.toString error)
                     w)
              end
            else (None, w) in
          ({| compiled := Some (tr_code transformed);
              transformTime := Some (stop - start);
              ast := Some tree;
              compileErrorMessage := None;
              envPresetDebugInfo := info;
              r_sourceMap := sm |}, w)
      end
  end.

(** The run of the one transform call [compile source config] makes
    when started in [w]. *)
Definition transformCall (source : string) (config : CompileConfig loc)
    (w : World) : TransformRun :=
  let w1 := snd (addEnvPreset config w) in
  fst (Babel_transform source (transformOptions config w1) (babel w1)).

(** Equality of two returned objects in every field but
    [transformTime]. *)
Definition same_but_time (r1 r2 : Return) : Prop :=
  compiled r1 = compiled r2 /\ ast r1 = ast r2 /\
  compileErrorMessage r1 = compileErrorMessage r2 /\
  envPresetDebugInfo r1 = envPresetDebugInfo r2 /\
  r_sourceMap r1 = r_sourceMap r2.

(** [n] calls of [compile] in a row with the same arguments, each
    started in the world the one before it left. *)
Fixpoint compileTimes (n : nat) (source : string) (config : CompileConfig loc)
    (w : World) : list Return * World :=
  match n with
  | O => ([], w)
  | S m =>
      let '(r, w) := compile source config w in
      let '(rs, w) := compileTimes m source config w in
      (r :: rs, w)
  end.

End WithBabel.

End Compile.

(** ** The orchestrator: the [Repl] component *)

Module Repl.

Definition DEBOUNCE_DELAY : Z := 500.

Record PluginConfig := mkPluginConfig {
  label : string;
  package : string;
}.

Record PluginState := mkPluginState {
  config : PluginConfig;
  didError : bool;
  isEnabled : bool;
  isLoaded : bool;
  isLoading : bool;
}.

(** A string-keyed object; the list order is the enumeration order of
    [for ... in] and [Object.keys]. *)
Definition PluginStateMap := list (string * PluginState).

Record BabelState := mkBabelState {
  build : string;
  circleciRepo : string;
  b_didError : bool;
  b_isLoaded : bool;
  b_isLoading : bool;
  version : string;
}.

Record State := mkState {
  babel : BabelState;
  builtIns : bool;
  code : string;
  compiled : option string;
  ast : option string;
  transformTime : option Z;
  compileErrorMessage : option string;
  debugEnvPreset : bool;
  envConfig : Compile.EnvConfig;
  envPresetDebugInfo : option string;
  envPresetState : PluginState;
  evalErrorMessage : option string;
  isEnvPresetTabExpanded : bool;
  isPresetsTabExpanded : bool;
  isSettingsTabExpanded : bool;
  isSidebarExpanded : bool;
  lineWrap : bool;
  plugins : PluginStateMap;
  presets : PluginStateMap;
  runtimePolyfillState : PluginState;
  sourceMap : option string;
}.

(** The record [_persistState] hands to the storage service and to the
    query string. *)
Record Payload := mkPayload {
  p_babili : bool;
  p_browsers : string;
  p_build : string;
  p_builtIns : bool;
  p_circleciRepo : string;
  p_code : string;
  p_debug : bool;
  p_evaluate : bool;
  p_isEnvPresetTabExpanded : bool;
  p_isPresetsTabExpanded : bool;
  p_isSettingsTabExpanded : bool;
  p_lineWrap : bool;
  p_presets : string;
  p_showSidebar : bool;
  p_targets : string;
  p_version : string;
}.

(** The two functions the source passes as [setStateCallback]. *)
Inductive Callback := CheckForUnloadedPlugins | PersistState.

(** Calls that leave the component, in the order they are made. *)
Inductive Request :=
| WorkerCompile (source : string)
    (cfg : Compile.CompileConfig (list Compile.PresetEntry))
    (setStateCallback : Callback)        (* this._workerApi.compile *)
| WorkerLoadPlugin (key : string)        (* this._workerApi.loadPlugin(plugins[key]) *)
| WorkerLoadEnvPreset                    (* this._workerApi.loadPlugin(envPresetState) *)
| WorkerRegisterEnvPreset                (* this._workerApi.registerEnvPreset *)
| LoadRuntimePolyfill                    (* loadPlugin(runtimePolyfillState, ..., iframe) *)
| Evaluate (source : string) (sm : option string) (* scopedEval.execute *)
| Persist (payload : Payload).           (* StorageService.set and UriUtils.updateQuery *)

(** The instance: its React state, its counter, the timer of the
    debounced [_compileToState] (the last arguments and the time of the
    last call while a timer is pending) and the calls made so far. *)
Record Component := mkComponent {
  state : State;
  _numLoadingPlugins : Z;
  _compileToState : option (string * Z);
  outbox : list Request;
}.

(** *** Field updates *)

Definition with_isEnabled (v : bool) (p : PluginState) : PluginState :=
  mkPluginState (config p) (didError p) v (isLoaded p) (isLoading p).

Definition with_isLoading (v : bool) (p : PluginState) : PluginState :=
  mkPluginState (config p) (didError p) (isEnabled p) (isLoaded p) v.

Definition with_isLoaded (v : bool) (p : PluginState) : PluginState :=
  mkPluginState (config p) (didError p) (isEnabled p) v (isLoading p).

Definition with_didError (v : bool) (p : PluginState) : PluginState :=
  mkPluginState (config p) v (isEnabled p) (isLoaded p) (isLoading p).

Definition set_code (v : string) (s : State) : State :=
  mkState (babel s) (builtIns s) v (compiled s) (ast s) (transformTime s)
    (compileErrorMessage s) (debugEnvPreset s) (envConfig s)
    (envPresetDebugInfo s) (envPresetState s) (evalErrorMessage s)
    (isEnvPresetTabExpanded s) (isPresetsTabExpanded s)
    (isSettingsTabExpanded s) (isSidebarExpanded s) (lineWrap s)
    (plugins s) (presets s) (runtimePolyfillState s) (sourceMap s).

(** [setState(result)] for the object [compile] returned. *)
Definition set_result (r : Compile.Return) (s : State) : State :=
  mkState (babel s) (builtIns s) (code s) (Compile.compiled r)
    (Compile.ast r) (Compile.transformTime r)
    (Compile.compileErrorMessage r) (debugEnvPreset s) (envConfig s)
    (Compile.envPresetDebugInfo r) (envPresetState s) (evalErrorMessage s)
    (isEnvPresetTabExpanded s) (isPresetsTabExpanded s)
    (isSettingsTabExpanded s) (isSidebarExpanded s) (lineWrap s)
    (plugins s) (presets s) (runtimePolyfillState s) (Compile.r_sourceMap r).

Definition set_evalErrorMessage (v : option string) (s : State) : State :=
  mkState (babel s) (builtIns s) (code s) (compiled s) (ast s)
    (transformTime s) (compileErrorMessage s) (debugEnvPreset s)
    (envConfig s) (envPresetDebugInfo s) (envPresetState s) v
    (isEnvPresetTabExpanded s) (isPresetsTabExpanded s)
    (isSettingsTabExpanded s) (isSidebarExpanded s) (lineWrap s)
    (plugins s) (presets s) (runtimePolyfillState s) (sourceMap s).

Definition set_envConfig (v : Compile.EnvConfig) (s : State) : State :=
  mkState (babel s) (builtIns s) (code s) (compiled s) (ast s)
    (transformTime s) (compileErrorMessage s) (debugEnvPreset s) v
    (envPresetDebugInfo s) (envPresetState s) (evalErrorMessage s)
    (isEnvPresetTabExpanded s) (isPresetsTabExpanded s)
    (isSettingsTabExpanded s) (isSidebarExpanded s) (lineWrap s)
    (plugins s) (presets s) (runtimePolyfillState s) (sourceMap s).

Definition set_envPresetState (v : PluginState) (s : State) : State :=
  mkState (babel s) (builtIns s) (code s) (compiled s) (ast s)
    (transformTime s) (compileErrorMessage s) (debugEnvPreset s)
    (envConfig s) (envPresetDebugInfo s) v (evalErrorMessage s)
    (isEnvPresetTabExpanded s) (isPresetsTabExpanded s)
    (isSettingsTabExpanded s) (isSidebarExpanded s) (lineWrap s)
    (plugins s) (presets s) (runtimePolyfillState s) (sourceMap s).

Definition set_plugins (v : PluginStateMap) (s : State) : State :=
  mkState (babel s) (builtIns s) (code s) (compiled s) (ast s)
    (transformTime s) (compileErrorMessage s) (debugEnvPreset s)
    (envConfig s) (envPresetDebugInfo s) (envPresetState s)
    (evalErrorMessage s) (isEnvPresetTabExpanded s) (isPresetsTabExpanded s)
    (isSettingsTabExpanded s) (isSidebarExpanded s) (lineWrap s)
    v (presets s) (runtimePolyfillState s) (sourceMap s).

Definition set_presets (v : PluginStateMap) (s : State) : State :=
  mkState (babel s) (builtIns s) (code s) (compiled s) (ast s)
    (transformTime s) (compileErrorMessage s) (debugEnvPreset s)
    (envConfig s) (envPresetDebugInfo s) (envPresetState s)
    (evalErrorMessage s) (isEnvPresetTabExpanded s) (isPresetsTabExpanded s)
    (isSettingsTabExpanded s) (isSidebarExpanded s) (lineWrap s)
    (plugins s) v (runtimePolyfillState s) (sourceMap s).

Definition set_runtimePolyfillState (v : PluginState) (s : State) : State :=
  mkState (babel s) (builtIns s) (code s) (compiled s) (ast s)
    (transformTime s) (compileErrorMessage s) (debugEnvPreset s)
    (envConfig s) (envPresetDebugInfo s) (envPresetState s)
    (evalErrorMessage s) (isEnvPresetTabExpanded s) (isPresetsTabExpanded s)
    (isSettingsTabExpanded s) (isSidebarExpanded s) (lineWrap s)
    (plugins s) (presets s) v (sourceMap s).

(** The boolean fields of the state, as [{[name]: value}] reaches them. *)
Definition set_flag (name : string) (v : bool) (s : State) : option State :=
  if String.eqb name "builtIns" then
    Some (mkState (babel s) v (code s) (compiled s) (ast s)
      (transformTime s) (compileErrorMessage s) (debugEnvPreset s)
      (envConfig s) (envPresetDebugInfo s) (envPresetState s)
      (evalErrorMessage s) (isEnvPresetTabExpanded s)
      (isPresetsTabExpanded s) (isSettingsTabExpanded s)
      (isSidebarExpanded s) (lineWrap s) (plugins s) (presets s)
      (runtimePolyfillState s) (sourceMap s))
  else if String.eqb name "debugEnvPreset" then
    Some (mkState (babel s) (builtIns s) (code s) (compiled s) (ast s)
      (transformTime s) (compileErrorMessage s) v
      (envConfig s) (envPresetDebugInfo s) (envPresetState s)
      (evalErrorMessage s) (isEnvPresetTabExpanded s)
      (isPresetsTabExpanded s) (isSettingsTabExpanded s)
      (isSidebarExpanded s) (lineWrap s) (plugins s) (presets s)
      (runtimePolyfillState s) (sourceMap s))
  else if String.eqb name "isEnvPresetTabExpanded" then
    Some (mkState (babel s) (builtIns s) (code s) (compiled s) (ast s)
      (transformTime s) (compileErrorMessage s) (debugEnvPreset s)
      (envConfig s) (envPresetDebugInfo s) (envPresetState s)
      (evalErrorMessage s) v
      (isPresetsTabExpanded s) (isSettingsTabExpanded s)
      (isSidebarExpanded s) (lineWrap s) (plugins s) (presets s)
      (runtimePolyfillState s) (sourceMap s))
  else if String.eqb name "isPresetsTabExpanded" then
    Some (mkState (babel s) (builtIns s) (code s) (compiled s) (ast s)
      (transformTime s) (compileErrorMessage s) (debugEnvPreset s)
      (envConfig s) (envPresetDebugInfo s) (envPresetState s)
      (evalErrorMessage s) (isEnvPresetTabExpanded s)
      v (isSettingsTabExpanded s)
      (isSidebarExpanded s) (lineWrap s) (plugins s) (presets s)
      (runtimePolyfillState s) (sourceMap s))
  else if String.eqb name "isSettingsTabExpanded" then
    Some (mkState (babel s) (builtIns s) (code s) (compiled s) (ast s)
      (transformTime s) (compileErrorMessage s) (debugEnvPreset s)
      (envConfig s) (envPresetDebugInfo s) (envPresetState s)
      (evalErrorMessage s) (isEnvPresetTabExpanded s)
      (isPresetsTabExpanded s) v
      (isSidebarExpanded s) (lineWrap s) (plugins s) (presets s)
      (runtimePolyfillState s) (sourceMap s))
  else if String.eqb name "isSidebarExpanded" then
    Some (mkState (babel s) (builtIns s) (code s) (compiled s) (ast s)
      (transformTime s) (compileErrorMessage s) (debugEnvPreset s)
      (envConfig s) (envPresetDebugInfo s) (envPresetState s)
      (evalErrorMessage s) (isEnvPresetTabExpanded s)
      (isPresetsTabExpanded s) (isSettingsTabExpanded s)
      v (lineWrap s) (plugins s) (presets s)
      (runtimePolyfillState s) (sourceMap s))
  else if String.eqb name "lineWrap" then
    Some (mkState (babel s) (builtIns s) (code s) (compiled s) (ast s)
      (transformTime s) (compileErrorMessage s) (debugEnvPreset s)
      (envConfig s) (envPresetDebugInfo s) (envPresetState s)
      (evalErrorMessage s) (isEnvPresetTabExpanded s)
      (isPresetsTabExpanded s) (isSettingsTabExpanded s)
      (isSidebarExpanded s) v (plugins s) (presets s)
      (runtimePolyfillState s) (sourceMap s))
  else None.

(** The own keys the constructor gives the state object (lines 95 to
    127), for [state.hasOwnProperty]. *)
Definition stateKeys : list string :=
  [ "babel"; "builtIns"; "code"; "compiled"; "ast"; "transformTime";
    "compileErrorMessage"; "debugEnvPreset"; "envConfig";
    "envPresetDebugInfo"; "envPresetState"; "evalErrorMessage";
    "isEnvPresetTabExpanded"; "isPresetsTabExpanded";
    "isSettingsTabExpanded"; "isSidebarExpanded"; "lineWrap"; "plugins";
    "presets"; "runtimePolyfillState"; "sourceMap" ].

(** Those of them that hold a boolean: the names [set_flag] knows. *)
Definition flagNames : list string :=
  [ "builtIns"; "debugEnvPreset"; "isEnvPresetTabExpanded";
    "isPresetsTabExpanded"; "isSettingsTabExpanded"; "isSidebarExpanded";
    "lineWrap" ].

(** The keys [setState(babelState)] adds to the state object at line
    245: the fields the source reads off a Babel state (lines 136 to
    164 and 459 to 472). *)
Definition babelKeys : list string :=
  [ "build"; "circleciRepo"; "didError"; "errorMessage"; "isLoaded";
    "isLoading"; "version" ].

(** The names a setting change is modelled for. Under any other own
    key of the state object, line 412 stores a boolean where the typed
    state holds a value of another type, or in a key it does not have. *)
Definition typedSetting (name : string) : bool :=
  String.eqb name "babel-polyfill"
  || bool_decide (name ∈ flagNames)
  || negb (bool_decide (name ∈ stateKeys))
     && negb (bool_decide (name ∈ babelKeys)).

(** *** Objects used as maps *)

(** [map[key]]. *)
Fixpoint getKey (key : string) (m : PluginStateMap) : option PluginState :=
  match m with
  | [] => None
  | (k, p) :: rest => if String.eqb k key then Some p else getKey key rest
  end.

(** [map.hasOwnProperty(key)]. *)
Definition hasKey (key : string) (m : PluginStateMap) : bool :=
  match getKey key m with Some _ => true | None => false end.

(** An assignment to a field of [map[key]]. *)
Fixpoint updateKey (key : string) (f : PluginState -> PluginState)
    (m : PluginStateMap) : PluginStateMap :=
  match m with
  | [] => []
  | (k, p) :: rest =>
      if String.eqb k key then (k, f p) :: rest
      else (k, p) :: updateKey key f rest
  end.

(** *** A state and exception monad over the component

    A handler runs on the UI thread against the instance; a throw keeps
    the mutations made before it. *)

Inductive Result (A : Type) :=
| Ok (a : A)
| Threw (e : Js.Error).
Arguments Ok {A}.
Arguments Threw {A}.

Definition M (A : Type) : Type := Component -> Result A * Component.

#[export] Instance M_ret : MRet M := fun A a c => (Ok a, c).
#[export] Instance M_bind : MBind M := fun A B f m c =>
  match m c with
  | (Ok a, c') => f a c'
  | (Threw e, c') => (Threw e, c')
  end.

Definition throw {A} (e : Js.Error) : M A := fun c => (Threw e, c).

Definition getState : M State := fun c => (Ok (state c), c).

(** [this.setState(update)], applied at once. *)
Definition setState (update : State -> State) : M unit := fun c =>
  (Ok (), mkComponent (update (state c)) (_numLoadingPlugins c)
            (_compileToState c) (outbox c)).

Definition addLoading (d : Z) : M unit := fun c =>
  (Ok (), mkComponent (state c) (_numLoadingPlugins c + d)
            (_compileToState c) (outbox c)).

Definition setTimer (t : option (string * Z)) : M unit := fun c =>
  (Ok (), mkComponent (state c) (_numLoadingPlugins c) t (outbox c)).

Definition send (r : Request) : M unit := fun c =>
  (Ok (), mkComponent (state c) (_numLoadingPlugins c)
            (_compileToState c) (outbox c ++ [r])).

(** Reading a property of [undefined]. *)
Definition TypeError (property : string) : Js.Error :=
  Js.mkError "TypeError"
    ("Cannot read property '" +:+ property +:+ "' of undefined").

Section WithCollaborators.

(** Imported from modules outside these two files. *)
Variable envConfigToTargetsString : Compile.EnvConfig -> string.
(** [scopedEval.execute]: [Some e] when it throws [e]. *)
Variable scopedEval_execute : string -> option string -> option Js.Error.

(** Modelled from the spec: the synchronous part of
    [WorkerApi.loadPlugin] and of the UI-thread [loadPlugin], neither of
    which is among the source files. Issuing a load request takes the
    plugin to [loading]. *)
Definition beginLoad (p : PluginState) : PluginState :=
  with_isLoading true p.

(** Modelled from the spec: what the two loaders do to the plugin
    state when the load completes, before the orchestrator's own
    continuation runs. Success takes it to [loaded], failure to
    [load-error]. *)
Definition endLoad (success : bool) (p : PluginState) : PluginState :=
  if success then with_isLoading false (with_isLoaded true p)
  else with_isLoading false (with_didError true p).

(** [_presetsToArray], lines 484 to 490. *)
Definition _presetsToArray (s : State) : list string :=
  List.map (fun entry => label (config (snd entry)))
    (List.filter (fun entry => isEnabled (snd entry) && isLoaded (snd entry))
       (presets s)).

(** The guard of line 265. *)
Definition needsLoad (plugin : PluginState) : bool :=
  isEnabled plugin && negb (isLoaded plugin) && negb (isLoading plugin).

(** The loop of lines 262 to 282, over the keys [for ... in] enumerates.
    [plugins] and [this.state.plugins] are one object, so the body reads
    the current state. *)
Fixpoint forEachPlugin (keys : list string) : M unit :=
  match keys with
  | [] => mret ()
  | key :: rest =>
      s ← getState;
      match getKey key (plugins s) with
      | None => throw (TypeError "isEnabled")
      | Some plugin =>
          (if needsLoad plugin then
             addLoading 1 ;;
             setState (fun s => set_plugins (updateKey key beginLoad (plugins s)) s) ;;
             send (WorkerLoadPlugin key)
           else mret ()) ;;
          forEachPlugin rest
      end
  end.

(** [_checkForUnloadedPlugins], lines 252 to 331. *)
Definition _checkForUnloadedPlugins : M unit :=
  s ← getState;
  forEachPlugin (List.map fst (plugins s)) ;;
  (if isEnabled (runtimePolyfillState s)
      && negb (isLoaded (runtimePolyfillState s))
   then
     setState (fun s => set_runtimePolyfillState
                          (beginLoad (runtimePolyfillState s)) s) ;;
     send LoadRuntimePolyfill
   else mret ()) ;;
  (if Compile.isEnvPresetEnabled (envConfig s)
      && negb (isLoaded (envPresetState s))
   then
     setState (fun s => set_envPresetState (beginLoad (envPresetState s)) s) ;;
     send WorkerLoadEnvPreset
   else mret ()).

(** [_persistState], lines 441 to 477. *)
Definition _persistState : M unit :=
  s ← getState;
  let presetsArray := _presetsToArray s in
  match getKey "babili-standalone" (plugins s) with
  | None => throw (TypeError "isEnabled")
  | Some babili =>
      let presetsArray :=
        if isEnabled babili then presetsArray ++ ["babili"]
        else presetsArray in
      let presetsArray :=
        if Compile.isEnvPresetEnabled (envConfig s)
        then presetsArray ++ ["env"] else presetsArray in
      send (Persist
        {| p_babili := isEnabled babili;
           p_browsers := Compile.browsers (envConfig s);
           p_build := build (babel s);
           p_builtIns := builtIns s;
           p_circleciRepo := circleciRepo (babel s);
           p_code := code s;
           p_debug := debugEnvPreset s;
           p_evaluate := isEnabled (runtimePolyfillState s);
           p_isEnvPresetTabExpanded := isEnvPresetTabExpanded s;
           p_isPresetsTabExpanded := isPresetsTabExpanded s;
           p_isSettingsTabExpanded := isSettingsTabExpanded s;
           p_lineWrap := lineWrap s;
           p_presets := Js.join "," presetsArray;
           p_showSidebar := isSidebarExpanded s;
           p_targets := envConfigToTargetsString (envConfig s);
           p_version := version (babel s) |})
  end.

Definition runCallback (cb : Callback) : M unit :=
  match cb with
  | CheckForUnloadedPlugins => _checkForUnloadedPlugins
  | PersistState => _persistState
  end.

(** The update of lines 339 to 347. *)
Definition clearResults (s : State) : State :=
  set_evalErrorMessage None
    (set_result (Compile.mkReturn None None None None None None) s).

(** The config object of lines 361 to 369. *)
Definition compileConfig (s : State) (presetsArray : list string)
  : Compile.CompileConfig (list Compile.PresetEntry) :=
  {| Compile.debugEnvPreset := debugEnvPreset s;
     Compile.envConfig :=
       if isLoaded (envPresetState s) then Some (envConfig s) else None;
     Compile.evaluate :=
       isEnabled (runtimePolyfillState s)
       && isLoaded (runtimePolyfillState s);
     Compile.presets := List.map Compile.PresetName presetsArray;
     Compile.sourceMap := isEnabled (runtimePolyfillState s);
     Compile.cfg_useBuiltIns := builtIns s |}.

(** [_compile], lines 333 to 371. The continuation of the promise is
    the [CompileDone] event below. *)
Definition _compile (source : string) (setStateCallback : Callback)
  : M unit :=
  s ← getState;
  if negb (Js.truthy source) then
    setState clearResults ;;
    runCallback setStateCallback
  else
    let presetsArray := _presetsToArray s in
    match getKey "babili-standalone" (plugins s) with
    | None => throw (TypeError "isEnabled")
    | Some babili =>
        let presetsArray :=
          if isEnabled babili && isLoaded babili
          then presetsArray ++ ["babili"] else presetsArray in
        send (WorkerCompile source (compileConfig s presetsArray)
                setStateCallback)
    end.

(** [_compileToState], lines 376 to 379: [debounce] with its default
    options. A call only records its argument and its time and makes
    sure a timer is pending. *)
Definition _compileToState_call (now : Z) (source : string) : M unit :=
  setTimer (Some (source, now)).

(** The timer of [debounce] expires at [now]: the wrapped function runs
    with the last argument once [DEBOUNCE_DELAY] has passed since the
    last call (or the clock went backwards), else the timer is set
    again. *)
Definition timerExpired (now : Z) : M unit := fun c =>
  match _compileToState c with
  | None => (Ok (), c)
  | Some (source, lastCallTime) =>
      if (DEBOUNCE_DELAY <=? now - lastCallTime)
         || (now - lastCallTime <? 0)
      then (setTimer None ;; _compile source PersistState) c
      else (Ok (), c)
  end.

(** [_updateCode], lines 492 to 498. *)
Definition _updateCode (now : Z) (source : string) : M unit :=
  setState (set_code source) ;;
  _compileToState_call now source.

(** [_presetsUpdatedSetStateCallback], lines 479 to 482. *)
Definition _presetsUpdatedSetStateCallback (now : Z) : M unit :=
  _checkForUnloadedPlugins ;;
  s ← getState;
  _updateCode now (code s).

(** [_onSettingChange], lines 402 to 430, for the names of
    [typedSetting]. A name that is an own key of the state but not one
    of its boolean fields stores a boolean in a field of another type;
    the typed state has no such value, the model leaves the field as it
    is, and the properties below leave such names out. *)
Definition _onSettingChange (now : Z) (name : string) (v : bool) : M unit :=
  setState (fun s =>
    if String.eqb name "babel-polyfill" then
      set_runtimePolyfillState (with_isEnabled v (runtimePolyfillState s)) s
    else if bool_decide (name ∈ stateKeys) then
      default s (set_flag name v s)
    else if hasKey name (plugins s) then
      set_plugins (updateKey name (with_isEnabled v) (plugins s)) s
    else if hasKey name (presets s) then
      set_presets (updateKey name (with_isEnabled v) (presets s)) s
    else s) ;;
  _presetsUpdatedSetStateCallback now.

(** [_onEnvPresetSettingChange], lines 381 to 391, for the names and
    values the env config is typed with. *)
Inductive EnvSetting :=
| Browsers (v : string)
| Electron (v : Compile.Version)
| IsEnvPresetEnabled (v : bool)
| IsElectronEnabled (v : bool)
| IsNodeEnabled (v : bool)
| Node (v : Compile.Version).

Definition updateEnvConfig (setting : EnvSetting) (ec : Compile.EnvConfig)
  : Compile.EnvConfig :=
  let '(Compile.mkEnvConfig b e on eon non n) := ec in
  match setting with
  | Browsers v => Compile.mkEnvConfig v e on eon non n
  | Electron v => Compile.mkEnvConfig b v on eon non n
  | IsEnvPresetEnabled v => Compile.mkEnvConfig b e v eon non n
  | IsElectronEnabled v => Compile.mkEnvConfig b e on v non n
  | IsNodeEnabled v => Compile.mkEnvConfig b e on eon v n
  | Node v => Compile.mkEnvConfig b e on eon non v
  end.

Definition _onEnvPresetSettingChange (now : Z) (setting : EnvSetting)
  : M unit :=
  setState (fun s => set_envConfig (updateEnvConfig setting (envConfig s)) s) ;;
  _presetsUpdatedSetStateCallback now.

(** [_onIsSidebarExpandedChange], lines 393 to 400. *)
Definition _onIsSidebarExpandedChange (isExpanded : bool) : M unit :=
  setState (fun s => default s (set_flag "isSidebarExpanded" isExpanded s)) ;;
  _persistState.

(** [_onTabExpandedChange], lines 432 to 439, for the names of the
    boolean fields ([flagNames]). Under any other name line 435 stores
    the boolean in that key of the state object; the typed state cannot,
    the model leaves it as it is, and the properties below leave such
    names out. *)
Definition _onTabExpandedChange (now : Z) (name : string)
    (isExpanded : bool) : M unit :=
  setState (fun s => default s (set_flag name isExpanded s)) ;;
  _presetsUpdatedSetStateCallback now.

(** *** Events

    What the UI thread is woken up for: user input, the timer of the
    debounce, and the settling of the promises the component waits on. *)
Inductive Event :=
| BabelLoaded (babelState : BabelState)   (* [loadBabel] settled, line 244 *)
| Edit (source : string)                  (* the editor's [onChange] *)
| SettingChange (name : string) (v : bool)
| EnvPresetSettingChange (setting : EnvSetting)
| SidebarExpandedChange (isExpanded : bool)
| TabExpandedChange (name : string) (isExpanded : bool)
| Timer                                   (* the debounce timer expired *)
| CompileDone (result : Compile.Return) (setStateCallback : Callback)
| PluginLoadDone (key : string) (success : bool)
| PolyfillLoadDone (success : bool)
| EnvPresetLoadDone (success : bool)
| EnvPresetRegistered (success : bool).

(** The continuation of lines 268 to 280, after the worker proxy has
    recorded how the load ended. *)
Definition onPluginLoadDone (now : Z) (key : string) (success : bool)
  : M unit :=
  setState (fun s => set_plugins (updateKey key (endLoad success) (plugins s)) s) ;;
  addLoading (-1) ;;
  (if negb success then setState (fun s => set_plugins (plugins s) s)
   else mret ()) ;;
  c ← (fun c => (Ok c, c));
  if _numLoadingPlugins c =? 0 then _updateCode now (code (state c))
  else mret ().

(** The callback of lines 296 to 314. *)
Definition onPolyfillLoadDone (success : bool) : M unit :=
  setState (fun s => set_runtimePolyfillState
                       (endLoad success (runtimePolyfillState s)) s) ;;
  s ← getState;
  match compiled s with
  | None => mret ()
  | Some js =>
      if negb (Js.truthy js) then mret ()
      else
        send (Evaluate js (sourceMap s)) ;;
        setState (set_evalErrorMessage
                    (Js.message <$> scopedEval_execute js (sourceMap s)))
  end.

(** [_setupBabel] after the [await], lines 245 to 249. The update
    only adds the keys of the Babel state to the state object. *)
Definition onBabelLoaded (babelState : BabelState) : M unit :=
  setState (fun s => s) ;;
  if b_isLoaded babelState then
    s ← getState;
    _compile (code s) CheckForUnloadedPlugins
  else mret ().

Definition handle (now : Z) (ev : Event) : M unit :=
  match ev with
  | BabelLoaded babelState => onBabelLoaded babelState
  | Edit source => _updateCode now source
  | SettingChange name v => _onSettingChange now name v
  | EnvPresetSettingChange setting => _onEnvPresetSettingChange now setting
  | SidebarExpandedChange isExpanded => _onIsSidebarExpandedChange isExpanded
  | TabExpandedChange name isExpanded =>
      _onTabExpandedChange now name isExpanded
  | Timer => timerExpired now
  | CompileDone result setStateCallback =>
      setState (set_result result) ;;
      runCallback setStateCallback
  | PluginLoadDone key success => onPluginLoadDone now key success
  | PolyfillLoadDone success => onPolyfillLoadDone success
  | EnvPresetLoadDone success =>
      setState (fun s => set_envPresetState
                           (endLoad success (envPresetState s)) s) ;;
      send WorkerRegisterEnvPreset
  | EnvPresetRegistered success =>
      s ← getState;
      _updateCode now (code s)
  end.

(** One turn of the event loop: an exception that escapes a handler is
    reported and the loop goes on with the instance as it is. *)
Definition step (c : Component) (timed : Z * Event) : Component :=
  snd (handle (fst timed) (snd timed) c).

Definition run (trace : list (Z * Event)) (c : Component) : Component :=
  foldl step c trace.

End WithCollaborators.

(** *** Vocabulary for the properties *)

(** The events the handlers are modelled for: a setting change under a
    name of [typedSetting], a tab change under the name of a boolean
    field, and every other event. *)
Definition typedEvent (ev : Event) : bool :=
  match ev with
  | SettingChange name _ => typedSetting name
  | TabExpandedChange name _ => bool_decide (name ∈ flagNames)
  | _ => true
  end.

(** The fields a compile result lands in, and the evaluation error. *)
Definition results (s : State) :=
  (compiled s, ast s, transformTime s, compileErrorMessage s,
   envPresetDebugInfo s, evalErrorMessage s, sourceMap s).

Definition isWorkerCompile (r : Request) : bool :=
  match r with
  | WorkerCompile _ _ _ => true
  | _ => false
  end.

(** The compile requests dispatched so far. *)
Definition compileRequests (c : Component) : list Request :=
  List.filter isWorkerCompile (outbox c).

(** The plugin under [key] is loaded or has a load in flight. *)
Definition settled (key : string) (c : Component) : Prop :=
  exists p, getKey key (plugins (state c)) = Some p /\
            (isLoaded p = true \/ isLoading p = true).

(** From [c] to [c'] no result field changed and no compile request was
    dispatched. *)
Definition keepsResults (c c' : Component) : Prop :=
  results (state c') = results (state c) /\
  compileRequests c' = compileRequests c.

(** From [c] to [c'] the plugin under [key], if settled, stayed so, and
    the worker was not asked to load it. *)
Definition noLoadOf (key : string) (c c' : Component) : Prop :=
  settled key c ->
  settled key c' /\
  exists new, outbox c' = outbox c ++ new /\ WorkerLoadPlugin key ∉ new.

(** A stretch of edits and timer expiries in which every expiry comes
    less than [DEBOUNCE_DELAY] after the edit before it; [last] is the
    time of that edit. *)
Fixpoint burst (last : Z) (trace : list (Z * Event)) : Prop :=
  match trace with
  | [] => True
  | (t, Edit _) :: rest => burst t rest
  | (t, Timer) :: rest =>
      (0 <= t - last < DEBOUNCE_DELAY) /\ burst last rest
  | _ :: _ => False
  end.

(** The last edit of such a stretch, [acc] if there is none. *)
Fixpoint lastEdit (acc : string * Z) (trace : list (Z * Event))
  : string * Z :=
  match trace with
  | [] => acc
  | (t, Edit source) :: rest => lastEdit (source, t) rest
  | _ :: rest => lastEdit acc rest
  end.

(** *** The constructor's reading of the persisted presets *)

(** [object[key] = v] on an object held as a list of its entries: the
    entry is overwritten where it is, a new key goes to the end. *)
Fixpoint setKey {A} (key : string) (v : A) (m : list (string * A))
  : list (string * A) :=
  match m with
  | [] => [(key, v)]
  | (k, x) :: rest =>
      if String.eqb k key then (k, v) :: rest
      else (k, x) :: setKey key v rest
  end.

(** Lines 86 to 89; [None] is a persisted value that is not a string. *)
Definition persistedPresets (persisted : option string) : list string :=
  match persisted with
  | Some s => Js.split "," s
  | None => ["es2015"; "react"; "stage-2"]
  end.

(** Lines 91 to 94: the object [reduce] builds. *)
Definition defaultPresets (persisted : option string) : list (string * bool) :=
  foldl (fun reduced key =>
           if Js.truthy key
           then setKey ("babel-preset-" +:+ key) true reduced
           else reduced)
    [] (persistedPresets persisted).

(** The array [_persistState] joins into the [presets] field, for a
    state whose babili plugin is [babili]. *)
Definition persistedLabels (s : State) (babili : PluginState) : list string :=
  _presetsToArray s
  ++ (if isEnabled babili then ["babili"] else [])
  ++ (if Compile.isEnvPresetEnabled (envConfig s) then ["env"] else []).

(** *** More vocabulary *)

Definition isWorkerLoadPlugin (r : Request) : bool :=
  match r with
  | WorkerLoadPlugin _ => true
  | _ => false
  end.

(** The plugin loads the worker was asked for so far. *)
Definition loadRequests (c : Component) : list Request :=
  List.filter isWorkerLoadPlugin (outbox c).

Definition isEvaluate (r : Request) : bool :=
  match r with
  | Evaluate _ _ => true
  | _ => false
  end.


Definition isPluginLoadDone (timed : Z * Event) : bool :=
  match snd timed with
  | PluginLoadDone _ _ => true
  | _ => false
  end.

(** From [c] to [c'] what [obs] reads off the instance did not change. *)
Definition unchanged {A} (obs : Component -> A) (c c' : Component) : Prop :=
  obs c' = obs c.

(** The counter of loads in flight less the plugin loads asked for. *)
Definition loadBalance (c : Component) : Z :=
  _numLoadingPlugins c - Z.of_nat (length (loadRequests c)).

(** Two plugin states that differ in [isLoading] at most. *)
Definition sameButLoading (p p' : PluginState) : Prop :=
  config p' = config p /\ didError p' = didError p /\
  isEnabled p' = isEnabled p /\ isLoaded p' = isLoaded p.

(** Two states that differ at most in the [isLoading] flags of the
    plugins, of the runtime polyfill and of the env preset. *)
Definition onlyLoadingFlags (s s' : State) : Prop :=
  babel s' = babel s /\ builtIns s' = builtIns s /\ code s' = code s /\
  results s' = results s /\ debugEnvPreset s' = debugEnvPreset s /\
  envConfig s' = envConfig s /\
  isEnvPresetTabExpanded s' = isEnvPresetTabExpanded s /\
  isPresetsTabExpanded s' = isPresetsTabExpanded s /\
  isSettingsTabExpanded s' = isSettingsTabExpanded s /\
  isSidebarExpanded s' = isSidebarExpanded s /\ lineWrap s' = lineWrap s /\
  presets s' = presets s /\
  sameButLoading (envPresetState s) (envPresetState s') /\
  sameButLoading (runtimePolyfillState s) (runtimePolyfillState s') /\
  Forall2 (fun e e' => fst e' = fst e /\ sameButLoading (snd e) (snd e'))
    (plugins s) (plugins s').

(** From [c] to [c'] the state changed in loading flags at most and the
    timer of the debounce is as it was. *)
Definition checkFrame (c c' : Component) : Prop :=
  onlyLoadingFlags (state c) (state c') /\
  _compileToState c' = _compileToState c.

(** What the loop of the check does to an entry of [plugins]. *)
Definition markLoading (e : string * PluginState) : string * PluginState :=
  (fst e, if needsLoad (snd e) then beginLoad (snd e) else snd e).

End Repl.

(** ** Concrete collaborators and inputs *)

Module Scenarios.

Import Compile.

Definition entryLabel (e : PresetEntry) : string :=
  match e with
  | PresetName l => l
  | PresetWithOptions l _ => l
  end.

(** A transform without side effects whose output spells the names of
    the presets it was given. *)
Definition namingTransform (source : string) (o : TransformOptions)
    (b : unit) : @TransformRun string bool string * unit :=
  (mkRun [] (inr (mkTransformed
                    (Js.join "," (List.map entryLabel (t_presets o)))
                    source false)), b).

(** A transform that reports to the callback of entry 1 and then throws. *)
Definition throwingTransform (source : string) (o : TransformOptions)
    (b : unit) : @TransformRun string bool string * unit :=
  (mkRun [(1%nat, "targets: ie 11")]
     (inl (Js.mkError "SyntaxError" "repl: Unexpected token (1:4)")), b).

(** A transform that reports to the callback of entry 1 and returns the
    source with a source map that cannot be serialized. *)
Definition cyclicMapTransform (source : string) (o : TransformOptions)
    (b : unit) : @TransformRun string bool string * unit :=
  (mkRun [(1%nat, "targets: ie 11")]
     (inr (mkTransformed source source true)), b).

Definition stringify_ast (a : string) : Js.Error + string := inr a.

(** [true] stands for a map with a cycle. *)
Definition stringify_map (m : bool) : Js.Error + string :=
  if m then inl (Js.mkError "TypeError" "Converting circular structure to JSON")
  else inr "{}".

Definition debugInfo (r : string) : string := r.

Definition ie11 : EnvConfig :=
  mkEnvConfig "ie 11, ,chrome 50" None true false true (Some "8").

(** A config object whose presets array lives at location 1. *)
Definition envOn : CompileConfig loc :=
  mkCompileConfig true (Some ie11) false 1%positive true true.

Definition envOff : CompileConfig loc :=
  mkCompileConfig false None false 1%positive false true.

(** A store where that array is [["react"]]; the clock reads 10, 11, ... *)
Definition world0 : @World unit :=
  mkWorld {[ 1%positive := [PresetName "react"] ]} ()
    (fun n => 10 + Z.of_nat n) 0 [] [].

(** *** An orchestrator *)

Definition noTargets (ec : EnvConfig) : string := Compile.browsers ec.

Definition noEval (js : string) (sm : option string) : option Js.Error :=
  None.

Definition preset (name : string) (enabled loaded loading : bool)
  : Repl.PluginState :=
  Repl.mkPluginState (Repl.mkPluginConfig name name) false enabled loaded
    loading.

Definition state0 (babili : Repl.PluginState) : Repl.State :=
  {| Repl.babel := Repl.mkBabelState "" "" false true false "6.26.0";
     Repl.builtIns := false;
     Repl.code := "x";
     Repl.compiled := None;
     Repl.ast := None;
     Repl.transformTime := None;
     Repl.compileErrorMessage := None;
     Repl.debugEnvPreset := false;
     Repl.envConfig := mkEnvConfig "" None false false false None;
     Repl.envPresetDebugInfo := None;
     Repl.envPresetState := preset "env" false false false;
     Repl.evalErrorMessage := None;
     Repl.isEnvPresetTabExpanded := false;
     Repl.isPresetsTabExpanded := false;
     Repl.isSettingsTabExpanded := false;
     Repl.isSidebarExpanded := true;
     Repl.lineWrap := false;
     Repl.plugins := [("babili-standalone", babili)];
     Repl.presets :=
       [("babel-preset-es2015", preset "es2015" true true false);
        ("babel-preset-react", preset "react" true false false);
        ("babel-preset-stage-2", preset "stage-2" false true false)];
     Repl.runtimePolyfillState := preset "babel-polyfill" false false false;
     Repl.sourceMap := None |}.

(** Babili loaded and switched on; nothing in flight. *)
Definition idle : Repl.Component :=
  Repl.mkComponent (state0 (preset "babili" true true false)) 0 None [].

(** Babili switched on with its load in flight. *)
Definition loadingBabili : Repl.Component :=
  Repl.mkComponent (state0 (preset "babili" true false true)) 1 None [].

Definition resultFor (js : string) : Return :=
  mkReturn (Some js) (Some 3) (Some "{}") None None None.

(** Five keystrokes 100 ms apart, the timer of the first one expiring in
    between, and the timer expiring again after a quiet period. *)
Definition fiveEdits : list (Z * Repl.Event) :=
  [ (100, Repl.Edit "co"); (200, Repl.Edit "con"); (300, Repl.Edit "cons");
    (400, Repl.Edit "const"); (500, Repl.Timer) ].

(** Two requests whose responses come back in the other order. *)
Definition swappedResponses : list (Z * Repl.Event) :=
  [ (0, Repl.Edit "a"); (500, Repl.Timer);
    (600, Repl.Edit "b"); (1100, Repl.Timer);
    (1200, Repl.CompileDone (resultFor "B") Repl.PersistState);
    (1300, Repl.CompileDone (resultFor "A") Repl.PersistState) ].

(** *** More collaborators and inputs *)

(** [JSON.stringify] that throws on an empty AST. *)
Definition stringify_ast_strict (a : string) : Js.Error + string :=
  if Js.isEmpty a
  then inl (Js.mkError "TypeError" "Converting circular structure to JSON")
  else inr a.

(** A transform that reports to entry 1, to entry 0 and to entry 1
    again, and returns the source. *)
Definition reportingTransform (source : string) (o : TransformOptions)
    (b : unit) : @TransformRun string bool string * unit :=
  (mkRun [(1%nat, "first"); (0%nat, "other"); (1%nat, "last")]
     (inr (mkTransformed source source false)), b).

(** Babili switched on and never asked for. *)
Definition unloadedBabili : Repl.Component :=
  Repl.mkComponent (state0 (preset "babili" true false false)) 0 None [].

(** [idle] with a call of the debounced function pending since time 0. *)
Definition pendingEdit : Repl.Component :=
  Repl.mkComponent (state0 (preset "babili" true true false)) 0
    (Some ("x", 0)) [].

(** A state without the babili plugin. *)
Definition noPlugins : Repl.Component :=
  Repl.mkComponent
    (Repl.set_plugins [] (state0 (preset "babili" true true false))) 0
    (Some ("x", 0)) [].

(** The env preset loaded and switched on for [ie11], evaluation switched
    on and its polyfill loaded. *)
Definition envState : Repl.State :=
  Repl.set_runtimePolyfillState (preset "babel-polyfill" true true false)
    (Repl.set_envPresetState (preset "env" true true false)
       (Repl.set_envConfig ie11 (state0 (preset "babili" true true false)))).

(** Babili, the env preset and the runtime polyfill all loaded and
    switched on; nothing in flight. *)
Definition allLoaded : Repl.Component := Repl.mkComponent envState 0 None [].

(** The env preset and the runtime polyfill switched on, neither
    loaded, the load of each in flight. *)
Definition loadsInFlight : Repl.Component :=
  Repl.mkComponent
    (Repl.set_runtimePolyfillState (preset "babel-polyfill" true false true)
       (Repl.set_envPresetState (preset "env" true false true)
          (Repl.set_envConfig ie11 (state0 (preset "babili" true true false)))))
    0 None [].

(** The config object the worker holds for the request built from
    [envState], its presets array at location 1. *)
Definition envRequest : CompileConfig (list PresetEntry) :=
  Repl.compileConfig envState ["es2015"].

Definition envRequestObject : CompileConfig loc :=
  mkCompileConfig (debugEnvPreset envRequest) (envConfig envRequest)
    (evaluate envRequest) 1%positive (sourceMap envRequest)
    (cfg_useBuiltIns envRequest).

Definition envRequestWorld : @World unit :=
  mkWorld {[ 1%positive := presets envRequest ]} () (fun n => Z.of_nat n) 0
    [] [].

End Scenarios.

(** ** Facts about the string built-ins *)

Module JsFacts.

Import Js.

Lemma split_nonempty sep s : split sep s <> [].
Proof.
  destruct s as [|c s]; simpl; [discriminate|].
  destruct (Ascii.eqb c sep); [discriminate|].
  destruct (split sep s); discriminate.
Qed.

(** Joining the pieces with the separator gives the string back. *)
Lemma join_split sep s : join (String sep EmptyString) (split sep s) = s.
Proof.
  induction s as [|c s IH]; simpl; [reflexivity|].
  destruct (Ascii.eqb_spec c sep) as [->|Hne].
  - pose proof (split_nonempty sep s) as Hn.
    destruct (split sep s) as [|p ps]; [contradiction|].
    simpl in *. now rewrite IH.
  - pose proof (split_nonempty sep s) as Hn.
    destruct (split sep s) as [|p ps]; [contradiction|].
    destruct ps as [|q qs]; simpl in *; now rewrite <- IH.
Qed.

(** No piece holds the separator. *)
Lemma split_pieces sep s :
  Forall (fun p => contains sep p = false) (split sep s).
Proof.
  induction s as [|c s IH]; simpl.
  - repeat constructor.
  - destruct (Ascii.eqb c sep) eqn:Hc.
    + constructor; [reflexivity | exact IH].
    + destruct (split sep s) as [|p ps].
      * constructor; [simpl; now rewrite Hc | constructor].
      * inversion IH; subst. constructor; [simpl; now rewrite Hc | assumption].
Qed.

Lemma trimStart_starts s : startsBlank (trimStart s) = false.
Proof.
  induction s as [|c s IH]; simpl; [reflexivity|].
  destruct (isWhiteSpace c) eqn:Hc; [exact IH | simpl; exact Hc].
Qed.

Lemma trimEnd_ends s : endsBlank (trimEnd s) = false.
Proof.
  induction s as [|c s IH]; simpl; [reflexivity|].
  destruct (isWhiteSpace c) eqn:Hc; simpl.
  - destruct (trimEnd s) as [|d r]; simpl; [reflexivity | exact IH].
  - destruct (trimEnd s) as [|d r]; simpl; [exact Hc | exact IH].
Qed.

Lemma trimEnd_starts s : startsBlank s = false -> startsBlank (trimEnd s) = false.
Proof.
  destruct s as [|c s]; simpl; [reflexivity|].
  intros Hc. rewrite Hc. simpl. exact Hc.
Qed.

Lemma trimStart_contains sep s :
  contains sep s = false -> contains sep (trimStart s) = false.
Proof.
  induction s as [|c s IH]; simpl; [reflexivity|].
  intros H. apply orb_false_iff in H as [H1 H2].
  destruct (isWhiteSpace c); [auto | simpl; now rewrite H1, H2].
Qed.

Lemma trimEnd_contains sep s :
  contains sep s = false -> contains sep (trimEnd s) = false.
Proof.
  induction s as [|c s IH]; simpl; [reflexivity|].
  intros H. apply orb_false_iff in H as [H1 H2].
  destruct (isWhiteSpace c && isEmpty (trimEnd s)); [reflexivity|].
  simpl. rewrite H1. simpl. auto.
Qed.

(** What [trim] leaves: no blank at either end, and nothing new. *)
Lemma trim_spec sep s :
  startsBlank (trim s) = false /\ endsBlank (trim s) = false /\
  (contains sep s = false -> contains sep (trim s) = false).
Proof.
  unfold trim. split; [|split].
  - apply trimEnd_starts, trimStart_starts.
  - apply trimEnd_ends.
  - intros H. now apply trimEnd_contains, trimStart_contains.
Qed.

Lemma truthy_nonempty s : truthy s = true <-> s <> EmptyString.
Proof.
  destruct s; cbn; split; intros H;
    try discriminate; try reflexivity; now contradiction H.
Qed.

Lemma append_cons c a b : String c a +:+ b = String c (a +:+ b).
Proof. reflexivity. Qed.

Lemma append_nil b : EmptyString +:+ b = b.
Proof. reflexivity. Qed.

Lemma isBlank_app a b : isBlank (a +:+ b) = isBlank a && isBlank b.
Proof.
  induction a as [|c a IH]; [reflexivity|].
  rewrite append_cons. cbn [isBlank]. now rewrite IH, andb_assoc.
Qed.

Lemma isBlank_ends s :
  isBlank s = true -> endsBlank s = false -> s = EmptyString.
Proof.
  induction s as [|c s IH]; [reflexivity|].
  intros Hb He. cbn [isBlank] in Hb. apply andb_true_iff in Hb as [Hc Hs].
  destruct s as [|d s'].
  - simpl in He. congruence.
  - change (endsBlank (String d s') = false) in He.
    specialize (IH Hs He). discriminate.
Qed.

Lemma endsBlank_tail c s : endsBlank (String c s) = false -> endsBlank s = false.
Proof. destruct s; [reflexivity | exact id]. Qed.

(** The blanks [trimStart] takes off. *)
Lemma trimStart_split s :
  exists before, s = before +:+ trimStart s /\ isBlank before = true.
Proof.
  induction s as [|c s (before & Hs & Hb)]; [now exists EmptyString|].
  simpl. destruct (isWhiteSpace c) eqn:Hc.
  - exists (String c before). rewrite append_cons. cbn [isBlank].
    rewrite Hc, Hb. split; [now f_equal | reflexivity].
  - now exists EmptyString.
Qed.

(** The blanks [trimEnd] takes off. *)
Lemma trimEnd_split s :
  exists after, s = trimEnd s +:+ after /\ isBlank after = true.
Proof.
  induction s as [|c s (after & Hs & Hb)]; [now exists EmptyString|].
  simpl. destruct (isWhiteSpace c && isEmpty (trimEnd s)) eqn:Hc.
  - apply andb_true_iff in Hc as [Hc He].
    exists (String c s). split; [reflexivity|]. cbn [isBlank]. rewrite Hc.
    destruct (trimEnd s); [|discriminate]. rewrite append_nil in Hs.
    now rewrite Hs.
  - exists after. rewrite append_cons. split; [now f_equal | exact Hb].
Qed.

Lemma blank_prefix_unique l1 : forall l2 x1 x2,
  l1 +:+ x1 = l2 +:+ x2 -> isBlank l1 = true -> isBlank l2 = true ->
  startsBlank x1 = false -> startsBlank x2 = false -> x1 = x2.
Proof.
  induction l1 as [|c l1 IH]; intros [|d l2] x1 x2 E B1 B2 S1 S2;
    rewrite ?append_cons, ?append_nil in E; cbn [isBlank] in *.
  - exact E.
  - subst x1. simpl in S1. apply andb_true_iff in B2 as [B2 _]. congruence.
  - subst x2. simpl in S2. apply andb_true_iff in B1 as [B1 _]. congruence.
  - injection E as -> E. apply andb_true_iff in B1 as [_ B1].
    apply andb_true_iff in B2 as [_ B2]. eauto.
Qed.

Lemma blank_suffix_unique x1 : forall x2 r1 r2,
  x1 +:+ r1 = x2 +:+ r2 -> isBlank r1 = true -> isBlank r2 = true ->
  endsBlank x1 = false -> endsBlank x2 = false -> x1 = x2.
Proof.
  induction x1 as [|c x1 IH]; intros [|d x2] r1 r2 E B1 B2 E1 E2.
  - reflexivity.
  - rewrite append_nil in E. subst r1. symmetry. apply isBlank_ends; [|exact E2].
    rewrite isBlank_app in B1. now apply andb_true_iff in B1 as [B1 _].
  - rewrite append_nil in E. subst r2. apply isBlank_ends; [|exact E1].
    rewrite isBlank_app in B2. now apply andb_true_iff in B2 as [B2 _].
  - rewrite !append_cons in E. injection E as -> E. f_equal.
    apply (IH x2 r1 r2 E B1 B2); eapply endsBlank_tail; eauto.
Qed.

Lemma startsBlank_app e r :
  e <> EmptyString -> startsBlank (e +:+ r) = startsBlank e.
Proof. destruct e; [congruence | reflexivity]. Qed.

End JsFacts.

(** ** Facts about [compile] *)

Module CompileFacts.

Import Compile.

Lemma deref_push_same l x h : deref (push l x h) l = deref h l ++ [x].
Proof. unfold deref at 1, push. now rewrite lookup_insert_eq. Qed.

Lemma lookup_push_other l l' x (h : Heap) :
  l' <> l -> push l x h !! l' = h !! l'.
Proof. intros Hne. unfold push. now rewrite lookup_insert_ne. Qed.

(** The entries [buildTargets] lists for [browsers]. *)
Lemma buildTargets_browsers ec :
  from_option
    (Forall (fun b => b <> EmptyString /\ Js.startsBlank b = false /\
                      Js.endsBlank b = false /\ Js.contains "," b = false))
    True (t_browsers (buildTargets ec)).
Proof.
  unfold buildTargets; simpl.
  destruct (Js.truthy (browsers ec)); simpl; [|exact I].
  apply Forall_forall. intros b Hb.
  apply list_elem_of_filter in Hb as [Hne Hb].
  apply list_elem_of_In, in_map_iff in Hb as [piece [<- Hpiece]].
  pose proof (JsFacts.split_pieces "," (browsers ec)) as Hall.
  rewrite Forall_forall in Hall.
  apply list_elem_of_In in Hpiece. specialize (Hall piece Hpiece).
  destruct (JsFacts.trim_spec "," piece) as (Hs & He & Hc).
  repeat split; auto.
  apply JsFacts.truthy_nonempty. now apply Is_true_true.
Qed.

Lemma trim_trimmedFrom piece : trimmedFrom piece (Js.trim piece).
Proof.
  destruct (JsFacts.trimStart_split piece) as (before & Hp & Hb).
  destruct (JsFacts.trimEnd_split (Js.trimStart piece)) as (after & Ht & Ha).
  destruct (JsFacts.trim_spec "," piece) as (Hs & He & _).
  exists before, after. repeat split; try assumption.
  fold (Js.trim piece) in Ht. now rewrite <- Ht.
Qed.

(** A blank piece trims to the empty string only. *)
Lemma trimmedFrom_blank piece e :
  Js.isBlank piece = true -> trimmedFrom piece e -> e = EmptyString.
Proof.
  intros Hb (l & r & -> & _ & _ & _ & He).
  rewrite !JsFacts.isBlank_app in Hb.
  apply andb_true_iff in Hb as [_ Hb]. apply andb_true_iff in Hb as [Hb _].
  now apply JsFacts.isBlank_ends.
Qed.

(** A piece has one trimmed form. *)
Lemma trimmedFrom_unique piece e1 e2 :
  trimmedFrom piece e1 -> trimmedFrom piece e2 -> e1 = e2.
Proof.
  intros H1 H2. destruct (Js.isBlank piece) eqn:Hp.
  - rewrite (trimmedFrom_blank piece e1 Hp H1).
    now rewrite (trimmedFrom_blank piece e2 Hp H2).
  - destruct H1 as (l1 & r1 & -> & Bl1 & Br1 & S1 & E1).
    destruct H2 as (l2 & r2 & E & Bl2 & Br2 & S2 & E2).
    assert (N1 : e1 <> EmptyString).
    { intros ->. rewrite !JsFacts.isBlank_app, Bl1, Br1 in Hp. discriminate. }
    assert (N2 : e2 <> EmptyString).
    { intros ->. rewrite E, !JsFacts.isBlank_app, Bl2, Br2 in Hp. discriminate. }
    assert (H : e1 +:+ r1 = e2 +:+ r2).
    { apply (JsFacts.blank_prefix_unique l1 l2); try assumption;
        now rewrite JsFacts.startsBlank_app. }
    now apply (JsFacts.blank_suffix_unique e1 e2 r1 r2).
Qed.

Lemma filter_Is_true {A} (f : A -> bool) l :
  filter (fun x => Is_true (f x)) l = List.filter f l.
Proof.
  induction l as [|x l IH]; [reflexivity|].
  cbn [List.filter]. destruct (f x) eqn:Hx.
  - rewrite filter_cons_True by now rewrite Hx. now rewrite IH.
  - rewrite filter_cons_False by now rewrite Hx. exact IH.
Qed.

Lemma buildTargets_browsersOf ec :
  match t_browsers (buildTargets ec) with
  | Some entries =>
      browsers ec <> EmptyString /\ browsersOf (browsers ec) entries
  | None => browsers ec = EmptyString
  end.
Proof.
  unfold buildTargets; cbn [t_browsers]. unfold Js.truthy.
  destruct (browsers ec) as [|c s] eqn:Eb; cbn [Js.isEmpty negb]; [reflexivity|].
  rewrite <- Eb. split; [rewrite Eb; discriminate|].
  exists (Js.split "," (browsers ec)),
    (List.map Js.trim (Js.split "," (browsers ec))).
  split; [apply JsFacts.join_split|].
  split; [apply JsFacts.split_nonempty|].
  split; [apply JsFacts.split_pieces|].
  split; [|apply (filter_Is_true (fun v => negb (Js.isEmpty v)))].
  induction (Js.split "," (browsers ec)); constructor;
    [apply trim_trimmedFrom | assumption].
Qed.

Section WithBabel.

Context {BabelState Ast SourceMap EnvResult : Type}.
Variable Babel_transform :
  string -> TransformOptions -> BabelState ->
  @TransformRun Ast SourceMap EnvResult * BabelState.
Variable JSON_stringify_ast : Ast -> Js.Error + string.
Variable JSON_stringify_map : SourceMap -> Js.Error + string.
Variable getDebugInfoFromEnvResult : EnvResult -> string.

Abbreviation compile :=
  (Compile.compile Babel_transform JSON_stringify_ast JSON_stringify_map
     getDebugInfoFromEnvResult).
Abbreviation transformCall := (Compile.transformCall Babel_transform).

(** The store after [compile]: one push when the env preset is on. *)
Lemma compile_heap source config (w : World) :
  heap (snd (compile source config w)) =
  match envEnabled config with
  | Some ec =>
      push (presets config)
        (PresetWithOptions "env" (buildOptions config ec)) (heap w)
  | None => heap w
  end.
Proof.
  unfold Compile.compile, addEnvPreset, Babel_call.
  destruct (envEnabled config) as [ec|]; simpl;
    (destruct (Babel_transform _ _ _) as [run b]; simpl;
     destruct (outcome run) as [e|t]; simpl; [reflexivity|];
     destruct (JSON_stringify_ast _); simpl; [reflexivity|];
     destruct (sourceMap config); simpl; [|reflexivity];
     destruct (JSON_stringify_map _); reflexivity).
Qed.

(** The one call of the transform that [compile] logs. *)
Lemma compile_calls source config (w : World) :
  calls (snd (compile source config w)) =
  calls w ++
  [(source,
    {| babelrc := false; filename := "repl";
       t_presets := deref (heap (snd (compile source config w)))
                      (presets config);
       t_sourceMap := sourceMap config |})].
Proof.
  rewrite compile_heap.
  unfold Compile.compile, addEnvPreset, Babel_call, transformOptions.
  destruct (envEnabled config) as [ec|]; simpl;
    (destruct (Babel_transform _ _ _) as [run b]; simpl;
     destruct (outcome run) as [e|t]; simpl; [reflexivity|];
     destruct (JSON_stringify_ast _); simpl; [reflexivity|];
     destruct (sourceMap config); simpl; [|reflexivity];
     destruct (JSON_stringify_map _); reflexivity).
Qed.

(** The call [compile] logs is the call [transformCall] stands for. *)
Lemma transformCall_logged source config (w : World) :
  exists options,
    calls (snd (compile source config w)) = calls w ++ [(source, options)] /\
    transformCall source config w =
      fst (Babel_transform source options (babel w)).
Proof.
  eexists. split; [apply compile_calls|].
  rewrite compile_heap. unfold Compile.transformCall, addEnvPreset.
  destruct (envEnabled config); reflexivity.
Qed.

(** Claim C1. When the transform call throws, [compile] returns an
    object whose [compiled], [ast], [transformTime],
    [envPresetDebugInfo] and [sourceMap] are null and whose
    [compileErrorMessage] is the message of the thrown error (so a
    non-empty string when that message is non-empty), whatever the
    callback recorded before the throw. And in every run either
    [compileErrorMessage] is null or all the success fields are. *)
Theorem compile_transform_throws source config (w : World) :
  let r := fst (compile source config w) in
  (forall error,
     outcome (transformCall source config w) = inl error ->
     compiled r = None /\ ast r = None /\ transformTime r = None /\
     envPresetDebugInfo r = None /\ r_sourceMap r = None /\
     compileErrorMessage r = Some (Js.message error) /\
     (Js.message error <> EmptyString ->
      exists m, compileErrorMessage r = Some m /\ m <> EmptyString)) /\
  (compileErrorMessage r = None \/
   (compiled r = None /\ ast r = None /\ transformTime r = None /\
    envPresetDebugInfo r = None /\ r_sourceMap r = None)).
Proof.
  unfold Compile.transformCall, Compile.compile, Babel_call.
  destruct (addEnvPreset config w) as [slot w0]; simpl.
  destruct (Babel_transform _ _ _) as [run b]; simpl.
  destruct (outcome run) as [e|t]; simpl.
  - split; [|right; repeat split].
    intros error [= <-]. repeat split; eauto.
  - destruct (JSON_stringify_ast _); simpl.
    + split; [discriminate | right; repeat split].
    + destruct (sourceMap config); [destruct (JSON_stringify_map _)|];
        simpl; (split; [discriminate | left; reflexivity]).
Qed.

(** Claim C7. When the transform returns, the AST is serialized, a
    source map was requested and serializing it throws, [compile]
    returns the compiled code and the AST with a null
    [compileErrorMessage] and a null [sourceMap]; the failure only
    writes a line to the console. *)
Theorem compile_source_map_failure source config (w : World) t tree error :
  outcome (transformCall source config w) = inr t ->
  JSON_stringify_ast (tr_ast t) = inr tree ->
  sourceMap config = true ->
  JSON_stringify_map (tr_map t) = inl error ->
  let r := fst (compile source config w) in
  compiled r = Some (tr_code t) /\ ast r = Some tree /\
  compileErrorMessage r = None /\ r_sourceMap r = None /\
  (exists ms, transformTime r = Some ms) /\
  console (snd (compile source config w)) =
    console w ++ ["Source Map generation failed: " +:+ Js.toString error].
Proof.
  unfold Compile.transformCall, Compile.compile, Babel_call, addEnvPreset.
  intros Hrun Hast Hsm Hmap.
  destruct (envEnabled config) as [ec|]; simpl in *;
    (destruct (Babel_transform _ _ _) as [run b]; simpl in *;
     rewrite Hrun; simpl; rewrite Hast, Hsm, Hmap; simpl;
     repeat split; eauto).
Qed.

(** Claim C6. With an env config whose preset is enabled, [compile]
    pushes one ["env"] entry and hands the transform the preset list
    with that entry at the end. Its [useBuiltIns] is
    [config.useBuiltIns] and not [config.evaluate]; its targets hold
    the [browsers] key only for a non-empty browsers string, and under
    it the list the wording describes: the pieces the commas of the
    string separate, in order, each less the blanks at its two ends,
    without those that come out empty (so no entry is empty, starts
    or ends with a blank, or holds a comma); and the electron and node
    versions only under their flags. With
    the preset disabled or no env config, the array is left alone and
    the transform gets the preset list as it came. *)
Theorem compile_env_preset source config (w : World) :
  let w' := snd (compile source config w) in
  let before := deref (heap w) (presets config) in
  match envConfig config with
  | Some ec =>
      if isEnvPresetEnabled ec then
        exists options,
          heap w' = push (presets config) (PresetWithOptions "env" options)
                      (heap w) /\
          calls w' =
            calls w ++
            [(source,
              mkTransformOptions false "repl"
                (before ++ [PresetWithOptions "env" options])
                (sourceMap config))] /\
          useBuiltIns options =
            cfg_useBuiltIns config && negb (evaluate config) /\
          match t_browsers (targets options) with
          | Some entries =>
              browsers ec <> EmptyString /\
              browsersOf (browsers ec) entries
          | None => browsers ec = EmptyString
          end /\
          from_option
            (Forall (fun b => b <> EmptyString /\
                              Js.startsBlank b = false /\
                              Js.endsBlank b = false /\
                              Js.contains "," b = false))
            True (t_browsers (targets options)) /\
          t_electron (targets options) =
            (if isElectronEnabled ec then Some (electron ec) else None) /\
          t_node (targets options) =
            (if isNodeEnabled ec then Some (node ec) else None)
      else
        heap w' = heap w /\
        calls w' =
          calls w ++
          [(source, mkTransformOptions false "repl" before (sourceMap config))]
  | None =>
      heap w' = heap w /\
      calls w' =
        calls w ++
        [(source, mkTransformOptions false "repl" before (sourceMap config))]
  end.
Proof.
  cbv zeta. rewrite compile_calls, compile_heap. unfold envEnabled.
  destruct (envConfig config) as [ec|]; [|split; reflexivity].
  destruct (isEnvPresetEnabled ec); [|split; reflexivity].
  exists (buildOptions config ec). rewrite deref_push_same.
  repeat split.
  - simpl. apply andb_comm.
  - apply buildTargets_browsersOf.
  - apply buildTargets_browsers.
Qed.

(** Claim C3, amended. [compile] leaves every array but
    [config.presets] as it was, and every field of the config but the
    content of [presets]; that array is unchanged when there is no env
    config or the env preset is disabled, and otherwise ends with one
    more entry, the ["env"] preset with its options. *)
Theorem compile_config_effect source config (w : World) :
  let w' := snd (compile source config w) in
  (forall l, l <> presets config -> heap w' !! l = heap w !! l) /\
  snapshot (heap w') config =
    mkCompileConfig (debugEnvPreset config) (envConfig config)
      (evaluate config)
      (deref (heap w) (presets config) ++
       match envEnabled config with
       | Some ec => [PresetWithOptions "env" (buildOptions config ec)]
       | None => []
       end)
      (sourceMap config) (cfg_useBuiltIns config).
Proof.
  cbv zeta. rewrite compile_heap. unfold snapshot.
  destruct (envEnabled config) as [ec|].
  - split; [intros l Hl; now apply lookup_push_other|].
    now rewrite deref_push_same.
  - split; [reflexivity|]. now rewrite app_nil_r.
Qed.

(** Two calls that find the same content give the same result, up
    to the elapsed time. *)
Lemma compile_same_content source config1 (w1 : World) config2 (w2 : World) :
  (forall s o b1 b2,
     fst (Babel_transform s o b1) = fst (Babel_transform s o b2)) ->
  snapshot (heap w1) config1 = snapshot (heap w2) config2 ->
  same_but_time (fst (compile source config1 w1))
                (fst (compile source config2 w2)).
Proof.
  intros Hpure Hsnap.
  unfold snapshot in Hsnap.
  injection Hsnap as Hdbg Henv Hev Hpre Hsm Hbi.
  assert (Hen : envEnabled config1 = envEnabled config2)
    by (unfold envEnabled; now rewrite Henv).
  assert (Hopt : forall ec, buildOptions config1 ec = buildOptions config2 ec)
    by (intros ec; unfold buildOptions; now rewrite Hdbg, Hev, Hbi).
  unfold Compile.compile, addEnvPreset, Babel_call, transformOptions.
  rewrite <- Hen, <- Hsm, <- Hdbg.
  destruct (envEnabled config1) as [ec|]; simpl.
  - rewrite !deref_push_same, <- Hpre, <- Hopt.
    match goal with
    | |- context [Babel_transform ?s ?o (babel w1)] =>
        specialize (Hpure s o (babel w1) (babel w2));
        destruct (Babel_transform s o (babel w1)) as [run1 b1];
        destruct (Babel_transform s o (babel w2)) as [run2 b2]
    end.
    simpl in Hpure. subst run2. simpl.
    destruct (outcome run1) as [e|t]; simpl; [repeat split|].
    destruct (JSON_stringify_ast _); simpl; [repeat split|].
    destruct (sourceMap config1); [destruct (JSON_stringify_map _)|];
      simpl; repeat split.
  - rewrite <- Hpre.
    match goal with
    | |- context [Babel_transform ?s ?o (babel w1)] =>
        specialize (Hpure s o (babel w1) (babel w2));
        destruct (Babel_transform s o (babel w1)) as [run1 b1];
        destruct (Babel_transform s o (babel w2)) as [run2 b2]
    end.
    simpl in Hpure. subst run2. simpl.
    destruct (outcome run1) as [e|t]; simpl; [repeat split|].
    destruct (JSON_stringify_ast _); simpl; [repeat split|].
    destruct (sourceMap config1); [destruct (JSON_stringify_map _)|];
      simpl; repeat split.
Qed.

(** Claim C2, amended. For a transform whose result does not depend
    on the state of [Babel], two calls of [compile] with the same code
    that find configs of the same content (the content of the presets
    array included) agree in every field but [transformTime], whatever
    the clocks and stores are; so do two successive calls on one
    config object when the env preset is off. *)
Theorem compile_twice_same_content source :
  (forall s o b1 b2,
     fst (Babel_transform s o b1) = fst (Babel_transform s o b2)) ->
  (forall config1 (w1 : World) config2 (w2 : World),
     snapshot (heap w1) config1 = snapshot (heap w2) config2 ->
     same_but_time (fst (compile source config1 w1))
                   (fst (compile source config2 w2))) /\
  (forall config (w : World),
     envEnabled config = None ->
     same_but_time
       (fst (compile source config w))
       (fst (compile source config (snd (compile source config w))))).
Proof.
  intros Hpure. split.
  - intros. now apply compile_same_content.
  - intros config w Hoff. apply compile_same_content; [exact Hpure|].
    now rewrite compile_heap, Hoff.
Qed.

End WithBabel.

End CompileFacts.

(** ** Facts about the orchestrator *)

Module ReplFacts.

Import Repl.

(** *** Running the monad *)

Lemma run_bind {A B} (m : M A) (f : A -> M B) c :
  (m ≫= f) c =
  match m c with
  | (Ok a, c') => f a c'
  | (Threw e, c') => (Threw e, c')
  end.
Proof. reflexivity. Qed.

Section Relations.

Variable R : Component -> Component -> Prop.
Hypothesis R_refl : forall c, R c c.
Hypothesis R_trans : forall a b c, R a b -> R b c -> R a c.

(** A relation that holds across each part holds across the whole. *)
Lemma bind_rel {A B} (m : M A) (f : A -> M B) c :
  R c (snd (m c)) ->
  (forall a c', m c = (Ok a, c') -> R c' (snd (f a c'))) ->
  R c (snd ((m ≫= f) c)).
Proof.
  intros Hm Hf. rewrite run_bind.
  destruct (m c) as [[a|e] c'] eqn:E; simpl in *; [|exact Hm].
  eapply R_trans; [exact Hm | now apply Hf].
Qed.

Lemma getState_rel {B} (f : State -> M B) c :
  R c (snd (f (state c) c)) -> R c (snd ((getState ≫= f) c)).
Proof. intros H. exact H. Qed.

End Relations.

(** *** Objects used as maps *)

Lemma getKey_updateKey key k f m :
  getKey k (updateKey key f m) =
  if String.eqb key k then f <$> getKey k m else getKey k m.
Proof.
  induction m as [|[k' p] m IH]; simpl.
  - now destruct (String.eqb key k).
  - destruct (String.eqb k' key) eqn:E1; simpl;
      destruct (String.eqb k' k) eqn:E2;
      destruct (String.eqb key k) eqn:E3;
      try reflexivity; try exact IH;
      repeat match goal with
             | H : String.eqb _ _ = true |- _ => apply String.eqb_eq in H; subst
             end;
      try rewrite String.eqb_refl in *; try congruence.
Qed.

(** *** What the callbacks leave alone *)

Lemma keepsResults_refl c : keepsResults c c.
Proof. split; reflexivity. Qed.

Lemma keepsResults_trans a b c :
  keepsResults a b -> keepsResults b c -> keepsResults a c.
Proof. intros [H1 H2] [H3 H4]. split; congruence. Qed.

Lemma compileRequests_send r c :
  isWorkerCompile r = false ->
  compileRequests (snd (send r c)) = compileRequests c.
Proof.
  intros Hr. unfold compileRequests. simpl.
  rewrite List.filter_app. simpl. rewrite Hr. apply app_nil_r.
Qed.

Lemma send_keeps r c :
  isWorkerCompile r = false -> keepsResults c (snd (send r c)).
Proof. intros Hr. split; [reflexivity | now apply compileRequests_send]. Qed.

Lemma setState_keeps u c :
  (forall s, results (u s) = results s) -> keepsResults c (snd (setState u c)).
Proof. intros Hu. split; [apply Hu | reflexivity]. Qed.

Lemma addLoading_keeps d c : keepsResults c (snd (addLoading d c)).
Proof. split; reflexivity. Qed.

Ltac keeps :=
  repeat first
    [ apply keepsResults_refl
    | apply (getState_rel keepsResults)
    | apply (bind_rel keepsResults keepsResults_trans); [|intros ? ? _]
    | apply send_keeps; reflexivity
    | apply setState_keeps; intros ?; reflexivity
    | apply addLoading_keeps
    | match goal with
      | |- keepsResults _ (snd ((if ?b then _ else _) _)) => destruct b
      | |- keepsResults _ (snd (match ?o with Some _ => _ | None => _ end _)) =>
          destruct o
      end ].

Lemma forEachPlugin_keeps keys c : keepsResults c (snd (forEachPlugin keys c)).
Proof.
  revert c. induction keys as [|key rest IH]; intros c; simpl.
  - apply keepsResults_refl.
  - apply (getState_rel keepsResults).
    destruct (getKey key (plugins (state c))) as [plugin|];
      [|apply keepsResults_refl].
    apply (bind_rel keepsResults keepsResults_trans); [keeps | intros; apply IH].
Qed.

Lemma checkForUnloadedPlugins_keeps c :
  keepsResults c (snd (_checkForUnloadedPlugins c)).
Proof.
  unfold _checkForUnloadedPlugins.
  apply (getState_rel keepsResults).
  apply (bind_rel keepsResults keepsResults_trans);
    [apply forEachPlugin_keeps | intros ? ? _].
  keeps.
Qed.

(** *** Loads the check does not ask for *)

Lemma noLoadOf_refl key c : noLoadOf key c c.
Proof.
  intros Hs. split; [exact Hs|]. exists []. split.
  - now rewrite app_nil_r.
  - apply not_elem_of_nil.
Qed.

Lemma noLoadOf_trans key a b c :
  noLoadOf key a b -> noLoadOf key b c -> noLoadOf key a c.
Proof.
  intros Hab Hbc Hs.
  destruct (Hab Hs) as (Hsb & new1 & E1 & N1).
  destruct (Hbc Hsb) as (Hsc & new2 & E2 & N2).
  split; [exact Hsc|]. exists (new1 ++ new2). split.
  - now rewrite E2, E1, app_assoc.
  - intros Hin. apply elem_of_app in Hin as [Hin|Hin]; auto.
Qed.

Lemma send_noLoad key r c :
  r <> WorkerLoadPlugin key -> noLoadOf key c (snd (send r c)).
Proof.
  intros Hr Hs. split; [exact Hs|]. exists [r]. split; [reflexivity|].
  intros Hin. apply list_elem_of_singleton in Hin. congruence.
Qed.

Lemma same_plugins_noLoad key c c' :
  plugins (state c') = plugins (state c) -> outbox c' = outbox c ->
  noLoadOf key c c'.
Proof.
  intros Hp Ho [p [Hget Hp']]. split.
  - exists p. now rewrite Hp.
  - exists []. split; [now rewrite app_nil_r | apply not_elem_of_nil].
Qed.

(** An assignment to a field other than [isLoaded] and [isLoading]
    keeps a settled plugin settled. *)
Lemma updateKey_noLoad key k f c :
  (forall p, isLoaded (f p) = isLoaded p) ->
  (forall p, isLoading p = true -> isLoading (f p) = true) ->
  noLoadOf key c
    (snd (setState (fun s => set_plugins (updateKey k f (plugins s)) s) c)).
Proof.
  intros Hl Hg [p [Hget Hp]]. split.
  - unfold settled. cbn. rewrite getKey_updateKey, Hget.
    destruct (String.eqb k key); [|eauto].
    exists (f p). split; [reflexivity|].
    rewrite Hl. destruct Hp as [Hp|Hp]; [now left | right; now apply Hg].
  - exists []. split; [now rewrite app_nil_r | apply not_elem_of_nil].
Qed.

Lemma set_flag_plugins name v s s' :
  set_flag name v s = Some s' -> plugins s' = plugins s.
Proof.
  unfold set_flag.
  repeat match goal with
         | |- context [String.eqb ?a ?b] => destruct (String.eqb a b)
         end; intros [= <-]; reflexivity.
Qed.

Lemma settled_needsLoad key c plugin :
  settled key c -> getKey key (plugins (state c)) = Some plugin ->
  needsLoad plugin = false.
Proof.
  intros [p [Hget Hp]] Hget'. rewrite Hget in Hget'. injection Hget' as <-.
  unfold needsLoad.
  destruct Hp as [-> | ->]; destruct (isEnabled p); simpl;
    try reflexivity; now destruct (isLoaded p).
Qed.

Ltac noload key :=
  repeat first
    [ apply noLoadOf_refl
    | apply (getState_rel (noLoadOf key))
    | apply (bind_rel (noLoadOf key) (noLoadOf_trans key)); [|intros ? ? _]
    | apply send_noLoad; discriminate
    | apply same_plugins_noLoad; reflexivity
    | apply updateKey_noLoad; [intros ?; reflexivity | intros ? ?; assumption]
    | match goal with
      | |- noLoadOf _ _ (snd ((if ?b then _ else _) _)) => destruct b
      end ].

Lemma forEachPlugin_noLoad key keys c :
  noLoadOf key c (snd (forEachPlugin keys c)).
Proof.
  revert c. induction keys as [|k rest IH]; intros c; simpl.
  - apply noLoadOf_refl.
  - apply (getState_rel (noLoadOf key)).
    destruct (getKey k (plugins (state c))) as [plugin|] eqn:Hget;
      [|apply noLoadOf_refl].
    apply (bind_rel (noLoadOf key) (noLoadOf_trans key));
      [|intros; apply IH].
    destruct (needsLoad plugin) eqn:Hneeds; [|apply noLoadOf_refl].
    intros Hs.
    assert (Hne : k <> key).
    { intros ->. pose proof (settled_needsLoad _ _ _ Hs Hget). congruence. }
    revert Hs.
    apply (bind_rel (noLoadOf key) (noLoadOf_trans key)); [|intros ? ? _].
    { apply same_plugins_noLoad; reflexivity. }
    apply (bind_rel (noLoadOf key) (noLoadOf_trans key)); [|intros ? ? _].
    { apply updateKey_noLoad; [intros ?; reflexivity | intros ? ?; reflexivity]. }
    apply send_noLoad. congruence.
Qed.

Lemma checkForUnloadedPlugins_noLoad key c :
  noLoadOf key c (snd (_checkForUnloadedPlugins c)).
Proof.
  unfold _checkForUnloadedPlugins.
  apply (getState_rel (noLoadOf key)).
  apply (bind_rel (noLoadOf key) (noLoadOf_trans key));
    [apply forEachPlugin_noLoad | intros ? ? _].
  noload key.
Qed.

Lemma updateCode_noLoad key now source c :
  noLoadOf key c (snd (_updateCode now source c)).
Proof. unfold _updateCode, _compileToState_call. noload key. Qed.

Lemma presetsUpdated_noLoad key now c :
  noLoadOf key c (snd (_presetsUpdatedSetStateCallback now c)).
Proof.
  unfold _presetsUpdatedSetStateCallback.
  apply (bind_rel (noLoadOf key) (noLoadOf_trans key));
    [apply checkForUnloadedPlugins_noLoad | intros ? ? _].
  apply (getState_rel (noLoadOf key)). apply updateCode_noLoad.
Qed.

Lemma onSettingChange_noLoad key now name v c :
  noLoadOf key c (snd (_onSettingChange now name v c)).
Proof.
  unfold _onSettingChange.
  apply (bind_rel (noLoadOf key) (noLoadOf_trans key));
    [|intros ? ? _; apply presetsUpdated_noLoad].
  destruct (String.eqb name "babel-polyfill") eqn:E1.
  { apply same_plugins_noLoad; unfold setState; cbn [snd state outbox];
      rewrite ?E1; reflexivity. }
  destruct (bool_decide (name ∈ stateKeys)) eqn:E2.
  { apply same_plugins_noLoad; unfold setState; cbn [snd state outbox];
      rewrite ?E1, ?E2; [|reflexivity].
    destruct (set_flag name v (state c)) as [s'|] eqn:E3; [|reflexivity].
    now apply set_flag_plugins in E3. }
  destruct (hasKey name (plugins (state c))) eqn:E3.
  { intros Hs.
    destruct (updateKey_noLoad key name (with_isEnabled v) c) as [Hs' Hnew];
      [reflexivity | intros ? ?; assumption | exact Hs |].
    unfold setState in *. cbn [snd state outbox] in *.
    rewrite ?E1, ?E2, ?E3. split; assumption. }
  destruct (hasKey name (presets (state c))) eqn:E4.
  { apply same_plugins_noLoad; unfold setState; cbn [snd state outbox];
      rewrite ?E1, ?E2, ?E3, ?E4; reflexivity. }
  apply same_plugins_noLoad; unfold setState; cbn [snd state outbox];
    rewrite ?E1, ?E2, ?E3, ?E4; reflexivity.
Qed.

Section WithCollaborators.

Variable envConfigToTargetsString : Compile.EnvConfig -> string.
Variable scopedEval_execute : string -> option string -> option Js.Error.

Abbreviation _persistState := (Repl._persistState envConfigToTargetsString).
Abbreviation runCallback := (Repl.runCallback envConfigToTargetsString).
Abbreviation _compile := (Repl._compile envConfigToTargetsString).
Abbreviation timerExpired := (Repl.timerExpired envConfigToTargetsString).
Abbreviation handle :=
  (Repl.handle envConfigToTargetsString scopedEval_execute).
Abbreviation step :=
  (Repl.step envConfigToTargetsString scopedEval_execute).
Abbreviation run :=
  (Repl.run envConfigToTargetsString scopedEval_execute).

Lemma persistState_keeps c : keepsResults c (snd (_persistState c)).
Proof. unfold Repl._persistState. keeps. Qed.

Lemma runCallback_keeps cb c : keepsResults c (snd (runCallback cb c)).
Proof.
  destruct cb; [apply checkForUnloadedPlugins_keeps | apply persistState_keeps].
Qed.

(** Claim C10. Called with the empty string, [_compile] dispatches no
    compile request and leaves [compiled], [ast], [transformTime],
    [compileErrorMessage], [envPresetDebugInfo], [evalErrorMessage]
    and [sourceMap] null, whichever callback it was given. *)
Theorem compile_empty_code cb c :
  let c' := snd (_compile EmptyString cb c) in
  compileRequests c' = compileRequests c /\
  compiled (state c') = None /\ ast (state c') = None /\
  transformTime (state c') = None /\
  compileErrorMessage (state c') = None /\
  envPresetDebugInfo (state c') = None /\
  evalErrorMessage (state c') = None /\
  sourceMap (state c') = None.
Proof.
  cbv zeta. unfold Repl._compile. rewrite run_bind. cbn [getState].
  cbn [Js.truthy Js.isEmpty negb]. rewrite run_bind. cbn [setState].
  match goal with
  | |- context [runCallback cb ?c1] =>
      destruct (runCallback_keeps cb c1) as [Hres Hreq]
  end.
  split; [exact Hreq|].
  unfold results in Hres. cbn in Hres. injection Hres as -> -> -> -> -> -> ->.
  repeat split.
Qed.


(** *** Dispatching a compile request *)

(** The presets [_compile] puts in a request. *)
Lemma compile_dispatch source cb c babili :
  source <> EmptyString ->
  getKey "babili-standalone" (plugins (state c)) = Some babili ->
  _compile source cb c =
  (Ok (),
   mkComponent (state c) (_numLoadingPlugins c) (_compileToState c)
     (outbox c ++
      [WorkerCompile source
         (compileConfig (state c)
            (if isEnabled babili && isLoaded babili
             then _presetsToArray (state c) ++ ["babili"]
             else _presetsToArray (state c)))
         cb])).
Proof.
  intros Hsrc Hget. unfold Repl._compile. rewrite run_bind.
  cbn [getState]. destruct source as [|ch rest]; [congruence|].
  cbn [Js.truthy Js.isEmpty negb]. rewrite Hget. reflexivity.
Qed.

Lemma elem_of_presetsToArray l s :
  l ∈ _presetsToArray s <->
  exists key p, (key, p) ∈ presets s /\ isEnabled p = true /\
                isLoaded p = true /\ label (config p) = l.
Proof.
  unfold _presetsToArray. rewrite list_elem_of_In, List.in_map_iff. split.
  - intros [[key p] [Hl Hin]]. apply List.filter_In in Hin as [Hin Hf].
    simpl in *. apply andb_true_iff in Hf as [He Hld].
    exists key, p. rewrite list_elem_of_In. auto.
  - intros (key & p & Hin & He & Hld & Hl). exists (key, p).
    split; [exact Hl|]. apply List.filter_In. split.
    + now apply list_elem_of_In.
    + simpl. now rewrite He, Hld.
Qed.

(** Claim C9. For non-empty code (and a state that has the babili
    plugin) [_compile] dispatches exactly one request, whatever loads
    failed. Its preset list is the labels of the presets that are both
    enabled and loaded, in key order, followed by ["babili"] when that
    plugin is enabled and loaded: a label is in the list exactly when
    an enabled and loaded preset carries it or it is the enabled and
    loaded babili. The env config goes along only when the env preset
    is loaded. *)
Theorem compile_request_presets source cb c babili :
  source <> EmptyString ->
  getKey "babili-standalone" (plugins (state c)) = Some babili ->
  exists cfg,
    _compile source cb c =
      (Ok (),
       mkComponent (state c) (_numLoadingPlugins c) (_compileToState c)
         (outbox c ++ [WorkerCompile source cfg cb])) /\
    Compile.presets cfg =
      List.map Compile.PresetName
        (List.map (fun entry => label (config (snd entry)))
           (List.filter
              (fun entry => isEnabled (snd entry) && isLoaded (snd entry))
              (presets (state c))) ++
         (if isEnabled babili && isLoaded babili then ["babili"] else [])) /\
    Compile.envConfig cfg =
      (if isLoaded (envPresetState (state c))
       then Some (envConfig (state c)) else None) /\
    (forall entry, entry ∈ Compile.presets cfg ->
       exists l, entry = Compile.PresetName l) /\
    (forall l,
       Compile.PresetName l ∈ Compile.presets cfg <->
       (exists key p, (key, p) ∈ presets (state c) /\
                      isEnabled p = true /\ isLoaded p = true /\
                      label (config p) = l) \/
       (l = "babili" /\ isEnabled babili = true /\ isLoaded babili = true)).
Proof.
  intros Hsrc Hget. eexists. split; [exact (compile_dispatch source cb c babili Hsrc Hget)|].
  cbn [compileConfig Compile.presets Compile.envConfig].
  fold (_presetsToArray (state c)).
  assert (Harr :
    (if isEnabled babili && isLoaded babili
     then _presetsToArray (state c) ++ ["babili"]
     else _presetsToArray (state c)) =
    _presetsToArray (state c) ++
    (if isEnabled babili && isLoaded babili then ["babili"] else [])).
  { destruct (isEnabled babili && isLoaded babili);
      [reflexivity | now rewrite app_nil_r]. }
  rewrite Harr. split; [reflexivity|]. split; [reflexivity|]. split.
  - intros entry Hin. apply list_elem_of_In, List.in_map_iff in Hin.
    destruct Hin as [l [<- _]]. now exists l.
  - intros l. rewrite list_elem_of_In, List.in_map_iff. split.
    + intros [l' [[= ->] Hin]].
      apply list_elem_of_In, elem_of_app in Hin as [Hin|Hin].
      * left. now apply elem_of_presetsToArray.
      * right. destruct (isEnabled babili && isLoaded babili) eqn:E.
        -- apply list_elem_of_singleton in Hin.
           apply andb_true_iff in E as [? ?]. auto.
        -- now apply not_elem_of_nil in Hin.
    + intros H. exists l. split; [reflexivity|].
      apply list_elem_of_In, elem_of_app.
      destruct H as [H | (-> & He & Hld)].
      * left. now apply elem_of_presetsToArray.
      * right. rewrite He, Hld. now apply list_elem_of_singleton.
Qed.

(** Claim C5, amended. A compile request carries the code, the config
    and the callback and nothing else, so two dispatches from one
    state are the same request; and every compile response is applied
    when it arrives: after it, the six result fields of the state are
    those of that response, whichever response was applied before, and
    no request was dispatched. *)
Theorem compile_response_applied now result cb c :
  let c' := snd (handle now (CompileDone result cb) c) in
  (compiled (state c') = Compile.compiled result /\
   ast (state c') = Compile.ast result /\
   transformTime (state c') = Compile.transformTime result /\
   compileErrorMessage (state c') = Compile.compileErrorMessage result /\
   envPresetDebugInfo (state c') = Compile.envPresetDebugInfo result /\
   sourceMap (state c') = Compile.r_sourceMap result) /\
  compileRequests c' = compileRequests c /\
  (forall source cb' babili,
     source <> EmptyString ->
     getKey "babili-standalone" (plugins (state c)) = Some babili ->
     exists request,
       outbox (snd (_compile source cb' (snd (_compile source cb' c)))) =
       outbox c ++ [request; request]).
Proof.
  cbv zeta. split; [|split].
  - cbn [Repl.handle]. rewrite run_bind. cbn [setState].
    match goal with
    | |- context [runCallback cb ?c1] =>
        destruct (runCallback_keeps cb c1) as [Hres _]
    end.
    unfold results in Hres. cbn in Hres.
    injection Hres as -> -> -> -> -> _ ->. repeat split.
  - cbn [Repl.handle]. rewrite run_bind. cbn [setState].
    match goal with
    | |- context [runCallback cb ?c1] =>
        destruct (runCallback_keeps cb c1) as [_ Hreq]
    end.
    exact Hreq.
  - intros source cb' babili Hsrc Hget.
    rewrite (compile_dispatch source cb' c babili Hsrc Hget). cbn [snd].
    erewrite compile_dispatch; [|exact Hsrc|exact Hget].
    eexists. cbn [snd outbox state]. now rewrite <- app_assoc.
Qed.

(** *** The debounce *)

Lemma edit_step now source c :
  step c (now, Edit source) =
  mkComponent (set_code source (state c)) (_numLoadingPlugins c)
    (Some (source, now)) (outbox c).
Proof. reflexivity. Qed.

Lemma timer_early now source last c :
  _compileToState c = Some (source, last) ->
  0 <= now - last < DEBOUNCE_DELAY ->
  step c (now, Timer) = c.
Proof.
  intros Hp Ht. unfold Repl.step, Repl.handle, Repl.timerExpired.
  cbn [fst snd]. rewrite Hp.
  replace (DEBOUNCE_DELAY <=? now - last) with false by (symmetry; lia).
  replace (now - last <? 0) with false by (symmetry; lia).
  reflexivity.
Qed.

Lemma timer_due now source last c babili :
  _compileToState c = Some (source, last) ->
  last + DEBOUNCE_DELAY <= now ->
  source <> EmptyString ->
  getKey "babili-standalone" (plugins (state c)) = Some babili ->
  exists cfg,
    step c (now, Timer) =
    mkComponent (state c) (_numLoadingPlugins c) None
      (outbox c ++ [WorkerCompile source cfg PersistState]).
Proof.
  intros Hp Ht Hsrc Hget. unfold Repl.step, Repl.handle, Repl.timerExpired.
  cbn [fst snd]. rewrite Hp.
  replace (DEBOUNCE_DELAY <=? now - last) with true by (symmetry; lia).
  cbn [orb]. rewrite run_bind. cbn [setTimer].
  erewrite compile_dispatch; [|exact Hsrc|exact Hget].
  eexists. reflexivity.
Qed.

(** A burst leaves the last edit pending and dispatches nothing. *)
Lemma burst_run c trace :
  forall cur source last,
    burst last trace ->
    cur = mkComponent (set_code source (state c)) (_numLoadingPlugins c)
            (Some (source, last)) (outbox c) ->
    run trace cur =
    mkComponent (set_code (fst (lastEdit (source, last) trace)) (state c))
      (_numLoadingPlugins c) (Some (lastEdit (source, last) trace))
      (outbox c).
Proof.
  induction trace as [|[t ev] rest IH]; intros cur source last Hb ->.
  - reflexivity.
  - destruct ev; try contradiction; cbn [burst] in Hb.
    + cbn [Repl.run foldl]. rewrite edit_step. cbn [lastEdit].
      apply (IH _ source0 t Hb). reflexivity.
    + destruct Hb as [Ht Hb]. cbn [Repl.run foldl].
      erewrite timer_early; [|reflexivity|exact Ht].
      cbn [lastEdit]. now apply IH.
Qed.

(** Claim C4, amended. Every recompile that goes through
    [_updateCode] is debounced. A stretch of edits in which the timer
    never finds [DEBOUNCE_DELAY] elapsed since the last edit
    dispatches nothing and leaves the last edit pending; the timer
    expiring [DEBOUNCE_DELAY] or more after it dispatches one request,
    for the last code. The completion of the last plugin load in
    flight, and the registration of the env preset, dispatch nothing
    either: they leave the current code pending in the same timer.
    Only the first compile, once Babel has loaded, is dispatched at
    once. *)
Theorem recompiles_are_debounced c :
  (forall t0 source0 trace,
     burst t0 trace ->
     let c1 := run ((t0, Edit source0) :: trace) c in
     let last := lastEdit (source0, t0) trace in
     outbox c1 = outbox c /\ _compileToState c1 = Some last /\
     (forall now babili,
        snd last + DEBOUNCE_DELAY <= now ->
        fst last <> EmptyString ->
        getKey "babili-standalone" (plugins (state c)) = Some babili ->
        exists cfg,
          outbox (step c1 (now, Timer)) =
            outbox c ++ [WorkerCompile (fst last) cfg PersistState] /\
          _compileToState (step c1 (now, Timer)) = None)) /\
  (forall now key success,
     _numLoadingPlugins c = 1 ->
     let c1 := step c (now, PluginLoadDone key success) in
     outbox c1 = outbox c /\
     _compileToState c1 = Some (code (state c), now)) /\
  (forall now success,
     let c1 := step c (now, EnvPresetRegistered success) in
     outbox c1 = outbox c /\
     _compileToState c1 = Some (code (state c), now)) /\
  (forall now babelState babili,
     b_isLoaded babelState = true ->
     code (state c) <> EmptyString ->
     getKey "babili-standalone" (plugins (state c)) = Some babili ->
     exists cfg,
       outbox (step c (now, BabelLoaded babelState)) =
       outbox c ++
       [WorkerCompile (code (state c)) cfg CheckForUnloadedPlugins]).
Proof.
  split; [|split; [|split]].
  - intros t0 source0 trace Hb. cbv zeta.
    cbn [Repl.run foldl]. rewrite edit_step.
    change (foldl step ?x trace) with (run trace x).
    erewrite burst_run; [| exact Hb | reflexivity].
    cbn [outbox _compileToState].
    split; [reflexivity|]. split; [reflexivity|].
    intros now babili Ht Hsrc Hget.
    destruct (lastEdit (source0, t0) trace) as [source last] eqn:El.
    cbn [fst snd] in *.
    edestruct (timer_due now source last) as [cfg ->];
      [reflexivity | exact Ht | exact Hsrc | exact Hget |].
    exists cfg. split; reflexivity.
  - intros now key success Hn. cbv zeta.
    unfold Repl.step, Repl.handle, onPluginLoadDone. cbn [fst snd].
    rewrite !run_bind. cbn [setState addLoading].
    destruct success; cbn [negb];
      rewrite ?run_bind; cbn [setState mret M_ret _numLoadingPlugins];
      rewrite Hn; split; reflexivity.
  - intros now success. split; reflexivity.
  - intros now babelState babili Hl Hsrc Hget.
    unfold Repl.step, Repl.handle, onBabelLoaded. cbn [fst snd].
    rewrite run_bind. cbn [setState]. rewrite Hl, run_bind. cbn [getState].
    erewrite compile_dispatch; [|exact Hsrc|exact Hget].
    eexists. reflexivity.
Qed.

End WithCollaborators.

End ReplFacts.

(** ** The theorems at work, and where the claims break *)

Module Instances.

Import Compile Scenarios.

Abbreviation compileWith transform :=
  (compile transform stringify_ast stringify_map debugInfo).

(** A syntax error: the callback had already reported when the
    transform threw. *)
Lemma compile_transform_throws_witness :
  let r := fst (compileWith throwingTransform "let 1x" envOn world0) in
  compiled r = None /\ ast r = None /\ transformTime r = None /\
  envPresetDebugInfo r = None /\ r_sourceMap r = None /\
  compileErrorMessage r = Some "repl: Unexpected token (1:4)" /\
  exists m, compileErrorMessage r = Some m /\ m <> EmptyString.
Proof.
  destruct (CompileFacts.compile_transform_throws throwingTransform
              stringify_ast stringify_map debugInfo "let 1x" envOn world0)
    as [H _].
  destruct (H (Js.mkError "SyntaxError" "repl: Unexpected token (1:4)")
              eq_refl)
    as (H1 & H2 & H3 & H4 & H5 & H6 & H7).
  repeat split; try assumption. apply H7. discriminate.
Defined.

(** A source map with a cycle. *)
Lemma compile_source_map_failure_witness :
  let r := fst (compileWith cyclicMapTransform "x" envOn world0) in
  compiled r = Some "x" /\ ast r = Some "x" /\
  compileErrorMessage r = None /\ r_sourceMap r = None.
Proof.
  destruct (CompileFacts.compile_source_map_failure cyclicMapTransform
              stringify_ast stringify_map debugInfo "x" envOn world0
              (mkTransformed "x" "x" true) "x"
              (Js.mkError "TypeError" "Converting circular structure to JSON")
              eq_refl eq_refl eq_refl eq_refl)
    as (H1 & H2 & H3 & H4 & _).
  repeat split; assumption.
Defined.

(** Another array is out of reach of the push. *)
Lemma compile_config_effect_witness :
  heap (snd (compileWith namingTransform "x" envOn world0)) !! 2%positive
  = heap world0 !! 2%positive.
Proof.
  apply (proj1 (CompileFacts.compile_config_effect namingTransform
                  stringify_ast stringify_map debugInfo "x" envOn world0)).
  discriminate.
Defined.

(** Claim C3 fails: with the env preset on, the presets array of the
    config has one more entry after the call. *)
Lemma compile_mutates_presets :
  snapshot (heap (snd (compileWith namingTransform "x" envOn world0))) envOn
  <> snapshot (heap world0) envOn.
Proof. vm_compute. discriminate. Qed.

(** The same config object twice with the env preset off, and the same
    content under two references with it on. *)
Lemma compile_twice_same_content_witness :
  same_but_time
    (fst (compileWith namingTransform "x" envOff world0))
    (fst (compileWith namingTransform "x" envOff
            (snd (compileWith namingTransform "x" envOff world0)))) /\
  same_but_time
    (fst (compileWith namingTransform "x" envOn world0))
    (fst (compileWith namingTransform "x"
            (mkCompileConfig true (Some ie11) false 2%positive true true)
            (mkWorld {[ 2%positive := [PresetName "react"] ]} ()
               (fun _ => 0) 0 ["earlier line"] []))).
Proof.
  destruct (CompileFacts.compile_twice_same_content namingTransform
              stringify_ast stringify_map debugInfo "x"
              (fun s o b1 b2 => eq_refl))
    as [Hcontent Hsame].
  split.
  - apply Hsame. reflexivity.
  - apply Hcontent. vm_compute. reflexivity.
Defined.

(** Claim C2 fails: [namingTransform] has no side effect, yet the second
    call on the same config object finds the entry the first one pushed
    and compiles with two env presets. *)
Lemma compile_twice_same_object_differs :
  (forall s o b1 b2,
     namingTransform s o b1 = (fst (namingTransform s o b2), b1)) /\
  let first := compileWith namingTransform "x" envOn world0 in
  let second := compileWith namingTransform "x" envOn (snd first) in
  compiled (fst first) = Some "react,env" /\
  compiled (fst second) = Some "react,env,env" /\
  ~ same_but_time (fst first) (fst second).
Proof.
  split; [reflexivity|]. cbv zeta.
  split; [vm_compute; reflexivity|]. split; [vm_compute; reflexivity|].
  intros [H _]. vm_compute in H. discriminate.
Qed.

Import Repl.

Abbreviation runWith := (Repl.run noTargets noEval).
Abbreviation stepWith := (Repl.step noTargets noEval).

(** Five keystrokes and a quiet period: one request, for the last
    code; and a plugin load that completes goes to the timer. *)
Lemma recompiles_are_debounced_witness :
  (exists cfg,
     outbox (stepWith (runWith ((0, Edit "c") :: fiveEdits) idle) (900, Timer))
     = [WorkerCompile "const" cfg PersistState]) /\
  _compileToState
    (stepWith loadingBabili (1000, PluginLoadDone "babili-standalone" true))
  = Some ("x", 1000) /\
  (exists cfg,
     outbox (stepWith idle (0, BabelLoaded (babel (state idle))))
     = [WorkerCompile "x" cfg CheckForUnloadedPlugins]).
Proof.
  split; [|split].
  - destruct (ReplFacts.recompiles_are_debounced noTargets noEval idle)
      as [H _].
    assert (Hburst : burst 0 fiveEdits)
      by (cbv [burst fiveEdits DEBOUNCE_DELAY]; lia).
    destruct (H 0 "c" fiveEdits Hburst) as (_ & _ & H3).
    destruct (H3 900 (preset "babili" true true false)) as [cfg [Hout _]].
    + vm_compute. discriminate.
    + vm_compute. discriminate.
    + reflexivity.
    + exists cfg. exact Hout.
  - destruct (ReplFacts.recompiles_are_debounced noTargets noEval
                loadingBabili) as (_ & H & _).
    apply (H 1000 "babili-standalone" true). reflexivity.
  - destruct (ReplFacts.recompiles_are_debounced noTargets noEval idle)
      as (_ & _ & _ & H).
    apply (H 0 (babel (state idle)) (preset "babili" true true false)).
    + reflexivity.
    + discriminate.
    + reflexivity.
Defined.

(** Claim C4 fails: when the load of babili completes, no compile
    request goes out; the recompile waits in the debounce timer and is
    dispatched only when the timer finds 500 ms elapsed. *)
Lemma plugin_load_recompile_waits :
  let done := (1000, PluginLoadDone "babili-standalone" true) in
  compileRequests (runWith [done] loadingBabili) = [] /\
  _compileToState (runWith [done] loadingBabili) = Some ("x", 1000) /\
  compileRequests (runWith [done; (1499, Timer)] loadingBabili) = [] /\
  exists cfg,
    compileRequests (runWith [done; (1499, Timer); (1500, Timer)] loadingBabili)
    = [WorkerCompile "x" cfg PersistState].
Proof.
  cbv zeta. repeat split; try (vm_compute; reflexivity).
  eexists. vm_compute. reflexivity.
Qed.

(** Two dispatches from one state, and a response. *)
Lemma compile_response_applied_witness :
  (exists request,
     outbox (snd (_compile noTargets "a" PersistState
                    (snd (_compile noTargets "a" PersistState idle))))
     = [request; request]) /\
  compiled (state (stepWith idle (7, CompileDone (resultFor "A") PersistState)))
  = Some "A".
Proof.
  destruct (ReplFacts.compile_response_applied noTargets noEval 7
              (resultFor "A") PersistState idle) as ((H1 & _) & _ & H3).
  split; [|exact H1].
  apply (H3 "a" PersistState (preset "babili" true true false)).
  - discriminate.
  - reflexivity.
Defined.

(** Claim C5 fails: the two requests carry one and the same config and
    no number, and the response to the first, arriving last, replaces
    the result of the second. *)
Lemma stale_response_overwrites :
  (exists cfg,
     compileRequests (runWith swappedResponses idle) =
     [WorkerCompile "a" cfg PersistState; WorkerCompile "b" cfg PersistState]) /\
  compiled (state (runWith (take 5 swappedResponses) idle)) = Some "B" /\
  compiled (state (runWith swappedResponses idle)) = Some "A" /\
  code (state (runWith swappedResponses idle)) = "b".
Proof.
  split; [eexists; vm_compute; reflexivity|].
  repeat split; vm_compute; reflexivity.
Qed.

(** The request for ["x"] from [idle]: es2015 is enabled and loaded,
    react is enabled but not loaded, stage-2 is loaded but disabled. *)
Lemma compile_request_presets_witness :
  exists cfg,
    outbox (snd (_compile noTargets "x" PersistState idle))
    = [WorkerCompile "x" cfg PersistState] /\
    Compile.presets cfg = [PresetName "es2015"; PresetName "babili"].
Proof.
  destruct (ReplFacts.compile_request_presets noTargets "x" PersistState idle
              (preset "babili" true true false))
    as (cfg & Hrun & Hpresets & _).
  - discriminate.
  - reflexivity.
  - exists cfg. rewrite Hrun. split; [reflexivity | exact Hpresets].
Defined.

(** Claim C8 fails for the env preset and for the runtime polyfill,
    whose guards read [isLoaded] alone. With the load of each in flight
    the check asks for both again. And from [idle], switching the env
    preset on, off and on while its first load has not completed asks
    the worker for it twice. *)
Lemma env_preset_load_repeated :
  isLoading (envPresetState (state loadsInFlight)) = true /\
  isLoading (runtimePolyfillState (state loadsInFlight)) = true /\
  outbox (snd (_checkForUnloadedPlugins loadsInFlight)) =
    [LoadRuntimePolyfill; WorkerLoadEnvPreset] /\
  (let c := runWith [(0, EnvPresetSettingChange (IsEnvPresetEnabled true))]
              idle in
   outbox c = [WorkerLoadEnvPreset] /\
   isLoading (envPresetState (state c)) = true /\
   outbox (runWith [(10, EnvPresetSettingChange (IsEnvPresetEnabled false));
                    (20, EnvPresetSettingChange (IsEnvPresetEnabled true))] c)
   = [WorkerLoadEnvPreset; WorkerLoadEnvPreset]).
Proof. repeat split; vm_compute; reflexivity. Qed.

End Instances.

(** ** More facts about the string built-ins *)

Module MoreJsFacts.

Import Js.

Lemma split_without sep s : contains sep s = false -> split sep s = [s].
Proof.
  induction s as [|c s IH]; simpl; [reflexivity|].
  intros H. apply orb_false_iff in H as [Hc Hs].
  rewrite Hc, (IH Hs). reflexivity.
Qed.

Lemma split_append sep s rest :
  contains sep s = false ->
  split sep (s +:+ String sep rest) = s :: split sep rest.
Proof.
  induction s as [|c s IH]; simpl.
  - intros _. now rewrite Ascii.eqb_refl.
  - intros H. apply orb_false_iff in H as [Hc Hs].
    rewrite Hc, (IH Hs). reflexivity.
Qed.

(** Splitting what [join] made of pieces without the separator gives the
    pieces back. *)
Lemma split_join sep l :
  l <> [] -> Forall (fun p => contains sep p = false) l ->
  split sep (join (String sep EmptyString) l) = l.
Proof.
  induction l as [|x rest IH]; [congruence|]. intros _ Hall.
  inversion Hall as [|? ? Hx Hrest]; subst.
  destruct rest as [|y rest'].
  - simpl. now apply split_without.
  - change (join (String sep "") (x :: y :: rest'))
      with (x +:+ String sep (join (String sep "") (y :: rest'))).
    rewrite split_append by assumption. f_equal. now apply IH.
Qed.

Lemma trimEnd_fixed s : endsBlank s = false -> trimEnd s = s.
Proof.
  induction s as [|c s IH]; [reflexivity|].
  destruct s as [|d s'].
  - simpl. intros ->. reflexivity.
  - intros H. change (endsBlank (String d s') = false) in H.
    change (trimEnd (String c (String d s')))
      with (let r := trimEnd (String d s') in
            if isWhiteSpace c && isEmpty r then EmptyString else String c r).
    rewrite (IH H). cbn. now rewrite andb_false_r.
Qed.

(** A string without a blank at either end is what [trim] returns for
    it. *)
Lemma trim_fixed s :
  startsBlank s = false -> endsBlank s = false -> trim s = s.
Proof.
  intros Hs He. unfold trim.
  assert (trimStart s = s) as ->
    by (destruct s; simpl in *; [reflexivity | now rewrite Hs]).
  now apply trimEnd_fixed.
Qed.

Lemma join_truthy sep x rest :
  truthy x = true -> truthy (join sep (x :: rest)) = true.
Proof.
  destruct x as [|c x]; [discriminate|]. intros _.
  destruct rest; reflexivity.
Qed.

End MoreJsFacts.

(** ** More facts about [compile] *)

Module CompileMore.

Import Compile.

(** The wording fits one list. *)
Lemma browsersOf_unique s entries entries' :
  browsersOf s entries -> browsersOf s entries' -> entries = entries'.
Proof.
  intros (ps & ts & Hj & Hn & Hc & Ht & ->) (ps' & ts' & Hj' & Hn' & Hc' & Ht' & ->).
  assert (ps = ps') as <-.
  { rewrite <- (MoreJsFacts.split_join "," ps Hn Hc).
    rewrite <- (MoreJsFacts.split_join "," ps' Hn' Hc').
    change (String "," EmptyString) with ",". now rewrite Hj, Hj'. }
  f_equal. clear Hj Hj' Hn Hn' Hc Hc'. revert ts' Ht'.
  induction Ht as [|p t ps ts Hpt _ IH]; intros ts' Ht'; inversion Ht'; subst.
  - reflexivity.
  - f_equal; [eapply CompileFacts.trimmedFrom_unique; eauto | now apply IH].
Qed.

(** X5. The browsers list of the targets is in normal form: joined with
    commas and given back as the browsers string, a non-empty list of
    entries comes out as it went in, the other targets unchanged. *)
Theorem buildTargets_normal ec entries :
  t_browsers (buildTargets ec) = Some entries ->
  entries <> [] ->
  buildTargets
    (mkEnvConfig (Js.join "," entries) (electron ec) (isEnvPresetEnabled ec)
       (isElectronEnabled ec) (isNodeEnabled ec) (node ec))
  = mkTargets (Some entries) (t_electron (buildTargets ec))
      (t_node (buildTargets ec)).
Proof.
  intros Hb Hne.
  pose proof (CompileFacts.buildTargets_browsers ec) as Hall.
  rewrite Hb in Hall. simpl in Hall.
  unfold buildTargets at 1. cbn [browsers electron isElectronEnabled
    isNodeEnabled node t_electron t_node]. f_equal.
  destruct entries as [|x rest]; [congruence|].
  assert (Hx : Js.truthy x = true).
  { inversion Hall as [|? ? (Hx & _) _]; subst.
    now apply JsFacts.truthy_nonempty. }
  rewrite (MoreJsFacts.join_truthy "," x rest Hx). f_equal.
  change "," with (String "," EmptyString) at 1.
  rewrite MoreJsFacts.split_join; [|discriminate|].
  2:{ eapply Forall_impl; [exact Hall|]. now intros b (_ & _ & _ & Hc). }
  clear Hb Hne Hx. induction Hall as [|b bs (Hb & Hs & He & _) _ IH].
  - reflexivity.
  - cbn [List.map]. rewrite (MoreJsFacts.trim_fixed b Hs He).
    rewrite filter_cons_True by (apply Is_true_true; now apply JsFacts.truthy_nonempty).
    now rewrite IH.
Qed.

Section WithBabel.

Context {BabelState Ast SourceMap EnvResult : Type}.
Variable Babel_transform :
  string -> TransformOptions -> BabelState ->
  @TransformRun Ast SourceMap EnvResult * BabelState.
Variable JSON_stringify_ast : Ast -> Js.Error + string.
Variable JSON_stringify_map : SourceMap -> Js.Error + string.
Variable getDebugInfoFromEnvResult : EnvResult -> string.

Abbreviation compile :=
  (Compile.compile Babel_transform JSON_stringify_ast JSON_stringify_map
     getDebugInfoFromEnvResult).
Abbreviation compileTimes :=
  (Compile.compileTimes Babel_transform JSON_stringify_ast JSON_stringify_map
     getDebugInfoFromEnvResult).
Abbreviation transformCall := (Compile.transformCall Babel_transform).
Abbreviation runCallbacks := (Compile.runCallbacks getDebugInfoFromEnvResult).

(** X1. When the transform returns but serializing its AST throws,
    [compile] returns the failure object with the message of that error:
    the elapsed time it had already measured is dropped, the source map is
    not attempted and nothing is written to the console. *)
Theorem compile_ast_throws source config (w : World) t error :
  outcome (transformCall source config w) = inr t ->
  JSON_stringify_ast (tr_ast t) = inl error ->
  fst (compile source config w) = failure error /\
  console (snd (compile source config w)) = console w /\
  reads (snd (compile source config w)) = S (S (reads w)).
Proof.
  unfold Compile.transformCall, Compile.compile, Babel_call, addEnvPreset.
  intros Hrun Hast.
  destruct (envEnabled config) as [ec|]; simpl in *;
    (destruct (Babel_transform _ _ _) as [run b]; simpl in *;
     rewrite Hrun; simpl; rewrite Hast; simpl; repeat split).
Qed.

(** X2. When the transform returns and the AST is serialized, [compile]
    returns the code and the AST with no error message; [transformTime] is
    the second reading of the clock less the first; [sourceMap] is the
    serialized map when one was requested and serializing worked, and
    null otherwise; the console gets a line only for a requested map that
    could not be serialized. *)
Theorem compile_success source config (w : World) t tree :
  outcome (transformCall source config w) = inr t ->
  JSON_stringify_ast (tr_ast t) = inr tree ->
  let r := fst (compile source config w) in
  let w' := snd (compile source config w) in
  compiled r = Some (tr_code t) /\ ast r = Some tree /\
  compileErrorMessage r = None /\
  transformTime r = Some (clock w (S (reads w)) - clock w (reads w)) /\
  r_sourceMap r =
    (if sourceMap config
     then match JSON_stringify_map (tr_map t) with
          | inr s => Some s
          | inl _ => None
          end
     else None) /\
  console w' =
    console w ++
    (if sourceMap config
     then match JSON_stringify_map (tr_map t) with
          | inr _ => []
          | inl error =>
              ["Source Map generation failed: " +:+ Js.toString error]
          end
     else []).
Proof.
  unfold Compile.transformCall, Compile.compile, Babel_call, addEnvPreset.
  intros Hrun Hast.
  destruct (envEnabled config) as [ec|]; simpl in *;
    (destruct (Babel_transform _ _ _) as [run b]; simpl in *;
     rewrite Hrun; simpl; rewrite Hast; simpl;
     destruct (sourceMap config);
       [destruct (JSON_stringify_map (tr_map t)) as [e|s] eqn:Hmap|];
     simpl; rewrite ?app_nil_r; repeat split).
Qed.

(** The closure keeps the last report made to its own entry. *)
Lemma runCallbacks_last i calls :
  runCallbacks (Some i) calls =
  (fun call => getDebugInfoFromEnvResult (snd call))
    <$> last (List.filter (fun call => Nat.eqb (fst call) i) calls).
Proof.
  unfold Compile.runCallbacks.
  assert (H : forall acc,
    foldl (fun info call =>
             if Nat.eqb (fst call) i
             then Some (getDebugInfoFromEnvResult (snd call)) else info)
          acc calls =
    match last (List.filter (fun call => Nat.eqb (fst call) i) calls) with
    | Some call => Some (getDebugInfoFromEnvResult (snd call))
    | None => acc
    end).
  { induction calls as [|call rest IH]; intros acc; [reflexivity|].
    cbn [foldl List.filter]. rewrite IH.
    destruct (Nat.eqb (fst call) i); [|reflexivity].
    rewrite (last_cons call). now destruct (last _). }
  rewrite H. now destruct (last _).
Qed.

(** X3. Without the debug flag, or with the env preset off, the
    result carries no debug info whatever the transform reports. With
    both on and a successful run, it carries the debug info of the last
    report made to the entry this call appended; reports made to other
    entries do not count. *)
Theorem compile_debug_info source config (w : World) :
  let r := fst (compile source config w) in
  (debugEnvPreset config = false \/ envEnabled config = None ->
   envPresetDebugInfo r = None) /\
  (forall ec t tree,
     debugEnvPreset config = true -> envEnabled config = Some ec ->
     outcome (transformCall source config w) = inr t ->
     JSON_stringify_ast (tr_ast t) = inr tree ->
     envPresetDebugInfo r =
     (fun call => getDebugInfoFromEnvResult (snd call))
       <$> last (List.filter
                   (fun call =>
                      Nat.eqb (fst call)
                        (length (deref (heap w) (presets config))))
                   (callbacks (transformCall source config w)))).
Proof.
  cbv zeta. split.
  - intros Hoff.
    unfold Compile.compile, Babel_call, addEnvPreset.
    assert (Hslot :
      (match envEnabled config with
       | Some ec =>
           (if debugEnvPreset config
            then Some (length (deref (heap w) (presets config))) else None)
       | None => None
       end) = None).
    { destruct Hoff as [-> | ->]; [now destruct (envEnabled config)|reflexivity]. }
    destruct (envEnabled config) as [ec|]; simpl in *;
      try rewrite Hslot;
      (destruct (Babel_transform _ _ _) as [run b]; simpl;
       destruct (outcome run); simpl; [reflexivity|];
       destruct (JSON_stringify_ast _); simpl; [reflexivity|];
       destruct (sourceMap config); [destruct (JSON_stringify_map _)|];
       reflexivity).
  - intros ec t tree Hdbg Hen Hrun Hast. rewrite <- runCallbacks_last.
    revert Hrun.
    unfold Compile.transformCall, Compile.compile, Babel_call, addEnvPreset.
    rewrite Hen, Hdbg. simpl.
    destruct (Babel_transform _ _ _) as [run b]; simpl.
    intros ->. simpl. rewrite Hast. simpl.
    destruct (sourceMap config); [destruct (JSON_stringify_map _)|];
      reflexivity.
Qed.

(** [n] calls from an array that already ends with [k] copies of the
    entry. *)
Lemma compileTimes_from source config ec n :
  envEnabled config = Some ec ->
  forall k before (w : World),
    deref (heap w) (presets config) =
      before ++ replicate k (PresetWithOptions "env" (buildOptions config ec)) ->
    let w' := snd (compileTimes n source config w) in
    deref (heap w') (presets config) =
      before ++ replicate (k + n)
                  (PresetWithOptions "env" (buildOptions config ec)) /\
    calls w' =
      calls w ++
      List.map
        (fun i =>
           (source,
            mkTransformOptions false "repl"
              (before ++ replicate (k + S i)
                           (PresetWithOptions "env" (buildOptions config ec)))
              (sourceMap config)))
        (seq 0 n) /\
    length (fst (compileTimes n source config w)) = n.
Proof.
  intros Hen. induction n as [|n IH]; intros k before w Hw; cbv zeta.
  - cbn. rewrite Nat.add_0_r, app_nil_r. auto.
  - cbn [Compile.compileTimes].
    pose proof (CompileFacts.compile_heap Babel_transform JSON_stringify_ast
                  JSON_stringify_map getDebugInfoFromEnvResult source config w)
      as Hheap.
    pose proof (CompileFacts.compile_calls Babel_transform JSON_stringify_ast
                  JSON_stringify_map getDebugInfoFromEnvResult source config w)
      as Hcalls.
    destruct (compile source config w) as [r w1]. cbn [snd] in *.
    rewrite Hen in Hheap.
    assert (Hw1 : deref (heap w1) (presets config) =
                  before ++ replicate (S k)
                    (PresetWithOptions "env" (buildOptions config ec))).
    { rewrite Hheap, CompileFacts.deref_push_same, Hw, <- app_assoc.
      f_equal. symmetry. apply replicate_S_end. }
    specialize (IH (S k) before w1 Hw1). cbv zeta in IH.
    destruct (compileTimes n source config w1) as [rs w2]. cbn [fst snd] in *.
    destruct IH as (IH1 & IH2 & IH3).
    split; [|split].
    + rewrite IH1. now rewrite Nat.add_succ_comm.
    + rewrite IH2, Hcalls, Hw1, <- app_assoc. f_equal.
      cbn [seq List.map app]. rewrite Nat.add_1_r. f_equal.
      rewrite <- seq_shift, List.map_map.
      apply List.map_ext. intros i. now rewrite Nat.add_succ_comm.
    + simpl. now rewrite IH3.
Qed.

(** X4. [n] calls in a row on one config object return [n] results.
    With the env preset on they leave [n] more env entries in its presets
    array, the call number [i + 1] handing the transform the original
    list followed by [i + 1] of them; with it off the array stays as it
    was and every call hands over the same list. *)
Theorem compile_repeated source config (w : World) n :
  let w' := snd (compileTimes n source config w) in
  let before := deref (heap w) (presets config) in
  length (fst (compileTimes n source config w)) = n /\
  match envEnabled config with
  | Some ec =>
      let entry := PresetWithOptions "env" (buildOptions config ec) in
      deref (heap w') (presets config) = before ++ replicate n entry /\
      calls w' =
        calls w ++
        List.map
          (fun i =>
             (source,
              mkTransformOptions false "repl"
                (before ++ replicate (S i) entry) (sourceMap config)))
          (seq 0 n)
  | None =>
      deref (heap w') (presets config) = before /\
      calls w' =
        calls w ++
        replicate n
          (source, mkTransformOptions false "repl" before (sourceMap config))
  end.
Proof.
  cbv zeta. destruct (envEnabled config) as [ec|] eqn:Hen.
  - destruct (compileTimes_from source config ec n Hen 0%nat
                (deref (heap w) (presets config)) w) as (H1 & H2 & H3).
    { now rewrite app_nil_r. }
    split; [exact H3|]. split; [exact H1 | exact H2].
  - revert w. induction n as [|n IH]; intros w.
    + cbn. now rewrite app_nil_r.
    + cbn [Compile.compileTimes].
      pose proof (CompileFacts.compile_heap Babel_transform JSON_stringify_ast
                    JSON_stringify_map getDebugInfoFromEnvResult source config w)
        as Hheap.
      pose proof (CompileFacts.compile_calls Babel_transform JSON_stringify_ast
                    JSON_stringify_map getDebugInfoFromEnvResult source config w)
        as Hcalls.
      destruct (compile source config w) as [r w1]. cbn [snd] in *.
      rewrite Hen in Hheap. specialize (IH w1).
      destruct (compileTimes n source config w1) as [rs w2]. cbn [fst snd] in *.
      destruct IH as (IH1 & IH2 & IH3). rewrite Hheap in *.
      split; [simpl; now rewrite IH1|]. split; [exact IH2|].
      rewrite IH3, Hcalls, <- app_assoc. reflexivity.
Qed.

End WithBabel.

End CompileMore.

(** ** More facts about the orchestrator *)

Module ReplMore.

Import Repl.

(** Running the primitives of the monad. *)
Ltac exec :=
  repeat first
    [ rewrite ReplFacts.run_bind
    | progress cbn [getState setState addLoading setTimer send throw mret
                    M_ret] ].

(** *** Objects used as maps *)

Lemma getKey_app_out key pre m :
  key ∉ List.map fst pre -> getKey key (pre ++ m) = getKey key m.
Proof.
  induction pre as [|[k p] pre IH]; simpl; [reflexivity|].
  intros Hout. apply not_elem_of_cons in Hout as [Hne Hout].
  destruct (String.eqb_spec k key); [congruence | auto].
Qed.

Lemma updateKey_app_out key f pre m :
  key ∉ List.map fst pre ->
  updateKey key f (pre ++ m) = pre ++ updateKey key f m.
Proof.
  induction pre as [|[k p] pre IH]; simpl; [reflexivity|].
  intros Hout. apply not_elem_of_cons in Hout as [Hne Hout].
  destruct (String.eqb_spec k key); [congruence|]. now rewrite IH.
Qed.

Lemma getKey_is_Some key m :
  key ∈ List.map fst m -> is_Some (getKey key m).
Proof.
  induction m as [|[k p] m IH]; simpl.
  - intros H. now apply not_elem_of_nil in H.
  - intros H. destruct (String.eqb_spec k key); [eauto|].
    apply elem_of_cons in H as [H|H]; [congruence | auto].
Qed.

Lemma sameButLoading_refl p : sameButLoading p p.
Proof. repeat split. Qed.

Lemma sameButLoading_trans p q r :
  sameButLoading p q -> sameButLoading q r -> sameButLoading p r.
Proof.
  intros (H1 & H2 & H3 & H4) (G1 & G2 & G3 & G4). repeat split; congruence.
Qed.

Lemma sameButLoading_beginLoad p : sameButLoading p (beginLoad p).
Proof. repeat split. Qed.

Abbreviation sameEntries :=
  (Forall2 (fun e e' : string * PluginState =>
              fst e' = fst e /\ sameButLoading (snd e) (snd e'))).

Lemma sameEntries_refl m : sameEntries m m.
Proof.
  induction m; constructor; auto. split; [reflexivity | apply sameButLoading_refl].
Qed.

Lemma sameEntries_trans m1 m2 m3 :
  sameEntries m1 m2 -> sameEntries m2 m3 -> sameEntries m1 m3.
Proof.
  intros H. revert m3. induction H as [|e1 e2 m1 m2 [Hk Hp] _ IH]; intros m3 H3.
  - inversion H3. constructor.
  - inversion H3 as [|? e3 ? m3' [Hk' Hp'] Hrest]; subst. constructor.
    + split; [congruence | eapply sameButLoading_trans; eauto].
    + now apply IH.
Qed.

Lemma sameEntries_updateKey key f m :
  (forall p, sameButLoading p (f p)) -> sameEntries m (updateKey key f m).
Proof.
  intros Hf. induction m as [|[k p] m IH]; simpl; [constructor|].
  destruct (String.eqb k key).
  - constructor; [split; [reflexivity | apply Hf] | apply sameEntries_refl].
  - constructor; [split; [reflexivity | apply sameButLoading_refl] | exact IH].
Qed.

Lemma sameEntries_keys m m' :
  sameEntries m m' -> List.map fst m' = List.map fst m.
Proof.
  induction 1 as [|e e' m m' [Hk _] _ IH]; simpl; [reflexivity|].
  now rewrite Hk, IH.
Qed.

Lemma sameEntries_getKey key m m' p :
  sameEntries m m' -> getKey key m = Some p ->
  exists p', getKey key m' = Some p' /\ sameButLoading p p'.
Proof.
  induction 1 as [|[k q] [k' q'] m m' [Hk Hq] _ IH]; simpl; [discriminate|].
  simpl in Hk. subst k'. destruct (String.eqb k key); [|exact IH].
  intros [= <-]. eauto.
Qed.

Lemma onlyLoadingFlags_refl s : onlyLoadingFlags s s.
Proof.
  repeat split. apply sameEntries_refl.
Qed.

Lemma onlyLoadingFlags_trans s1 s2 s3 :
  onlyLoadingFlags s1 s2 -> onlyLoadingFlags s2 s3 -> onlyLoadingFlags s1 s3.
Proof.
  intros (A1 & A2 & A3 & A4 & A5 & A6 & A7 & A8 & A9 & A10 & A11 & A12 &
          A13 & A14 & A15)
         (B1 & B2 & B3 & B4 & B5 & B6 & B7 & B8 & B9 & B10 & B11 & B12 &
          B13 & B14 & B15).
  unfold onlyLoadingFlags.
  repeat match goal with
         | |- _ /\ _ => split
         end; try congruence.
  - eapply sameButLoading_trans; eauto.
  - eapply sameButLoading_trans; eauto.
  - eapply sameEntries_trans; eauto.
Qed.

(** *** The check for unloaded plugins *)

Lemma checkFrame_refl c : checkFrame c c.
Proof. split; [apply onlyLoadingFlags_refl | reflexivity]. Qed.

Lemma checkFrame_trans a b c : checkFrame a b -> checkFrame b c -> checkFrame a c.
Proof.
  intros [H1 H2] [H3 H4]. split; [|congruence].
  eapply onlyLoadingFlags_trans; eauto.
Qed.

Lemma frame_plugins key c :
  checkFrame c
    (mkComponent
       (set_plugins (updateKey key beginLoad (plugins (state c))) (state c))
       (_numLoadingPlugins c + 1) (_compileToState c)
       (outbox c ++ [WorkerLoadPlugin key])).
Proof.
  split; [|reflexivity]. unfold onlyLoadingFlags. cbn.
  repeat match goal with
         | |- _ /\ _ => split
         end; try reflexivity; try apply sameButLoading_refl.
  apply sameEntries_updateKey, sameButLoading_beginLoad.
Qed.

(** The loop never stops on a missing key, and only marks plugins as
    loading. *)
Lemma forEachPlugin_total keys :
  forall c,
    (forall k, k ∈ keys -> k ∈ List.map fst (plugins (state c))) ->
    exists c', forEachPlugin keys c = (Ok (), c') /\ checkFrame c c'.
Proof.
  induction keys as [|key rest IH]; intros c Hkeys.
  - exists c. split; [reflexivity | apply checkFrame_refl].
  - cbn [forEachPlugin]. rewrite ReplFacts.run_bind. cbn [getState].
    destruct (getKey_is_Some key (plugins (state c))) as [plugin Hget].
    { apply Hkeys. now left. }
    rewrite Hget. rewrite ReplFacts.run_bind.
    destruct (needsLoad plugin).
    + exec.
      match goal with
      | |- context [forEachPlugin rest ?c1] =>
          destruct (IH c1) as (c' & Hrun & Hframe)
      end.
      { intros k Hk.
        pose proof (sameEntries_keys _ _
                      (sameEntries_updateKey key beginLoad (plugins (state c))
                         sameButLoading_beginLoad)) as Hsame.
        cbn. rewrite Hsame. apply Hkeys. now right. }
      exists c'. split; [exact Hrun|].
      eapply checkFrame_trans; [apply frame_plugins | exact Hframe].
    + cbn [mret M_ret]. apply IH. intros k Hk. apply Hkeys. now right.
Qed.

(** The check never throws. It changes loading flags only, sets no
    timer, dispatches no compile request. *)
Lemma check_total c :
  exists c', _checkForUnloadedPlugins c = (Ok (), c') /\
             checkFrame c c' /\ keepsResults c c'.
Proof.
  pose proof (ReplFacts.checkForUnloadedPlugins_keeps c) as Hkeeps.
  revert Hkeeps. unfold _checkForUnloadedPlugins.
  rewrite ReplFacts.run_bind. cbn [getState]. rewrite ReplFacts.run_bind.
  destruct (forEachPlugin_total (List.map fst (plugins (state c))) c)
    as (c1 & -> & [Hf1 Ht1]); [auto|].
  rewrite ReplFacts.run_bind.
  destruct (isEnabled (runtimePolyfillState (state c))
            && negb (isLoaded (runtimePolyfillState (state c))));
    destruct (Compile.isEnvPresetEnabled (envConfig (state c))
              && negb (isLoaded (envPresetState (state c))));
    rewrite ?ReplFacts.run_bind; cbn [setState send mret M_ret snd];
    intros Hkeeps; eexists; (split; [reflexivity|]);
    (split; [|exact Hkeeps]);
    (split; [|exact Ht1]);
    (eapply onlyLoadingFlags_trans; [exact Hf1|]);
    unfold onlyLoadingFlags; cbn;
    repeat match goal with
           | |- _ /\ _ => split
           end; try reflexivity; try apply sameButLoading_refl;
    try apply sameButLoading_beginLoad; try apply sameEntries_refl.
Qed.

Lemma forEachPlugin_entries m :
  forall pre c,
    plugins (state c) = pre ++ m ->
    NoDup (List.map fst (pre ++ m)) ->
    forEachPlugin (List.map fst m) c =
    (Ok (),
     mkComponent
       (set_plugins (pre ++ List.map markLoading m) (state c))
       (_numLoadingPlugins c
        + Z.of_nat (length (List.filter (fun e => needsLoad (snd e)) m)))
       (_compileToState c)
       (outbox c ++
        List.map (fun e => WorkerLoadPlugin (fst e))
          (List.filter (fun e => needsLoad (snd e)) m))).
Proof.
  induction m as [|[k p] rest IH]; intros pre c Hc Hnd.
  - destruct c as [s n t o]. destruct s. cbn in *. subst.
    now rewrite !app_nil_r, Z.add_0_r.
  - assert (Hout : k ∉ List.map fst pre).
    { rewrite List.map_app in Hnd. apply NoDup_app in Hnd as (_ & Hdis & _).
      intros Hin. apply (Hdis k Hin). now left. }
    cbn [List.map fst forEachPlugin]. exec. rewrite Hc, getKey_app_out by exact Hout.
    cbn [getKey]. rewrite String.eqb_refl.
    cbn [List.filter snd markLoading fst].
    destruct (needsLoad p) eqn:Hneeds.
    + exec.
      rewrite (IH (pre ++ [(k, beginLoad p)])).
      * cbn [state _numLoadingPlugins _compileToState outbox length List.map fst].
        f_equal. f_equal.
        -- unfold markLoading at 2. cbn [fst snd].
           now rewrite Hneeds, <- app_assoc.
        -- lia.
        -- now rewrite <- app_assoc.
      * cbn [state plugins set_plugins]. rewrite Hc.
        rewrite updateKey_app_out by exact Hout.
        cbn [updateKey]. rewrite String.eqb_refl. now rewrite <- app_assoc.
      * rewrite <- app_assoc. cbn [app].
        rewrite List.map_app in *. exact Hnd.
    + exec.
      rewrite (IH (pre ++ [(k, p)])).
      * f_equal. f_equal. unfold markLoading at 2. cbn [fst snd].
        now rewrite Hneeds, <- app_assoc.
      * rewrite Hc. now rewrite <- app_assoc.
      * now rewrite <- app_assoc.
Qed.

(** X6. For a state whose plugin keys are distinct,
    [_checkForUnloadedPlugins] does not throw. It asks the worker for
    exactly the plugins that are enabled, not loaded and not loading, in
    key order, counting each in [_numLoadingPlugins]; then for the runtime
    polyfill when it is enabled and not loaded; then for the env preset
    when the env config enables it and it is not loaded. It leaves the
    timer alone and changes nothing in the state but loading flags. *)
Theorem check_requests c :
  NoDup (List.map fst (plugins (state c))) ->
  let s := state c in
  let needy := List.filter (fun e => needsLoad (snd e)) (plugins s) in
  exists c',
    _checkForUnloadedPlugins c = (Ok (), c') /\
    outbox c' =
      outbox c
      ++ List.map (fun e => WorkerLoadPlugin (fst e)) needy
      ++ (if isEnabled (runtimePolyfillState s)
             && negb (isLoaded (runtimePolyfillState s))
          then [LoadRuntimePolyfill] else [])
      ++ (if Compile.isEnvPresetEnabled (envConfig s)
             && negb (isLoaded (envPresetState s))
          then [WorkerLoadEnvPreset] else []) /\
    _numLoadingPlugins c' = _numLoadingPlugins c + Z.of_nat (length needy) /\
    _compileToState c' = _compileToState c /\
    onlyLoadingFlags s (state c').
Proof.
  intros Hnd. cbv zeta.
  destruct (check_total c) as (c' & Hrun & [Hframe Htimer] & _).
  exists c'. split; [exact Hrun|].
  split; [|split; [|split; [exact Htimer | exact Hframe]]];
    revert Hrun; unfold _checkForUnloadedPlugins; exec;
    rewrite (forEachPlugin_entries (plugins (state c)) [] c eq_refl Hnd);
    exec;
    destruct (isEnabled (runtimePolyfillState (state c))
              && negb (isLoaded (runtimePolyfillState (state c))));
    destruct (Compile.isEnvPresetEnabled (envConfig (state c))
              && negb (isLoaded (envPresetState (state c))));
    exec; intros [= <-]; cbn [outbox _numLoadingPlugins];
    rewrite <- ?app_assoc, ?app_nil_r; reflexivity.
Qed.

(** *** What every handler keeps *)

Lemma unchanged_refl {A} (obs : Component -> A) c : unchanged obs c c.
Proof. reflexivity. Qed.

Lemma unchanged_trans {A} (obs : Component -> A) a b c :
  unchanged obs a b -> unchanged obs b c -> unchanged obs a c.
Proof. unfold unchanged. congruence. Qed.

Section Observation.

(** Something read off the instance that does not look at the state or
    at the timer, that is the same after a request other than a plugin
    load or an evaluation, and the same after a plugin load was counted
    and asked for. *)
Context {A : Type} (obs : Component -> A).
Hypothesis obs_state :
  forall s s' n t o, obs (mkComponent s' n t o) = obs (mkComponent s n t o).
Hypothesis obs_timer :
  forall s n t t' o, obs (mkComponent s n t' o) = obs (mkComponent s n t o).
Hypothesis obs_send :
  forall r s n t o,
    isWorkerLoadPlugin r = false -> isEvaluate r = false ->
    obs (mkComponent s n t (o ++ [r])) = obs (mkComponent s n t o).
Hypothesis obs_load :
  forall key s n t o,
    obs (mkComponent s (n + 1) t (o ++ [WorkerLoadPlugin key]))
    = obs (mkComponent s n t o).

Lemma setState_un u c : unchanged obs c (snd (setState u c)).
Proof. destruct c. apply obs_state. Qed.

Lemma setTimer_un t c : unchanged obs c (snd (setTimer t c)).
Proof. destruct c. apply obs_timer. Qed.

Lemma send_un r c :
  isWorkerLoadPlugin r = false -> isEvaluate r = false ->
  unchanged obs c (snd (send r c)).
Proof. destruct c. apply obs_send. Qed.

Ltac walk :=
  repeat first
    [ apply unchanged_refl
    | apply (ReplFacts.getState_rel (unchanged obs))
    | apply (ReplFacts.bind_rel (unchanged obs) (unchanged_trans obs));
        [|intros ? ? _]
    | apply setState_un
    | apply setTimer_un
    | apply send_un; reflexivity
    | match goal with
      | |- unchanged _ _ (snd ((if ?b then _ else _) _)) => destruct b
      | |- unchanged _ _ (snd (match ?o with Some _ => _ | None => _ end _)) =>
          destruct o
      end ].

Lemma forEachPlugin_un keys c : unchanged obs c (snd (forEachPlugin keys c)).
Proof.
  revert c. induction keys as [|key rest IH]; intros c; cbn [forEachPlugin].
  - apply unchanged_refl.
  - apply (ReplFacts.getState_rel (unchanged obs)).
    destruct (getKey key (plugins (state c))) as [plugin|];
      [|apply unchanged_refl].
    apply (ReplFacts.bind_rel (unchanged obs) (unchanged_trans obs));
      [|intros; apply IH].
    destruct (needsLoad plugin); [|apply unchanged_refl].
    exec. cbn [snd]. destruct c as [s n t o]. unfold unchanged.
    cbn [state _numLoadingPlugins _compileToState outbox].
    etransitivity; [apply (obs_state s) | apply obs_load].
Qed.

Lemma check_un c : unchanged obs c (snd (_checkForUnloadedPlugins c)).
Proof.
  unfold _checkForUnloadedPlugins.
  apply (ReplFacts.getState_rel (unchanged obs)).
  apply (ReplFacts.bind_rel (unchanged obs) (unchanged_trans obs));
    [apply forEachPlugin_un | intros ? ? _].
  walk.
Qed.

Lemma updateCode_un now source c :
  unchanged obs c (snd (_updateCode now source c)).
Proof. unfold _updateCode, _compileToState_call. walk. Qed.

Lemma presetsUpdated_un now c :
  unchanged obs c (snd (_presetsUpdatedSetStateCallback now c)).
Proof.
  unfold _presetsUpdatedSetStateCallback.
  apply (ReplFacts.bind_rel (unchanged obs) (unchanged_trans obs));
    [apply check_un | intros ? ? _].
  apply (ReplFacts.getState_rel (unchanged obs)). apply updateCode_un.
Qed.

Variable envConfigToTargetsString : Compile.EnvConfig -> string.
Variable scopedEval_execute : string -> option string -> option Js.Error.

Lemma persistState_un c :
  unchanged obs c (snd (_persistState envConfigToTargetsString c)).
Proof. unfold _persistState. walk. Qed.

Lemma runCallback_un cb c :
  unchanged obs c (snd (runCallback envConfigToTargetsString cb c)).
Proof. destruct cb; [apply check_un | apply persistState_un]. Qed.

Lemma compile_un source cb c :
  unchanged obs c (snd (_compile envConfigToTargetsString source cb c)).
Proof.
  unfold _compile. apply (ReplFacts.getState_rel (unchanged obs)).
  destruct (negb (Js.truthy source)).
  - apply (ReplFacts.bind_rel (unchanged obs) (unchanged_trans obs));
      [apply setState_un | intros ? ? _; apply runCallback_un].
  - walk.
Qed.

Lemma timerExpired_un now c :
  unchanged obs c (snd (timerExpired envConfigToTargetsString now c)).
Proof.
  unfold timerExpired.
  destruct (_compileToState c) as [[source last]|]; [|apply unchanged_refl].
  destruct (_ || _); [|apply unchanged_refl].
  apply (ReplFacts.bind_rel (unchanged obs) (unchanged_trans obs));
    [apply setTimer_un | intros ? ? _; apply compile_un].
Qed.

(** Every handler but the two completions of a load keeps [obs]. *)
Lemma handle_un now ev c :
  match ev with
  | PluginLoadDone _ _ | PolyfillLoadDone _ => False
  | _ => True
  end ->
  unchanged obs c
    (step envConfigToTargetsString scopedEval_execute c (now, ev)).
Proof.
  unfold step. cbn [fst snd].
  destruct ev; intros Hev; try contradiction; cbn [handle].
  - unfold onBabelLoaded.
    apply (ReplFacts.bind_rel (unchanged obs) (unchanged_trans obs));
      [apply setState_un | intros ? ? _].
    destruct (b_isLoaded babelState); [|apply unchanged_refl].
    apply (ReplFacts.getState_rel (unchanged obs)). apply compile_un.
  - apply updateCode_un.
  - unfold _onSettingChange.
    apply (ReplFacts.bind_rel (unchanged obs) (unchanged_trans obs));
      [apply setState_un | intros ? ? _; apply presetsUpdated_un].
  - unfold _onEnvPresetSettingChange.
    apply (ReplFacts.bind_rel (unchanged obs) (unchanged_trans obs));
      [apply setState_un | intros ? ? _; apply presetsUpdated_un].
  - unfold _onIsSidebarExpandedChange.
    apply (ReplFacts.bind_rel (unchanged obs) (unchanged_trans obs));
      [apply setState_un | intros ? ? _; apply persistState_un].
  - unfold _onTabExpandedChange.
    apply (ReplFacts.bind_rel (unchanged obs) (unchanged_trans obs));
      [apply setState_un | intros ? ? _; apply presetsUpdated_un].
  - apply timerExpired_un.
  - apply (ReplFacts.bind_rel (unchanged obs) (unchanged_trans obs));
      [apply setState_un | intros ? ? _; apply runCallback_un].
  - walk.
  - apply (ReplFacts.getState_rel (unchanged obs)). apply updateCode_un.
Qed.

End Observation.

Lemma filter_snoc_false {B} (f : B -> bool) l x :
  f x = false -> List.filter f (l ++ [x]) = List.filter f l.
Proof. intros H. rewrite List.filter_app. simpl. rewrite H. apply app_nil_r. Qed.

Lemma filter_snoc_true {B} (f : B -> bool) l x :
  f x = true -> List.filter f (l ++ [x]) = List.filter f l ++ [x].
Proof. intros H. rewrite List.filter_app. simpl. now rewrite H. Qed.

(** *** The persisted presets *)

Lemma keys_setKey {B} key (v : B) m k :
  k ∈ List.map fst (setKey key v m) <-> k = key \/ k ∈ List.map fst m.
Proof.
  induction m as [|[k0 x] m IH]; simpl.
  - rewrite list_elem_of_singleton. split; [auto|].
    intros [H|H]; [exact H | now apply not_elem_of_nil in H].
  - destruct (String.eqb_spec k0 key) as [->|Hne]; simpl.
    + rewrite elem_of_cons. tauto.
    + rewrite !elem_of_cons, IH. tauto.
Qed.

Lemma NoDup_setKey {B} key (v : B) m :
  NoDup (List.map fst m) -> NoDup (List.map fst (setKey key v m)).
Proof.
  induction m as [|[k0 x] m IH]; simpl; intros Hnd.
  - apply NoDup_singleton.
  - destruct (String.eqb_spec k0 key) as [->|Hne]; simpl; [exact Hnd|].
    apply NoDup_cons in Hnd as [Hout Hnd]. apply NoDup_cons. split; [|auto].
    rewrite keys_setKey. intros [H|H]; [congruence | contradiction].
Qed.

Lemma values_setKey key m :
  Forall (fun e : string * bool => snd e = true) m ->
  Forall (fun e : string * bool => snd e = true) (setKey key true m).
Proof.
  induction 1 as [|[k0 x] m Hx Hrest IH]; simpl.
  - now repeat constructor.
  - destruct (String.eqb k0 key); constructor; auto.
Qed.

Lemma reduce_presets pieces :
  forall acc,
    NoDup (List.map fst acc) ->
    Forall (fun e : string * bool => snd e = true) acc ->
    let reduced :=
      foldl (fun reduced key =>
               if Js.truthy key
               then setKey ("babel-preset-" +:+ key) true reduced
               else reduced) acc pieces in
    NoDup (List.map fst reduced) /\
    Forall (fun e => snd e = true) reduced /\
    forall key,
      key ∈ List.map fst reduced <->
      key ∈ List.map fst acc \/
      exists piece, piece ∈ pieces /\ piece <> EmptyString /\
                    key = "babel-preset-" +:+ piece.
Proof.
  induction pieces as [|piece rest IH]; intros acc Hnd Hall; cbv zeta.
  - cbn. split; [exact Hnd|]. split; [exact Hall|]. intros key. split; [auto|].
    intros [H|(piece & H & _)]; [exact H | now apply not_elem_of_nil in H].
  - cbn [foldl]. destruct (Js.truthy piece) eqn:Ht.
    + destruct (IH (setKey ("babel-preset-" +:+ piece) true acc))
        as (H1 & H2 & H3);
        [now apply NoDup_setKey | now apply values_setKey |].
      split; [exact H1|]. split; [exact H2|]. intros key.
      rewrite H3, keys_setKey. split.
      * intros [[->|H]|(q & Hq & Hne & ->)]; [right|left|right]; auto.
        -- exists piece. split; [now left|]. split; [|reflexivity].
           now apply JsFacts.truthy_nonempty.
        -- exists q. split; [now right | auto].
      * intros [H|(q & Hq & Hne & ->)]; [auto|].
        apply elem_of_cons in Hq as [->|Hq]; [auto|].
        right. exists q. auto.
    + destruct (IH acc Hnd Hall) as (H1 & H2 & H3).
      split; [exact H1|]. split; [exact H2|]. intros key. rewrite H3. split.
      * intros [H|(q & Hq & Hne & ->)]; [auto|].
        right. exists q. split; [now right | auto].
      * intros [H|(q & Hq & Hne & ->)]; [auto|].
        apply elem_of_cons in Hq as [->|Hq].
        -- apply JsFacts.truthy_nonempty in Hne. congruence.
        -- right. exists q. auto.
Qed.

(** X13. The object the constructor builds from the persisted presets
    has one key ["babel-preset-" + piece] for every non-empty piece of the
    comma-separated string (or of the default list when nothing was
    persisted), each once and each set to [true]; empty pieces are
    skipped. *)
Theorem defaultPresets_keys persisted :
  NoDup (List.map fst (defaultPresets persisted)) /\
  Forall (fun e => snd e = true) (defaultPresets persisted) /\
  forall key,
    key ∈ List.map fst (defaultPresets persisted) <->
    exists piece, piece ∈ persistedPresets persisted /\
                  piece <> EmptyString /\
                  key = "babel-preset-" +:+ piece.
Proof.
  destruct (reduce_presets (persistedPresets persisted) [])
    as (H1 & H2 & H3); [constructor | constructor |].
  split; [exact H1|]. split; [exact H2|]. intros key.
  unfold defaultPresets. rewrite H3. split; [|auto].
  intros [H|H]; [now apply not_elem_of_nil in H | exact H].
Qed.

Lemma persistedLabels_commas s babili :
  Forall (fun e => Js.contains "," (label (config (snd e))) = false)
    (presets s) ->
  Forall (fun l => Js.contains "," l = false) (persistedLabels s babili).
Proof.
  intros Hall. unfold persistedLabels, _presetsToArray.
  apply Forall_app. split; [|apply Forall_app; split].
  - apply Forall_forall. intros l Hl.
    apply list_elem_of_In, List.in_map_iff in Hl as (e & <- & He).
    apply List.filter_In in He as [He _].
    rewrite Forall_forall in Hall. apply Hall. now apply list_elem_of_In.
  - destruct (isEnabled babili); repeat constructor.
  - destruct (Compile.isEnvPresetEnabled (envConfig s)); repeat constructor.
Qed.

Section WithCollaborators.

Variable envConfigToTargetsString : Compile.EnvConfig -> string.
Variable scopedEval_execute : string -> option string -> option Js.Error.

Abbreviation _persistState := (Repl._persistState envConfigToTargetsString).
Abbreviation _compile := (Repl._compile envConfigToTargetsString).
Abbreviation step := (Repl.step envConfigToTargetsString scopedEval_execute).
Abbreviation run := (Repl.run envConfigToTargetsString scopedEval_execute).

Lemma balance_step now ev c :
  loadBalance (step c (now, ev)) =
  loadBalance c - (if isPluginLoadDone (now, ev) then 1 else 0).
Proof.
  destruct ev;
    try (rewrite Z.sub_0_r;
         apply (handle_un loadBalance); try exact I;
         [ reflexivity | reflexivity
         | intros r s n t o Hr _; unfold loadBalance, loadRequests;
           cbn [outbox _numLoadingPlugins]; now rewrite filter_snoc_false
         | intros k s n t o; unfold loadBalance, loadRequests;
           cbn [outbox _numLoadingPlugins];
           rewrite filter_snoc_true by reflexivity;
           rewrite length_app; cbn [length]; lia ]).
  - (* a plugin load completes *)
    cbn [isPluginLoadDone snd]. unfold Repl.step, Repl.handle,
      onPluginLoadDone. cbn [fst snd]. exec.
    destruct success; cbn [negb]; exec;
      cbn [_numLoadingPlugins state];
      destruct (_numLoadingPlugins c + -1 =? 0); unfold _updateCode,
        _compileToState_call; exec;
        cbn [snd setTimer setState mret M_ret]; unfold loadBalance,
        loadRequests; cbn [outbox _numLoadingPlugins]; lia.
  - (* the polyfill load completes *)
    cbn [isPluginLoadDone snd]. rewrite Z.sub_0_r.
    unfold Repl.step, Repl.handle, onPolyfillLoadDone. cbn [fst snd]. exec.
    cbn [state compiled set_runtimePolyfillState].
    destruct (compiled (state c)) as [js|]; [|reflexivity].
    destruct (negb (Js.truthy js)); [reflexivity|]. exec.
    cbn [snd setState send]. unfold loadBalance, loadRequests.
    cbn [outbox _numLoadingPlugins]. now rewrite filter_snoc_false.
Qed.

(** X7. Along any run of events, [_numLoadingPlugins] less the number
    of plugin loads asked of the worker goes down by exactly one for each
    plugin load that completes, and changes by nothing else. *)
Theorem loading_counter trace :
  forall c,
    _numLoadingPlugins (run trace c)
    - Z.of_nat (length (loadRequests (run trace c)))
    = _numLoadingPlugins c - Z.of_nat (length (loadRequests c))
      - Z.of_nat (length (List.filter isPluginLoadDone trace)).
Proof.
  induction trace as [|[now ev] rest IH]; intros c.
  - cbn. lia.
  - cbn [Repl.run foldl]. change (foldl step ?x rest) with (run rest x).
    rewrite IH. fold (loadBalance (step c (now, ev))). rewrite balance_step.
    unfold loadBalance. cbn [List.filter].
    destruct (isPluginLoadDone (now, ev)); cbn [length]; lia.
Qed.



(** X17. When the polyfill load calls back, the compiled code, if there
    is any, is evaluated once with the current source map and
    [evalErrorMessage] becomes the message of what it threw, or null;
    without compiled code nothing is evaluated and [evalErrorMessage]
    stays. The other six result fields stay and no compile request is
    dispatched. *)
Theorem polyfill_load_done now success c :
  let s := state c in
  let c' := step c (now, PolyfillLoadDone success) in
  compiled (state c') = compiled s /\ ast (state c') = ast s /\
  transformTime (state c') = transformTime s /\
  compileErrorMessage (state c') = compileErrorMessage s /\
  envPresetDebugInfo (state c') = envPresetDebugInfo s /\
  sourceMap (state c') = sourceMap s /\
  compileRequests c' = compileRequests c /\
  match compiled s with
  | Some (String ch rest) =>
      outbox c' = outbox c ++ [Evaluate (String ch rest) (sourceMap s)] /\
      evalErrorMessage (state c') =
        Js.message <$> scopedEval_execute (String ch rest) (sourceMap s)
  | _ =>
      outbox c' = outbox c /\ evalErrorMessage (state c') = evalErrorMessage s
  end.
Proof.
  cbv zeta. unfold Repl.step, Repl.handle, onPolyfillLoadDone.
  cbn [fst snd]. exec. cbn [state compiled set_runtimePolyfillState].
  destruct (compiled (state c)) as [[|ch rest]|] eqn:Hc;
    cbn [Js.truthy Js.isEmpty negb]; exec;
    cbn [snd state outbox setState send mret M_ret];
    unfold compileRequests; cbn [outbox];
    rewrite ?filter_snoc_false by reflexivity;
    cbn; rewrite ?Hc; repeat split.
Qed.

(** X8. In a state without the babili plugin, [_compile] with non-empty
    code and [_persistState] throw a [TypeError] and leave the instance as
    it was; the timer of the debounce, once due, is used up by such a
    call without any request going out. *)
Theorem missing_babili source cb c :
  getKey "babili-standalone" (plugins (state c)) = None ->
  source <> EmptyString ->
  _compile source cb c = (Threw (TypeError "isEnabled"), c) /\
  _persistState c = (Threw (TypeError "isEnabled"), c) /\
  (forall now last,
     _compileToState c = Some (source, last) ->
     last + DEBOUNCE_DELAY <= now ->
     step c (now, Timer) =
     mkComponent (state c) (_numLoadingPlugins c) None (outbox c)).
Proof.
  intros Hget Hsrc.
  assert (Hc : forall c0, getKey "babili-standalone" (plugins (state c0)) = None ->
                          _compile source cb c0 = (Threw (TypeError "isEnabled"), c0)).
  { intros c0 H0. unfold Repl._compile. exec.
    destruct source as [|ch rest]; [congruence|].
    cbn [Js.truthy Js.isEmpty negb]. now rewrite H0. }
  split; [now apply Hc|]. split.
  - unfold Repl._persistState. exec. now rewrite Hget.
  - intros now last Hp Ht. unfold Repl.step, Repl.handle, Repl.timerExpired.
    cbn [fst snd]. rewrite Hp.
    replace (DEBOUNCE_DELAY <=? now - last) with true by (symmetry; lia).
    cbn [orb]. exec.
    unfold Repl._compile. exec.
    destruct source as [|ch rest]; [congruence|].
    cbn [Js.truthy Js.isEmpty negb state]. now rewrite Hget.
Qed.

Lemma compile_persist_effect source c :
  let c' := snd (_compile source PersistState c) in
  _compileToState c' = _compileToState c /\
  _numLoadingPlugins c' = _numLoadingPlugins c /\
  (compileRequests c' = compileRequests c \/
   exists cfg,
     compileRequests c' =
     compileRequests c ++ [WorkerCompile source cfg PersistState]).
Proof.
  cbv zeta. unfold Repl._compile, Repl.runCallback, Repl._persistState. exec.
  destruct source as [|ch rest]; cbn [Js.truthy Js.isEmpty negb]; exec;
    cbn [state];
    match goal with
    | |- context [getKey ?k ?m] => destruct (getKey k m) as [babili|]
    end;
    cbn [snd send throw setState _compileToState _numLoadingPlugins];
    unfold compileRequests; cbn [outbox];
    rewrite ?filter_snoc_false by reflexivity;
    rewrite ?filter_snoc_true by reflexivity; eauto.
Qed.

(** X9. When the timer finds the delay elapsed, the pending call is
    consumed: at most one compile request goes out, for the pending code,
    no call is pending afterwards, and the timer expiring again changes
    nothing. *)
Theorem timer_fires_once now1 now2 source last c :
  _compileToState c = Some (source, last) ->
  DEBOUNCE_DELAY <= now1 - last \/ now1 - last < 0 ->
  let c1 := step c (now1, Timer) in
  _compileToState c1 = None /\
  step c1 (now2, Timer) = c1 /\
  (compileRequests c1 = compileRequests c \/
   exists cfg,
     compileRequests c1 =
     compileRequests c ++ [WorkerCompile source cfg PersistState]).
Proof.
  intros Hp Hdue. cbv zeta.
  assert (Hstep : step c (now1, Timer) =
                  snd (_compile source PersistState
                         (mkComponent (state c) (_numLoadingPlugins c) None
                            (outbox c)))).
  { unfold Repl.step, Repl.handle, Repl.timerExpired. cbn [fst snd].
    rewrite Hp.
    replace ((DEBOUNCE_DELAY <=? now1 - last) || (now1 - last <? 0))
      with true by (symmetry; apply orb_true_iff; lia).
    now exec. }
  rewrite Hstep.
  destruct (compile_persist_effect source
              (mkComponent (state c) (_numLoadingPlugins c) None (outbox c)))
    as (Ht & _ & Hreq).
  cbn [_compileToState] in Ht. split; [exact Ht|]. split; [|exact Hreq].
  unfold Repl.step at 1, Repl.handle, Repl.timerExpired. cbn [fst snd].
  now rewrite Ht.
Qed.

Lemma set_flag_keeps name v s s' :
  set_flag name v s = Some s' ->
  code s' = code s /\ results s' = results s /\
  plugins s' = plugins s /\ presets s' = presets s.
Proof.
  unfold set_flag.
  repeat match goal with
         | |- context [String.eqb ?a ?b] => destruct (String.eqb a b)
         end; intros [= <-]; repeat split.
Qed.

Lemma default_set_flag_keeps name v s :
  code (default s (set_flag name v s)) = code s /\
  results (default s (set_flag name v s)) = results s /\
  plugins (default s (set_flag name v s)) = plugins s /\
  presets (default s (set_flag name v s)) = presets s.
Proof.
  destruct (set_flag name v s) as [s'|] eqn:E; [|repeat split].
  now apply set_flag_keeps in E.
Qed.

(** The callback after a setting change: the check runs to its end and
    the current code goes to the timer. *)
Lemma presetsUpdated_run now c :
  exists c1,
    _checkForUnloadedPlugins c = (Ok (), c1) /\
    checkFrame c c1 /\ keepsResults c c1 /\
    _presetsUpdatedSetStateCallback now c =
    (Ok (),
     mkComponent (set_code (code (state c)) (state c1))
       (_numLoadingPlugins c1) (Some (code (state c), now)) (outbox c1)).
Proof.
  destruct (check_total c) as (c1 & Hrun & Hframe & Hkeeps).
  exists c1. repeat split; try assumption; try apply Hframe; try apply Hkeeps.
  unfold _presetsUpdatedSetStateCallback. exec. rewrite Hrun. exec.
  unfold _updateCode, _compileToState_call. exec.
  destruct Hframe as [(_ & _ & Hcode & _) _]. now rewrite Hcode.
Qed.

Lemma updated_then_debounced u now c :
  code (u (state c)) = code (state c) ->
  results (u (state c)) = results (state c) ->
  let c' := snd ((setState u ≫= fun _ => _presetsUpdatedSetStateCallback now) c) in
  _compileToState c' = Some (code (state c), now) /\
  code (state c') = code (state c) /\
  keepsResults c c'.
Proof.
  intros Hcode Hres. cbv zeta. exec.
  match goal with
  | |- context [_presetsUpdatedSetStateCallback now ?c0] =>
      destruct (presetsUpdated_run now c0)
        as (c1 & _ & _ & [Hr1 Hq1] & ->)
  end.
  cbn [snd state _compileToState code set_code] in *.
  rewrite Hcode. repeat split.
  - cbn. unfold results in *. cbn in *. congruence.
  - exact Hq1.
Qed.

(** The loop asks for plugins and for nothing else. *)
Lemma forEachPlugin_sends keys :
  forall c,
    exists loads,
      outbox (snd (forEachPlugin keys c)) = outbox c ++ loads /\
      Forall (fun r => isWorkerLoadPlugin r = true) loads.
Proof.
  induction keys as [|key rest IH]; intros c.
  - exists []. split; [now rewrite app_nil_r | constructor].
  - cbn [forEachPlugin]. exec.
    destruct (getKey key (plugins (state c))) as [plugin|];
      [|exists []; split; [now rewrite app_nil_r | constructor]].
    destruct (needsLoad plugin); exec.
    + match goal with
      | |- context [forEachPlugin rest ?c1] =>
          destruct (IH c1) as (loads & -> & Hall)
      end.
      exists (WorkerLoadPlugin key :: loads). cbn [outbox].
      split; [now rewrite <- app_assoc | now constructor].
    + apply IH.
Qed.

(** The requests of the check: plugin loads, then the polyfill, then
    the env preset, the last two under the guards of lines 287 and
    321. *)
Lemma check_sends c :
  exists c1 loads,
    _checkForUnloadedPlugins c = (Ok (), c1) /\
    checkFrame c c1 /\
    Forall (fun r => isWorkerLoadPlugin r = true) loads /\
    outbox c1 =
      outbox c ++ loads
      ++ (if isEnabled (runtimePolyfillState (state c))
             && negb (isLoaded (runtimePolyfillState (state c)))
          then [LoadRuntimePolyfill] else [])
      ++ (if Compile.isEnvPresetEnabled (envConfig (state c))
             && negb (isLoaded (envPresetState (state c)))
          then [WorkerLoadEnvPreset] else []).
Proof.
  destruct (check_total c) as (c1 & Hrun & Hframe & _).
  destruct (forEachPlugin_total (List.map fst (plugins (state c))) c)
    as (c0 & Hloop & _); [auto|].
  destruct (forEachPlugin_sends (List.map fst (plugins (state c))) c)
    as (loads & Hout & Hall).
  rewrite Hloop in Hout. cbn [snd] in Hout.
  exists c1, loads. split; [exact Hrun|]. split; [exact Hframe|].
  split; [exact Hall|].
  revert Hrun. unfold _checkForUnloadedPlugins. exec. rewrite Hloop. exec.
  destruct (isEnabled (runtimePolyfillState (state c))
            && negb (isLoaded (runtimePolyfillState (state c))));
    destruct (Compile.isEnvPresetEnabled (envConfig (state c))
              && negb (isLoaded (envPresetState (state c))));
    exec; intros [= <-]; cbn [outbox]; rewrite Hout;
    rewrite <- ?app_assoc, ?app_nil_r; reflexivity.
Qed.

Lemma not_in_loads r loads :
  Forall (fun r => isWorkerLoadPlugin r = true) loads ->
  isWorkerLoadPlugin r = false -> r ∉ loads.
Proof.
  intros Hall Hr Hin. rewrite Forall_forall in Hall.
  specialize (Hall r Hin). congruence.
Qed.

Lemma elem_of_guarded (r : Request) (b : bool) :
  r ∈ (if b then [r] else []) <-> b = true.
Proof.
  destruct b; split; try discriminate; try reflexivity.
  - intros _. now left.
  - intros Hin. now apply not_elem_of_nil in Hin.
Qed.

Lemma elem_of_other (r r' : Request) (b : bool) :
  r <> r' -> r ∈ (if b then [r'] else []) -> False.
Proof.
  intros Hne Hin. destruct b.
  - apply list_elem_of_singleton in Hin. contradiction.
  - now apply not_elem_of_nil in Hin.
Qed.

Ltac notin :=
  repeat first
    [ apply not_elem_of_nil
    | apply not_elem_of_app; split
    | apply not_in_loads; [assumption | reflexivity]
    | match goal with
      | |- _ ∉ (if ?b then _ else _) => destruct b
      end
    | let Hin := fresh "Hin" in
      intros Hin; apply list_elem_of_singleton in Hin; discriminate ].

(** The callback after a setting change, with the requests of its
    check. *)
Lemma presetsUpdated_sends now c :
  exists c1 loads,
    checkFrame c c1 /\
    Forall (fun r => isWorkerLoadPlugin r = true) loads /\
    snd (_presetsUpdatedSetStateCallback now c) =
      mkComponent (set_code (code (state c)) (state c1))
        (_numLoadingPlugins c1) (Some (code (state c), now))
        (outbox c ++ loads
         ++ (if isEnabled (runtimePolyfillState (state c))
                && negb (isLoaded (runtimePolyfillState (state c)))
             then [LoadRuntimePolyfill] else [])
         ++ (if Compile.isEnvPresetEnabled (envConfig (state c))
                && negb (isLoaded (envPresetState (state c)))
             then [WorkerLoadEnvPreset] else [])).
Proof.
  destruct (check_sends c) as (c1 & loads & Hrun & Hframe & Hall & Hout).
  destruct (presetsUpdated_run now c) as (c1' & Hrun' & _ & _ & ->).
  rewrite Hrun in Hrun'. injection Hrun' as <-.
  exists c1, loads. split; [exact Hframe|]. split; [exact Hall|].
  cbn [snd]. now rewrite Hout.
Qed.

Lemma envPreset_off ec :
  Compile.isEnvPresetEnabled
    (updateEnvConfig (IsEnvPresetEnabled false) ec) = false.
Proof. now destruct ec. Qed.

(** Switching the loaded env preset off and on asks for nothing but
    plugins and the polyfill. *)
Lemma envPreset_toggle t1 t2 c :
  isLoaded (envPresetState (state c)) = true ->
  exists new,
    outbox (run [(t1, EnvPresetSettingChange (IsEnvPresetEnabled false));
                 (t2, EnvPresetSettingChange (IsEnvPresetEnabled true))] c)
    = outbox c ++ new /\
    WorkerLoadEnvPreset ∉ new.
Proof.
  intros Hl. cbn [Repl.run foldl]. unfold Repl.step, Repl.handle.
  cbn [fst snd]. unfold _onEnvPresetSettingChange. exec.
  match goal with
  | |- context [_presetsUpdatedSetStateCallback t1 ?c0] =>
      destruct (presetsUpdated_sends t1 c0)
        as (c1 & loads1 & [Hf1 _] & Hall1 & ->)
  end.
  cbn [state outbox envConfig envPresetState runtimePolyfillState
       set_envConfig set_code] in *.
  rewrite envPreset_off. cbn [andb]. exec.
  match goal with
  | |- context [_presetsUpdatedSetStateCallback t2 ?c0] =>
      destruct (presetsUpdated_sends t2 c0)
        as (c2 & loads2 & _ & Hall2 & ->)
  end.
  cbn [state outbox envConfig envPresetState runtimePolyfillState
       set_envConfig set_code] in *.
  destruct Hf1 as (_ & _ & _ & _ & _ & _ & _ & _ & _ & _ & _ & _ &
                   (_ & _ & _ & Hloaded) & _ & _).
  cbn [envPresetState set_envConfig] in Hloaded.
  rewrite Hloaded, Hl, andb_false_r.
  eexists. split; [rewrite <- !app_assoc; reflexivity|].
  notin.
Qed.

(** Switching evaluation off and on with the polyfill loaded asks for
    nothing but plugins and the env preset. *)
Lemma polyfill_toggle t1 t2 c :
  isLoaded (runtimePolyfillState (state c)) = true ->
  exists new,
    outbox (run [(t1, SettingChange "babel-polyfill" false);
                 (t2, SettingChange "babel-polyfill" true)] c)
    = outbox c ++ new /\
    LoadRuntimePolyfill ∉ new.
Proof.
  intros Hl. cbn [Repl.run foldl]. unfold Repl.step, Repl.handle.
  cbn [fst snd]. unfold _onSettingChange. exec.
  change (String.eqb "babel-polyfill" "babel-polyfill") with true.
  cbv iota.
  match goal with
  | |- context [_presetsUpdatedSetStateCallback t1 ?c0] =>
      destruct (presetsUpdated_sends t1 c0)
        as (c1 & loads1 & [Hf1 _] & Hall1 & ->)
  end.
  cbn [state outbox envConfig envPresetState runtimePolyfillState
       set_runtimePolyfillState set_code isEnabled with_isEnabled] in *.
  cbn [andb]. exec.
  match goal with
  | |- context [_presetsUpdatedSetStateCallback t2 ?c0] =>
      destruct (presetsUpdated_sends t2 c0)
        as (c2 & loads2 & _ & Hall2 & ->)
  end.
  cbn [state outbox envConfig envPresetState runtimePolyfillState
       set_runtimePolyfillState set_code isEnabled isLoaded with_isEnabled]
    in *.
  destruct Hf1 as (_ & _ & _ & _ & _ & _ & _ & _ & _ & _ & _ & _ &
                   _ & (_ & _ & _ & Hloaded) & _).
  cbn [runtimePolyfillState set_runtimePolyfillState isLoaded with_isEnabled]
    in Hloaded.
  rewrite Hloaded, Hl. cbn [negb andb].
  eexists. split; [rewrite <- !app_assoc; reflexivity|].
  notin.
Qed.

(** Claim C8, amended. A key of [plugins] whose state is loaded or
    loading is never asked for: not by [_checkForUnloadedPlugins], and
    not by switching the plugin off and on again through the settings.
    The env preset and the runtime polyfill are asked for by the check
    exactly when they are switched on and not loaded, whether or not a
    load is in flight; once loaded, switching them off and on again
    asks for neither. *)
Theorem check_skips_settled c :
  (forall key plugin,
     getKey key (plugins (state c)) = Some plugin ->
     isLoaded plugin = true \/ isLoading plugin = true ->
     (exists new,
        outbox (snd (_checkForUnloadedPlugins c)) = outbox c ++ new /\
        WorkerLoadPlugin key ∉ new) /\
     (typedSetting key = true ->
      forall t1 t2,
        exists new,
          outbox (run [(t1, SettingChange key false);
                       (t2, SettingChange key true)] c) = outbox c ++ new /\
          WorkerLoadPlugin key ∉ new)) /\
  (exists new,
     outbox (snd (_checkForUnloadedPlugins c)) = outbox c ++ new /\
     (WorkerLoadEnvPreset ∈ new <->
      Compile.isEnvPresetEnabled (envConfig (state c)) = true /\
      isLoaded (envPresetState (state c)) = false) /\
     (LoadRuntimePolyfill ∈ new <->
      isEnabled (runtimePolyfillState (state c)) = true /\
      isLoaded (runtimePolyfillState (state c)) = false)) /\
  (isLoaded (envPresetState (state c)) = true ->
   forall t1 t2,
     exists new,
       outbox (run [(t1, EnvPresetSettingChange (IsEnvPresetEnabled false));
                    (t2, EnvPresetSettingChange (IsEnvPresetEnabled true))] c)
       = outbox c ++ new /\
       WorkerLoadEnvPreset ∉ new) /\
  (isLoaded (runtimePolyfillState (state c)) = true ->
   forall t1 t2,
     exists new,
       outbox (run [(t1, SettingChange "babel-polyfill" false);
                    (t2, SettingChange "babel-polyfill" true)] c)
       = outbox c ++ new /\
       LoadRuntimePolyfill ∉ new).
Proof.
  split; [|split; [|split]].
  - intros key plugin Hget Hp.
    assert (Hs : settled key c) by (exists plugin; auto).
    split.
    + now destruct (ReplFacts.checkForUnloadedPlugins_noLoad key c Hs) as [_ H].
    + intros _ t1 t2. cbn [Repl.run foldl Repl.step Repl.handle fst snd].
      refine (proj2 (ReplFacts.noLoadOf_trans key _ _ _ _ _ Hs));
        apply ReplFacts.onSettingChange_noLoad.
  - destruct (check_sends c) as (c1 & loads & -> & _ & Hall & Hout).
    cbn [snd]. eexists. split; [exact Hout|].
    pose proof (not_in_loads WorkerLoadEnvPreset loads Hall eq_refl) as He.
    pose proof (not_in_loads LoadRuntimePolyfill loads Hall eq_refl) as Hp.
    rewrite !elem_of_app, !elem_of_guarded, !andb_true_iff, !negb_true_iff.
    split; (split; [intros [Hin|[Hin|Hin]] | auto]);
      try contradiction; try assumption;
      now apply elem_of_other in Hin.
  - intros Hl t1 t2. now apply envPreset_toggle.
  - intros Hl t1 t2. now apply polyfill_toggle.
Qed.

Lemma set_flag_known name v s :
  name ∈ flagNames -> is_Some (set_flag name v s).
Proof.
  intros Hin. unfold flagNames in Hin. unfold set_flag.
  repeat (apply elem_of_cons in Hin as [->|Hin]; [cbn; eauto|]).
  now apply not_elem_of_nil in Hin.
Qed.

Lemma onSettingChange_debounced now name v c :
  typedSetting name = true ->
  let c' := snd (_onSettingChange now name v c) in
  _compileToState c' = Some (code (state c), now) /\
  code (state c') = code (state c) /\
  keepsResults c c'.
Proof.
  intros _. unfold _onSettingChange.
  apply updated_then_debounced;
    (destruct (String.eqb name "babel-polyfill"); [reflexivity|];
     destruct (bool_decide (name ∈ stateKeys));
       [apply default_set_flag_keeps|];
     destruct (hasKey name (plugins (state c))); [reflexivity|];
     destruct (hasKey name (presets (state c))); reflexivity).
Qed.

Lemma onEnvPresetSettingChange_debounced now setting c :
  let c' := snd (_onEnvPresetSettingChange now setting c) in
  _compileToState c' = Some (code (state c), now) /\
  code (state c') = code (state c) /\
  keepsResults c c'.
Proof.
  unfold _onEnvPresetSettingChange.
  apply updated_then_debounced; reflexivity.
Qed.

Lemma onTabExpandedChange_debounced now name isExpanded c :
  name ∈ flagNames ->
  let c' := snd (_onTabExpandedChange now name isExpanded c) in
  _compileToState c' = Some (code (state c), now) /\
  code (state c') = code (state c) /\
  keepsResults c c'.
Proof.
  intros Hflag. unfold _onTabExpandedChange.
  destruct (set_flag_known name isExpanded (state c) Hflag) as [s' Hs'].
  apply updated_then_debounced; rewrite Hs'; cbn [default from_option id];
    now apply set_flag_keeps in Hs'.
Qed.

(** X10. A change of a setting (under the polyfill's name, the name of
    a boolean field of the state, or a name that is no own key of the
    state object), of an env preset setting or of a tab (under the name
    of a boolean field) dispatches no compile request and changes
    neither the code nor a result field; it leaves the current code
    pending in the debounce timer, stamped with the time of the
    change. *)
Theorem setting_changes_debounced now ev c :
  typedEvent ev = true ->
  let c' := step c (now, ev) in
  match ev with
  | SettingChange _ _ | EnvPresetSettingChange _ | TabExpandedChange _ _ =>
      _compileToState c' = Some (code (state c), now) /\
      code (state c') = code (state c) /\
      keepsResults c c'
  | _ => True
  end.
Proof.
  intros Htyped. cbv zeta. destruct ev; try exact I;
    unfold Repl.step, Repl.handle; cbn [fst snd typedEvent] in *.
  - now apply onSettingChange_debounced.
  - apply onEnvPresetSettingChange_debounced.
  - apply onTabExpandedChange_debounced.
    now apply bool_decide_eq_true_1 in Htyped.
Qed.




Lemma compile_results source cb c :
  let c' := snd (_compile source cb c) in
  results (state c') = results (state c) \/
  results (state c') = (None, None, None, None, None, None, None).
Proof.
  cbv zeta. unfold Repl._compile. exec.
  destruct source as [|ch rest]; cbn [Js.truthy Js.isEmpty negb].
  - right. exec.
    match goal with
    | |- context [Repl.runCallback _ cb ?c1] =>
        destruct (ReplFacts.runCallback_keeps envConfigToTargetsString cb c1)
          as [Hres _]
    end.
    rewrite Hres. reflexivity.
  - left. destruct (getKey "babili-standalone" (plugins (state c)));
      reflexivity.
Qed.

(** X15. The result fields change only through a compile response, the
    polyfill's callback, or the clearing for empty code: an edit, a
    change of setting or of tab (under the names they are modelled
    for), a completed plugin or env preset load and a registration
    leave them as they are and dispatch no compile request, and the
    timer or the loading of Babel either leave them or set all seven to
    null. *)
Theorem results_change_only now ev c :
  typedEvent ev = true ->
  let c' := step c (now, ev) in
  match ev with
  | CompileDone _ _ | PolyfillLoadDone _ => True
  | Timer | BabelLoaded _ =>
      results (state c') = results (state c) \/
      results (state c') = (None, None, None, None, None, None, None)
  | _ => keepsResults c c'
  end.
Proof.
  intros Htyped. cbv zeta.
  destruct ev; try exact I;
    unfold Repl.step, Repl.handle; cbn [fst snd typedEvent] in *.
  - (* Babel has loaded *)
    unfold onBabelLoaded. exec.
    destruct (b_isLoaded babelState); [|now left]. exec.
    match goal with
    | |- context [Repl._compile _ ?src ?cb ?c0] =>
        exact (compile_results src cb c0)
    end.
  - (* an edit *)
    unfold _updateCode, _compileToState_call. exec. split; reflexivity.
  - (* a setting *)
    now apply onSettingChange_debounced.
  - (* an env preset setting *)
    apply onEnvPresetSettingChange_debounced.
  - (* the sidebar *)
    unfold _onIsSidebarExpandedChange.
    apply (ReplFacts.bind_rel keepsResults ReplFacts.keepsResults_trans).
    + split; [|reflexivity]. apply default_set_flag_keeps.
    + intros ? ? _. apply ReplFacts.persistState_keeps.
  - (* a tab *)
    apply onTabExpandedChange_debounced.
    now apply bool_decide_eq_true_1 in Htyped.
  - (* the timer *)
    unfold Repl.timerExpired.
    destruct (_compileToState c) as [[source last]|]; [|now left].
    destruct (_ || _); [|now left]. exec.
    apply (compile_results source PersistState
             (mkComponent (state c) (_numLoadingPlugins c) None (outbox c))).
  - (* a plugin load completes *)
    unfold onPluginLoadDone. exec.
    destruct success; cbn [negb]; exec; cbn [_numLoadingPlugins state];
      destruct (_numLoadingPlugins c + -1 =? 0); unfold _updateCode,
        _compileToState_call; exec; split; reflexivity.
  - (* the env preset load completes *)
    exec. split; [reflexivity|]. unfold compileRequests. cbn [snd send outbox].
    now rewrite filter_snoc_false.
  - (* the env preset is registered *)
    exec. unfold _updateCode, _compileToState_call. exec. split; reflexivity.
Qed.

(** X19. Switching evaluation through the settings, for distinct plugin
    keys: the polyfill is asked for exactly when it is switched on and
    not loaded, and the request that goes out when the timer is due asks
    for a source map exactly when evaluation is on, and sets [evaluate]
    only when the polyfill is loaded as well. *)
Theorem toggled_evaluation now later v c babili :
  NoDup (List.map fst (plugins (state c))) ->
  code (state c) <> EmptyString ->
  getKey "babili-standalone" (plugins (state c)) = Some babili ->
  now + DEBOUNCE_DELAY <= later ->
  let polyfill := runtimePolyfillState (state c) in
  let c1 := step c (now, SettingChange "babel-polyfill" v) in
  let c2 := step c1 (later, Timer) in
  (exists new,
     outbox c1 = outbox c ++ new /\
     (LoadRuntimePolyfill ∈ new <-> v = true /\ isLoaded polyfill = false)) /\
  (exists cfg,
     compileRequests c2 =
       compileRequests c ++ [WorkerCompile (code (state c)) cfg PersistState] /\
     Compile.sourceMap cfg = v /\
     Compile.evaluate cfg = v && isLoaded polyfill).
Proof.
  intros Hnd Hcode Hbab Hlate. cbv zeta.
  unfold Repl.step at 1 3, Repl.handle, _onSettingChange.
  cbn [fst snd]. exec. cbn [String.eqb Ascii.eqb Bool.eqb].
  match goal with
  | |- context [_presetsUpdatedSetStateCallback now ?c0] =>
      destruct (presetsUpdated_run now c0)
        as (c1 & Hcheck & [Hframe _] & [_ Hreq] & ->);
      destruct (check_requests c0) as (c1' & Hcheck' & Hout & _);
        [exact Hnd|]; set (start := c0) in *
  end.
  rewrite Hcheck in Hcheck'. injection Hcheck' as <-.
  cbn [snd]. cbv zeta in Hout.
  destruct Hframe as (_ & _ & _ & _ & _ & _ & _ & _ & _ & _ & _ & _
                      & _ & (_ & _ & Hen & Hld) & Hplugins).
  cbn [state start plugins runtimePolyfillState set_runtimePolyfillState
       isEnabled isLoaded with_isEnabled envConfig envPresetState outbox]
    in Hen, Hld, Hplugins, Hout.
  split.
  - eexists. cbn [outbox]. split; [exact Hout|].
    rewrite !elem_of_app. split.
    + intros [Hin|[Hin|Hin]].
      * apply list_elem_of_In, List.in_map_iff in Hin as (e & He & _).
        discriminate.
      * destruct v; [|now apply not_elem_of_nil in Hin].
        destruct (isLoaded (runtimePolyfillState (state c)));
          [now apply not_elem_of_nil in Hin | auto].
      * destruct (_ && _) in Hin;
          [apply list_elem_of_singleton in Hin; discriminate
          | now apply not_elem_of_nil in Hin].
    + intros [-> ->]. right. left. now left.
  - destruct (sameEntries_getKey "babili-standalone" _ _ babili Hplugins Hbab)
      as (babili' & Hbab' & _).
    unfold Repl.step, Repl.handle, Repl.timerExpired.
    cbn [fst snd _compileToState].
    replace (DEBOUNCE_DELAY <=? later - now) with true by (symmetry; lia).
    cbn [orb]. exec.
    erewrite ReplFacts.compile_dispatch; [|exact Hcode|exact Hbab'].
    cbn [snd]. eexists. split; [|split].
    + unfold compileRequests in *. cbn [outbox] in *.
      rewrite filter_snoc_true by reflexivity. now rewrite Hreq.
    + cbn. exact Hen.
    + cbn. now rewrite Hen, Hld.
Qed.

(** X18. Expanding or collapsing the sidebar sets the flag and persists
    at once, with the new value and the current code, without touching
    the timer or the results; without the babili plugin the flag is set
    and nothing is persisted. *)
Theorem sidebar_persists_at_once now isExpanded c :
  let c' := step c (now, SidebarExpandedChange isExpanded) in
  isSidebarExpanded (state c') = isExpanded /\
  _compileToState c' = _compileToState c /\
  keepsResults c c' /\
  match getKey "babili-standalone" (plugins (state c)) with
  | Some _ =>
      exists payload,
        outbox c' = outbox c ++ [Persist payload] /\
        p_showSidebar payload = isExpanded /\
        p_code payload = code (state c)
  | None => outbox c' = outbox c
  end.
Proof.
  cbv zeta. unfold Repl.step, Repl.handle, _onIsSidebarExpandedChange,
    Repl._persistState. cbn [fst snd]. exec.
  change (set_flag "isSidebarExpanded" isExpanded (state c))
    with (Some (mkState (babel (state c)) (builtIns (state c))
                  (code (state c)) (compiled (state c)) (ast (state c))
                  (transformTime (state c)) (compileErrorMessage (state c))
                  (debugEnvPreset (state c)) (envConfig (state c))
                  (envPresetDebugInfo (state c)) (envPresetState (state c))
                  (evalErrorMessage (state c))
                  (isEnvPresetTabExpanded (state c))
                  (isPresetsTabExpanded (state c))
                  (isSettingsTabExpanded (state c)) isExpanded
                  (lineWrap (state c)) (plugins (state c))
                  (presets (state c)) (runtimePolyfillState (state c))
                  (sourceMap (state c)))).
  cbn [default from_option id state plugins].
  destruct (getKey "babili-standalone" (plugins (state c))) as [babili|];
    cbn [snd send throw state outbox _compileToState isSidebarExpanded];
    unfold keepsResults, compileRequests; cbn [outbox state];
    rewrite ?filter_snoc_false by reflexivity;
    repeat split; eexists; repeat split.
Qed.

(** X12. What [_persistState] writes as [presets] reads back in the
    constructor: for labels without a comma, the keys of the object the
    constructor builds from the persisted string are exactly
    ["babel-preset-" + label] for the non-empty labels that were joined,
    which are those of the enabled and loaded presets, ["babili"] when
    that plugin is enabled and ["env"] when the env preset is. *)
Theorem persisted_presets_round_trip c babili :
  getKey "babili-standalone" (plugins (state c)) = Some babili ->
  Forall (fun e => Js.contains "," (label (config (snd e))) = false)
    (presets (state c)) ->
  exists payload,
    _persistState c =
      (Ok (),
       mkComponent (state c) (_numLoadingPlugins c) (_compileToState c)
         (outbox c ++ [Persist payload])) /\
    p_presets payload = Js.join "," (persistedLabels (state c) babili) /\
    forall key,
      key ∈ List.map fst (defaultPresets (Some (p_presets payload))) <->
      exists l, l ∈ persistedLabels (state c) babili /\ l <> EmptyString /\
                key = "babel-preset-" +:+ l.
Proof using envConfigToTargetsString.
  intros Hget Hcommas.
  assert (Hjoin :
    (if Compile.isEnvPresetEnabled (envConfig (state c))
     then (if isEnabled babili
           then _presetsToArray (state c) ++ ["babili"]
           else _presetsToArray (state c)) ++ ["env"]
     else if isEnabled babili
          then _presetsToArray (state c) ++ ["babili"]
          else _presetsToArray (state c))
    = persistedLabels (state c) babili).
  { unfold persistedLabels.
    destruct (Compile.isEnvPresetEnabled (envConfig (state c)));
      destruct (isEnabled babili);
      rewrite ?app_nil_r, <- ?app_assoc; reflexivity. }
  eexists. split; [|split].
  - unfold Repl._persistState. exec. rewrite Hget. reflexivity.
  - cbn [p_presets]. now rewrite Hjoin.
  - cbn [p_presets]. rewrite Hjoin. intros key.
    destruct (defaultPresets_keys
                (Some (Js.join "," (persistedLabels (state c) babili))))
      as (_ & _ & ->).
    cbn [persistedPresets].
    destruct (persistedLabels (state c) babili) as [|l0 ls] eqn:El.
    + cbn. split.
      * intros (piece & Hp & Hne & _).
        apply list_elem_of_singleton in Hp. congruence.
      * intros (l & Hl & _). now apply not_elem_of_nil in Hl.
    + change "," with (String "," EmptyString) at 1.
      rewrite MoreJsFacts.split_join; [reflexivity | discriminate |].
      rewrite <- El. now apply persistedLabels_commas.
Qed.

End WithCollaborators.

(** *** The request on the worker's side *)

Section WithBabel.

Context {BabelState Ast SourceMap EnvResult : Type}.
Variable Babel_transform :
  string -> Compile.TransformOptions -> BabelState ->
  @Compile.TransformRun Ast SourceMap EnvResult * BabelState.
Variable JSON_stringify_ast : Ast -> Js.Error + string.
Variable JSON_stringify_map : SourceMap -> Js.Error + string.
Variable getDebugInfoFromEnvResult : EnvResult -> string.

Abbreviation compile :=
  (Compile.compile Babel_transform JSON_stringify_ast JSON_stringify_map
     getDebugInfoFromEnvResult).

(** X14. Compiling a request built by [_compile]: the transform gets the
    request's presets followed by the env entry exactly when the env
    preset is loaded and enabled, and then with the debug flag of the
    state, the targets of its env config, and built-ins only while
    evaluation is not both switched on and loaded; a source map is
    requested as soon as evaluation is switched on. *)
Theorem env_preset_participation s presetsArray source config
    (w : Compile.World) :
  Compile.snapshot (Compile.heap w) config = compileConfig s presetsArray ->
  Compile.calls (snd (compile source config w)) =
  Compile.calls w ++
  [(source,
    Compile.mkTransformOptions false "repl"
      (List.map Compile.PresetName presetsArray
       ++ (if isLoaded (envPresetState s)
              && Compile.isEnvPresetEnabled (envConfig s)
           then [Compile.PresetWithOptions "env"
                   (Compile.mkEnvOptions (debugEnvPreset s)
                      (Compile.buildTargets (envConfig s))
                      (negb (isEnabled (runtimePolyfillState s)
                             && isLoaded (runtimePolyfillState s))
                       && builtIns s))]
           else []))
      (isEnabled (runtimePolyfillState s)))].
Proof.
  intros Hsnap. unfold Compile.snapshot, compileConfig in Hsnap.
  injection Hsnap as Hdbg Henv Hev Hpre Hsm Hbi.
  rewrite CompileFacts.compile_calls, CompileFacts.compile_heap.
  unfold Compile.envEnabled, Compile.buildOptions. rewrite Henv, Hdbg, Hev, Hbi, Hsm.
  destruct (isLoaded (envPresetState s)); cbn [andb];
    [destruct (Compile.isEnvPresetEnabled (envConfig s))|];
    rewrite ?CompileFacts.deref_push_same, Hpre, ?app_nil_r; reflexivity.
Qed.

End WithBabel.

End ReplMore.

(** ** The further theorems at work *)

Module MoreInstances.

Import Compile Scenarios.

(** An AST that cannot be serialized: the empty source. *)
Lemma compile_ast_throws_witness :
  fst (compile namingTransform stringify_ast_strict stringify_map debugInfo
         "" envOff world0)
  = failure (Js.mkError "TypeError" "Converting circular structure to JSON").
Proof.
  apply (CompileMore.compile_ast_throws namingTransform stringify_ast_strict
           stringify_map debugInfo "" envOff world0
           (mkTransformed "react" "" false)); reflexivity.
Defined.

(** A plain run without a source map: the clock read 10 and then 11. *)
Lemma compile_success_witness :
  let r := fst (compile namingTransform stringify_ast stringify_map debugInfo
                  "x" envOff world0) in
  compiled r = Some "react" /\ ast r = Some "x" /\
  compileErrorMessage r = None /\ transformTime r = Some 1 /\
  r_sourceMap r = None.
Proof.
  destruct (CompileMore.compile_success namingTransform stringify_ast
              stringify_map debugInfo "x" envOff world0
              (mkTransformed "react" "x" false) "x" eq_refl eq_refl)
    as (H1 & H2 & H3 & H4 & H5 & _).
  repeat split; assumption.
Defined.

(** The appended entry sits at index 1; the last report to it wins and
    the report to entry 0 is ignored. *)
Lemma compile_debug_info_witness :
  envPresetDebugInfo
    (fst (compile reportingTransform stringify_ast stringify_map debugInfo
            "x" envOn world0)) = Some "last" /\
  envPresetDebugInfo
    (fst (compile reportingTransform stringify_ast stringify_map debugInfo
            "x" envOff world0)) = None.
Proof.
  split.
  - destruct (CompileMore.compile_debug_info reportingTransform stringify_ast
                stringify_map debugInfo "x" envOn world0) as [_ H].
    rewrite (H ie11 (mkTransformed "x" "x" false) "x");
      try reflexivity.
  - destruct (CompileMore.compile_debug_info reportingTransform stringify_ast
                stringify_map debugInfo "x" envOff world0) as [H _].
    apply H. now left.
Defined.

(** The targets built from [ie11] are built again from their own
    entries. *)
Lemma buildTargets_normal_witness :
  buildTargets
    (mkEnvConfig "ie 11,chrome 50" None true false true (Some "8"))
  = buildTargets ie11.
Proof.
  apply (CompileMore.buildTargets_normal ie11 ["ie 11"; "chrome 50"]).
  - reflexivity.
  - discriminate.
Defined.

(** The browsers list for a string with blanks around the commas, an
    empty piece and a blank one; no other list fits the wording. *)
Lemma browsers_list_pinned :
  let s := " ie 11,chrome 50 ,, " in
  t_browsers (buildTargets (mkEnvConfig s None true false false None))
  = Some ["ie 11"; "chrome 50"] /\
  forall entries, browsersOf s entries -> entries = ["ie 11"; "chrome 50"].
Proof.
  cbv zeta. split; [vm_compute; reflexivity|].
  intros entries H.
  pose proof (CompileFacts.buildTargets_browsersOf
                (mkEnvConfig " ie 11,chrome 50 ,, " None true false false None))
    as H0.
  change (t_browsers (buildTargets _)) with (Some ["ie 11"; "chrome 50"]) in H0.
  destruct H0 as [_ H0]. exact (CompileMore.browsersOf_unique _ _ _ H H0).
Qed.

Import Repl.

Abbreviation runWith := (Repl.run noTargets noEval).
Abbreviation stepWith := (Repl.step noTargets noEval).

(** One plugin to load, nothing else. *)
Lemma check_requests_witness :
  exists c',
    _checkForUnloadedPlugins unloadedBabili = (Ok (), c') /\
    outbox c' = [WorkerLoadPlugin "babili-standalone"] /\
    _numLoadingPlugins c' = 1.
Proof.
  destruct (ReplMore.check_requests unloadedBabili) as (c' & H1 & H2 & H3 & _).
  - repeat constructor. apply not_elem_of_nil.
  - exists c'. split; [exact H1|]. split; [exact H2 | exact H3].
Defined.

(** Without the plugin the timer is used up and nothing goes out. *)
Lemma missing_babili_witness :
  stepWith noPlugins (500, Timer)
  = mkComponent (state noPlugins) 0 None [].
Proof.
  destruct (ReplMore.missing_babili noTargets noEval "x" PersistState noPlugins)
    as (_ & _ & H); [reflexivity | discriminate |].
  apply (H 500 0); [reflexivity | cbv [DEBOUNCE_DELAY]; lia].
Defined.

(** The timer dispatches the pending call once; expiring again it does
    nothing. *)
Lemma timer_fires_once_witness :
  let c1 := stepWith pendingEdit (500, Timer) in
  _compileToState c1 = None /\ stepWith c1 (501, Timer) = c1.
Proof.
  destruct (ReplMore.timer_fires_once noTargets noEval 500 501 "x" 0
              pendingEdit)
    as (H1 & H2 & _); [reflexivity | left; cbv [DEBOUNCE_DELAY]; lia |].
  split; assumption.
Defined.


(** What [idle] persists comes back as the keys of es2015 and babili. *)
Lemma persisted_presets_round_trip_witness :
  exists payload,
    outbox (snd (_persistState noTargets idle)) = [Persist payload] /\
    p_presets payload = "es2015,babili" /\
    "babel-preset-babili"
      ∈ List.map fst (defaultPresets (Some (p_presets payload))).
Proof.
  destruct (ReplMore.persisted_presets_round_trip noTargets idle
              (preset "babili" true true false))
    as (payload & H1 & H2 & H3).
  - reflexivity.
  - repeat constructor.
  - exists payload. rewrite H1. split; [reflexivity|]. split; [exact H2|].
    apply H3. exists "babili". split; [|split; [discriminate | reflexivity]].
    vm_compute. right. left.
Defined.

(** The request built from [envState], compiled by the worker: the env
    entry is appended, without built-ins since evaluation is on. *)
Lemma env_preset_participation_witness :
  List.map (fun call => t_presets (snd call))
    (calls (snd (compile namingTransform stringify_ast stringify_map debugInfo
                   "x" envRequestObject envRequestWorld)))
  = [[PresetName "es2015";
      PresetWithOptions "env"
        (mkEnvOptions false (buildTargets ie11) false)]].
Proof.
  rewrite (ReplMore.env_preset_participation namingTransform stringify_ast
             stringify_map debugInfo envState ["es2015"] "x" envRequestObject
             envRequestWorld); reflexivity.
Defined.


(** Evaluation switched on in [idle]: the polyfill is asked for, and the
    request wants a source map but does not evaluate yet. *)
Lemma toggled_evaluation_witness :
  LoadRuntimePolyfill
    ∈ outbox (stepWith idle (0, SettingChange "babel-polyfill" true)) /\
  exists cfg,
    compileRequests
      (runWith [(0, SettingChange "babel-polyfill" true); (500, Timer)] idle)
    = [WorkerCompile "x" cfg PersistState] /\
    Compile.sourceMap cfg = true /\ Compile.evaluate cfg = false.
Proof.
  destruct (ReplMore.toggled_evaluation noTargets noEval 0 500 true idle
              (preset "babili" true true false))
    as ((new & Hout & Hnew) & (cfg & H1 & H2 & H3)).
  - repeat constructor. apply not_elem_of_nil.
  - discriminate.
  - reflexivity.
  - cbv [DEBOUNCE_DELAY]. lia.
  - split.
    + rewrite Hout. apply elem_of_app. right. apply Hnew. now split.
    + exists cfg. split; [exact H1|]. split; [exact H2 | exact H3].
Defined.

(** With babili, the env preset and the polyfill loaded, neither the
    check nor switching any of them off and on asks for it. *)
Lemma check_skips_settled_witness :
  (WorkerLoadPlugin "babili-standalone"
     ∉ outbox (snd (_checkForUnloadedPlugins allLoaded))) /\
  (WorkerLoadPlugin "babili-standalone"
     ∉ outbox (runWith [(10, SettingChange "babili-standalone" false);
                        (20, SettingChange "babili-standalone" true)]
                 allLoaded)) /\
  (WorkerLoadEnvPreset
     ∉ outbox (runWith
                 [(10, EnvPresetSettingChange (IsEnvPresetEnabled false));
                  (20, EnvPresetSettingChange (IsEnvPresetEnabled true))]
                 allLoaded)) /\
  (LoadRuntimePolyfill
     ∉ outbox (runWith [(10, SettingChange "babel-polyfill" false);
                        (20, SettingChange "babel-polyfill" true)]
                 allLoaded)).
Proof.
  destruct (ReplMore.check_skips_settled noTargets noEval allLoaded)
    as (Hplugin & _ & Henv & Hpoly).
  destruct (Hplugin "babili-standalone" (preset "babili" true true false)
              eq_refl (or_introl eq_refl)) as [[new1 [E1 N1]] Htoggle].
  destruct (Htoggle eq_refl 10 20) as [new2 [E2 N2]].
  destruct (Henv eq_refl 10 20) as [new3 [E3 N3]].
  destruct (Hpoly eq_refl 10 20) as [new4 [E4 N4]].
  split; [|split; [|split]].
  - rewrite E1. exact N1.
  - rewrite E2. exact N2.
  - rewrite E3. exact N3.
  - rewrite E4. exact N4.
Defined.

(** Switching the react preset off from [idle]. *)
Lemma setting_changes_debounced_witness :
  let c' := stepWith idle (5, SettingChange "babel-preset-react" false) in
  _compileToState c' = Some ("x", 5) /\ code (state c') = "x" /\
  compileRequests c' = [].
Proof.
  destruct (ReplMore.setting_changes_debounced noTargets noEval 5
              (SettingChange "babel-preset-react" false) idle eq_refl)
    as (Htimer & Hcode & _ & Hreq).
  cbv zeta. split; [exact Htimer|]. split; [exact Hcode | exact Hreq].
Defined.

(** Unfolding the settings tab from [idle]. *)
Lemma results_change_only_witness :
  results
    (state (stepWith idle (5, TabExpandedChange "isSettingsTabExpanded" true)))
  = results (state idle).
Proof.
  exact (proj1 (ReplMore.results_change_only noTargets noEval 5
                  (TabExpandedChange "isSettingsTabExpanded" true) idle
                  eq_refl)).
Defined.

End MoreInstances.
